(** * The quiz router of nerolusi-prisma, embedded and verified

    The handlers of [src/server/api/routers/quiz.ts] are request handlers
    over a relational store reached through an ORM.  They are embedded here
    as computations in a small state-and-exception monad over a [World]:
    the tables of the store, the system clock that [new Date()] reads, and
    the journal of ORM calls made so far.

    Numbers that the handlers only compare and add (ids, indices, scores,
    epoch milliseconds) are integers of [Z]; strings are sequences of
    UTF-16 code units. *)

From Stdlib Require Import ZArith NArith List String Ascii Bool Lia.
From Stdlib Require Import Sorting.Sorted Sorting.Permutation.
Import ListNotations.

Local Open Scope Z_scope.

(** ** Strings *)

(** A JavaScript string is a sequence of 16-bit code units. *)
Definition jsstring := list N.

(** Literals of the source, written as Rocq strings, one code unit per
    character. *)
Fixpoint js (s : string) : jsstring :=
  match s with
  | EmptyString => []
  | String c s' => N_of_ascii c :: js s'
  end.

Arguments js s : simpl never.

(** [a === b] on two strings. *)
Fixpoint strictEq (a b : jsstring) : bool :=
  match a, b with
  | [], [] => true
  | x :: a', y :: b' => N.eqb x y && strictEq a' b'
  | _, _ => false
  end.

(** [a === b] where each side may be [null]/[undefined]. *)
Definition strictEqOpt (a b : option jsstring) : bool :=
  match a, b with
  | Some x, Some y => strictEq x y
  | None, None => true
  | _, _ => false
  end.

(** The code units that [String.prototype.trim] strips: ECMAScript's
    WhiteSpace and LineTerminator productions. *)
Definition isWhiteSpace (c : N) : bool :=
  ((9 <=? c) && (c <=? 13) || (c =? 32) || (c =? 160) || (c =? 5760)
   || (8192 <=? c) && (c <=? 8202) || (c =? 8232) || (c =? 8233)
   || (c =? 8239) || (c =? 8287) || (c =? 12288) || (c =? 65279))%N.

Fixpoint trimStart (s : jsstring) : jsstring :=
  match s with
  | [] => []
  | c :: s' => if isWhiteSpace c then trimStart s' else s
  end.

Definition trimEnd (s : jsstring) : jsstring := rev (trimStart (rev s)).

Definition trim (s : jsstring) : jsstring := trimEnd (trimStart s).

(** [String.prototype.toLowerCase] follows the Unicode case mapping, which
    is not reproduced here: the handlers take it as a parameter
    [toLowerCase].  On strings of ASCII code units the Unicode mapping is
    [asciiToLowerCase]. *)
Definition asciiLower (c : N) : N :=
  if ((65 <=? c) && (c <=? 90))%N then (c + 32)%N else c.

Definition asciiToLowerCase (s : jsstring) : jsstring := map asciiLower s.

Definition isAscii (s : jsstring) : Prop := Forall (fun c => (c < 128)%N) s.

Definition agreesOnAscii (lower : jsstring -> jsstring) : Prop :=
  forall s, isAscii s -> lower s = asciiToLowerCase s.

(** ** Data model: the rows of the tables the router touches *)

Module Announcement.
Record t := mk
  { id : Z;
    title : option jsstring;
    content : option jsstring;
    url : option jsstring }.
End Announcement.

Module Package.
Record t := mk
  { id : Z;
    name : jsstring;
    type : jsstring;
    classId : Z;
    TOstart : Z;
    TOend : Z }.
End Package.

Module Subtest.
Record t := mk
  { id : Z;
    type : jsstring;
    duration : Z;
    packageId : Z }.
End Subtest.

Module Question.
Record t := mk
  { id : Z;
    index : Z;
    content : jsstring;
    imageUrl : option jsstring;
    type : jsstring;
    score : Z;
    explanation : option jsstring;
    correctAnswerChoice : option Z;
    subtestId : Z }.
End Question.

Module Answer.
Record t := mk
  { id : Z;
    index : Z;
    content : jsstring;
    questionId : Z }.
End Answer.

Module QuizSession.
Record t := mk
  { id : Z;
    userId : jsstring;
    packageId : Z;
    subtestId : Z;
    duration : Z;
    endTime : Z }.
End QuizSession.

Module UserAnswer.
Record t := mk
  { userId : jsstring;
    packageId : Z;
    quizSessionId : Z;
    questionId : Z;
    answerChoice : option Z;
    essayAnswer : option jsstring }.

(** The composite unique key [userId_quizSessionId_questionId]. *)
Definition hasKey (u : jsstring) (s q : Z) (r : t) : bool :=
  strictEq (userId r) u && (quizSessionId r =? s) && (questionId r =? q).
End UserAnswer.

(** A user: a row of the User table and, for the authenticated caller,
    [ctx.session.user]. *)
Module User.
Record t := mk { id : jsstring; role : jsstring }.
End User.

(** ** The store *)

(** One list of rows per table, in the order the store returns them when no
    [orderBy] is given.  That order is not specified by the store; the model
    appends created rows and updates rows in place.

    Modelled from the spec: the schema of the Announcement table is not
    among the sources.  [announcementSeq] is the id the store gives to the
    next Announcement row created without one, a sequence as the id columns
    of the store have; the specification's "fixed id = 1" is the case of an
    empty table whose sequence stands at 1. *)
Record Store := mkStore
  { announcement : list Announcement.t;
    announcementSeq : Z;
    package : list Package.t;
    subtest : list Subtest.t;
    question : list Question.t;
    answer : list Answer.t;
    quizSession : list QuizSession.t;
    userAnswer : list UserAnswer.t;
    user : list User.t }.

Definition emptyStore : Store := mkStore [] 1 [] [] [] [] [] [] [].

Definition setAnnouncement (rows : list Announcement.t) (seq : Z) (s : Store) : Store :=
  mkStore rows seq (package s) (subtest s) (question s) (answer s)
        (quizSession s) (userAnswer s) (user s).

Definition setUserAnswer (rows : list UserAnswer.t) (s : Store) : Store :=
  mkStore (announcement s) (announcementSeq s) (package s) (subtest s)
        (question s) (answer s) (quizSession s) rows (user s).

(** ** Worlds and handler computations *)

(** The ORM calls of the router, as recorded in the journal. *)
Inductive DbOp :=
| AnnouncementFindFirst
| AnnouncementUpsert
| PackageFindUnique
| QuizSessionFindFirst
| QuizSessionFindUnique
| QuestionFindMany
| UserAnswerUpsert
| QuizSessionCreate
| QuizSessionUpdate
| SubtestFindMany
| AnswerFindMany.

(** [clock k] is what the [k]-th evaluation of [new Date()] yields, in epoch
    milliseconds; [reads] counts the evaluations so far. *)
Record World := mkWorld
  { db : Store;
    clock : nat -> Z;
    reads : nat;
    journal : list DbOp }.

Inductive Outcome (A : Type) :=
| Return (a : A)
| Throw (message : string).
Arguments Return {A} a.
Arguments Throw {A} message.

Definition M (A : Type) := World -> Outcome A * World.

Definition ret {A} (a : A) : M A := fun w => (Return a, w).

Definition throw {A} (message : string) : M A := fun w => (Throw message, w).

Definition bind {A B} (c : M A) (k : A -> M B) : M B :=
  fun w =>
    match c w with
    | (Return a, w') => k a w'
    | (Throw e, w') => (Throw e, w')
    end.

Declare Scope handler_scope.
Delimit Scope handler_scope with handler.
Notation "x <- c ;; k" := (bind c (fun x => k))
  (at level 100, c at next level, right associativity) : handler_scope.
Local Open Scope handler_scope.

(** [new Date()], as the millisecond value it compares by. *)
Definition newDate : M Z :=
  fun w => (Return (clock w (reads w)),
          mkWorld (db w) (clock w) (S (reads w)) (journal w)).

(** An ORM call that only reads the store. *)
Definition query {A} (op : DbOp) (f : Store -> A) : M A :=
  fun w => (Return (f (db w)),
          mkWorld (db w) (clock w) (reads w) (journal w ++ [op])).

(** An ORM call that may write the store or be refused by it. *)
Definition mutation {A} (op : DbOp) (f : Store -> Outcome A * Store) : M A :=
  fun w => let '(r, s) := f (db w) in
         (r, mkWorld s (clock w) (reads w) (journal w ++ [op])).


(** A value that may be [null] or [undefined]. *)
Inductive Nullable (A : Type) :=
| Value (a : A)
| Null
| Undefined.
Arguments Value {A} a.
Arguments Null {A}.
Arguments Undefined {A}.

(** ** Announcement *)

Module AnnouncementInput.
Record t := mk
  { title : option jsstring;
    content : option jsstring;
    url : option jsstring }.
End AnnouncementInput.

(** A field of an [update] payload: [undefined] leaves the column as it is. *)
Definition orKeep {A} (new old : option A) : option A :=
  match new with
  | Some v => Some v
  | None => old
  end.

Definition isId (i : Z) (r : Announcement.t) : bool := Announcement.id r =? i.

(** [announcement.upsert({ where: { id }, update, create })].  The [create]
    payload of the router carries no id: the store draws it from the table's
    sequence, and refuses the insert when that id is taken. *)
Definition announcement_upsert (whereId : Z)
    (update : Announcement.t -> Announcement.t)
    (create : Z -> Announcement.t) : M Announcement.t :=
  mutation AnnouncementUpsert (fun s =>
    match find (isId whereId) (announcement s) with
    | Some r =>
        (Return (update r),
         setAnnouncement
           (map (fun x => if isId whereId x then update x else x) (announcement s))
           (announcementSeq s) s)
    | None =>
        let fresh := announcementSeq s in
        if existsb (isId fresh) (announcement s)
        then (Throw "Unique constraint failed on the fields: (`id`)",
              setAnnouncement (announcement s) (fresh + 1) s)
        else (Return (create fresh),
              setAnnouncement (announcement s ++ [create fresh]) (fresh + 1) s)
    end).

Definition getAnnouncement (ctx : User.t) : M (option Announcement.t) :=
  query AnnouncementFindFirst (fun s => head (announcement s)).

Definition upsertAnnouncement (ctx : User.t) (input : AnnouncementInput.t)
  : M Announcement.t :=
  announcement_upsert 1
    (fun r => Announcement.mk (Announcement.id r)
                (orKeep (AnnouncementInput.title input) (Announcement.title r))
                (orKeep (AnnouncementInput.content input) (Announcement.content r))
                (orKeep (AnnouncementInput.url input) (Announcement.url r)))
    (fun fresh => Announcement.mk fresh
                (AnnouncementInput.title input)
                (AnnouncementInput.content input)
                (AnnouncementInput.url input)).

(** ** Answer submission *)

Module SaveAnswerInput.
Record t := mk
  { answerChoice : option Z;
    essayAnswer : option jsstring;
    questionId : Z;
    userId : jsstring;
    packageId : Z;
    quizSessionId : Z }.
End SaveAnswerInput.

(** A value fits a 32-bit integer column. *)
Definition fitsInt (z : Z) : bool := (-2147483648 <=? z) && (z <=? 2147483647).

Definition fitsIntOpt (z : option Z) : bool :=
  match z with
  | Some v => fitsInt v
  | None => true
  end.

(** Modelled from the spec: the schema of the UserAnswer table is not among
    the sources.  Its numbers are 32-bit integer columns and, as the
    specification's persisted schema has it, a UserAnswer row references a
    User, a Package, a QuizSession and a Question; the store admits a new
    row only if its numbers fit and the four referenced rows exist. *)
Definition userAnswerFits (r : UserAnswer.t) : bool :=
  fitsInt (UserAnswer.packageId r) && fitsInt (UserAnswer.quizSessionId r)
  && fitsInt (UserAnswer.questionId r) && fitsIntOpt (UserAnswer.answerChoice r).

Definition userAnswerReferences (st : Store) (r : UserAnswer.t) : bool :=
  existsb (fun u => strictEq (User.id u) (UserAnswer.userId r)) (user st)
  && existsb (fun p => Package.id p =? UserAnswer.packageId r) (package st)
  && existsb (fun x => QuizSession.id x =? UserAnswer.quizSessionId r) (quizSession st)
  && existsb (fun x => Question.id x =? UserAnswer.questionId r) (question st).

(** [userAnswer.upsert] on the composite key.  The insert of the [create]
    payload is refused when the store does not admit the row.  An updated
    row keeps its place in the list that stands for the table. *)
Definition userAnswer_upsert (u : jsstring) (s q : Z)
    (update : UserAnswer.t -> UserAnswer.t) (create : UserAnswer.t)
  : M UserAnswer.t :=
  mutation UserAnswerUpsert (fun st =>
    match find (UserAnswer.hasKey u s q) (userAnswer st) with
    | Some r =>
        (Return (update r),
         setUserAnswer
           (map (fun x => if UserAnswer.hasKey u s q x then update x else x)
                (userAnswer st)) st)
    | None =>
        if negb (userAnswerFits create)
        then (Throw "Value out of range for the type", st)
        else if negb (userAnswerReferences st create)
        then (Throw "Foreign key constraint violated", st)
        else (Return create, setUserAnswer (userAnswer st ++ [create]) st)
    end).

Definition isNull {A} (x : option A) : bool :=
  match x with
  | None => true
  | Some _ => false
  end.

Definition saveAnswer (ctx : User.t) (input : SaveAnswerInput.t) : M UserAnswer.t :=
  let answerChoice := SaveAnswerInput.answerChoice input in
  let essayAnswer := SaveAnswerInput.essayAnswer input in
  let questionId := SaveAnswerInput.questionId input in
  let userId := SaveAnswerInput.userId input in
  let packageId := SaveAnswerInput.packageId input in
  let quizSessionId := SaveAnswerInput.quizSessionId input in
  if isNull answerChoice && isNull essayAnswer
  then throw "Either answerChoice or essayAnswer must be provided."
  else
    userAnswer <- userAnswer_upsert userId quizSessionId questionId
      (fun r => UserAnswer.mk (UserAnswer.userId r) (UserAnswer.packageId r)
                  (UserAnswer.quizSessionId r) (UserAnswer.questionId r)
                  answerChoice essayAnswer)
      (UserAnswer.mk userId packageId quizSessionId questionId
                  answerChoice essayAnswer) ;;
    ret userAnswer.

(** ** Sessions *)

(** A row's required relation: the parent row its foreign key names.  Rows
    whose parent is missing, which the schema's foreign keys exclude, are
    not part of a joined result. *)
Definition joinParent {A B C} (parent : A -> option B) (f : A -> B -> C)
    (rows : list A) : list C :=
  flat_map (fun a => match parent a with
                     | Some b => [f a b]
                     | None => []
                     end) rows.

Definition packageOf (s : Store) (pid : Z) : option Package.t :=
  find (fun p => Package.id p =? pid) (package s).

Definition subtestOf (s : Store) (sid : Z) : option Subtest.t :=
  find (fun t => Subtest.id t =? sid) (subtest s).

Definition questionOf (s : Store) (qid : Z) : option Question.t :=
  find (fun q => Question.id q =? qid) (question s).

Definition sessionOf (u : jsstring) (sid : Z) (r : QuizSession.t) : bool :=
  strictEq (QuizSession.userId r) u && (QuizSession.subtestId r =? sid).

Module GetSessionInput.
Record t := mk { userId : jsstring; subtestId : Z }.
End GetSessionInput.

Definition getSession (ctx : User.t) (input : GetSessionInput.t)
  : M (option QuizSession.t) :=
  query QuizSessionFindFirst (fun s =>
    find (sessionOf (GetSessionInput.userId input) (GetSessionInput.subtestId input))
         (quizSession s)).

(** The result of [quizSession.findUnique] with [subtest], the package's
    [TOend] and the session's answers included. *)
Module SessionDetails.
Record t := mk
  { session : QuizSession.t;
    subtest : Subtest.t;
    package_TOend : Z;
    userAnswers : list UserAnswer.t }.
End SessionDetails.

Definition sessionDetails (s : Store) (sessionId : Z) : list SessionDetails.t :=
  joinParent
    (fun r => match subtestOf s (QuizSession.subtestId r),
                    packageOf s (QuizSession.packageId r) with
              | Some t, Some p => Some (t, p)
              | _, _ => None
              end)
    (fun r tp => SessionDetails.mk r (fst tp) (Package.TOend (snd tp))
                   (filter (fun a => (UserAnswer.quizSessionId a =? QuizSession.id r)
                                     && (UserAnswer.quizSessionId a =? sessionId))
                           (userAnswer s)))
    (filter (fun r => QuizSession.id r =? sessionId) (quizSession s)).

Definition getSessionDetails (ctx : User.t) (sessionId : Z)
  : M (option SessionDetails.t) :=
  session <- query QuizSessionFindUnique (fun s => head (sessionDetails s sessionId)) ;;
  match session with
  | None => ret None
  | Some session =>
      if negb (strictEq (QuizSession.userId (SessionDetails.session session))
                        (User.id ctx))
         && negb (strictEq (User.role ctx) (js "admin"))
      then ret None
      else ret (Some session)
  end.

(** ** Question delivery *)

(** A question as [question.findMany] returns it with [include: { answers:
    true }].  The three fields the router may overwrite with [null] are
    optional here. *)
Module QuestionView.
Record t := mk
  { id : Z;
    index : Z;
    content : jsstring;
    imageUrl : option jsstring;
    type : jsstring;
    score : option Z;
    explanation : option jsstring;
    correctAnswerChoice : option Z;
    subtestId : Z;
    answers : list Answer.t }.
End QuestionView.

Definition answersOf (s : Store) (qid : Z) : list Answer.t :=
  filter (fun a => Answer.questionId a =? qid) (answer s).

Definition withAnswers (s : Store) (q : Question.t) : QuestionView.t :=
  QuestionView.mk (Question.id q) (Question.index q) (Question.content q)
    (Question.imageUrl q) (Question.type q) (Some (Question.score q))
    (Question.explanation q) (Question.correctAnswerChoice q)
    (Question.subtestId q) (answersOf s (Question.id q)).

(** [orderBy: { index: "asc" }], as a stable insertion sort. *)
Fixpoint insertByIndex (q : Question.t) (l : list Question.t) : list Question.t :=
  match l with
  | [] => [q]
  | x :: l' =>
      if Question.index q <=? Question.index x then q :: l
      else x :: insertByIndex q l'
  end.

Definition orderByIndexAsc (l : list Question.t) : list Question.t :=
  fold_right insertByIndex [] l.

Definition inSubtest (sid : Z) (q : Question.t) : bool := Question.subtestId q =? sid.

Definition question_findMany (sid : Z) : M (list QuestionView.t) :=
  query QuestionFindMany (fun s =>
    map (withAnswers s) (orderByIndexAsc (filter (inSubtest sid) (question s)))).

(** The callback of the open-window branch. *)
Definition redact (q : QuestionView.t) : QuestionView.t :=
  QuestionView.mk (QuestionView.id q) (QuestionView.index q)
    (QuestionView.content q) (QuestionView.imageUrl q) (QuestionView.type q)
    None None None (QuestionView.subtestId q) (QuestionView.answers q).

(** The session as selected by the handler: [endTime] and the package's
    [TOend]. *)
Module SessionWindow.
Record t := mk { endTime : Z; package_TOend : Z }.
End SessionWindow.

Definition sessionWindows (s : Store) (u : jsstring) (sid : Z) : list SessionWindow.t :=
  joinParent (fun r => packageOf s (QuizSession.packageId r))
    (fun r p => SessionWindow.mk (QuizSession.endTime r) (Package.TOend p))
    (filter (sessionOf u sid) (quizSession s)).

Module GetQuestionsInput.
Record t := mk { subtestId : Z; userId : option jsstring }.
End GetQuestionsInput.

(** The user the session lookup is scoped to. *)
Definition scopedUser (ctx : User.t) (input : GetQuestionsInput.t) : jsstring :=
  if strictEq (User.role ctx) (js "admin")
  then match GetQuestionsInput.userId input with
       | Some u => u
       | None => User.id ctx
       end
  else User.id ctx.

Definition getQuestionsBySubtest (ctx : User.t) (input : GetQuestionsInput.t)
  : M (Nullable (list QuestionView.t)) :=
  let subtestId := GetQuestionsInput.subtestId input in
  session <- query QuizSessionFindFirst (fun s =>
               head (sessionWindows s (scopedUser ctx input) subtestId)) ;;
  match session with
  | None => ret Null
  | Some session =>
      now <- newDate ;;
      if SessionWindow.package_TOend session >? now
      then
        questions <- question_findMany subtestId ;;
        ret (Value (map redact questions))
      else
        now' <- newDate ;;
        if SessionWindow.package_TOend session <? now'
        then
          questions <- question_findMany subtestId ;;
          ret (Value questions)
        else ret Undefined
  end.

(** ** Scoring *)

(** What [package.findUnique] loads for scoring: per subtest the caller's
    sessions, per session the answers recorded under the requested package,
    each with its question's key, score and answer-choice texts. *)
Module ScoredQuestion.
Record t := mk
  { correctAnswerChoice : option Z;
    score : Z;
    answers : list jsstring }.
End ScoredQuestion.

Module ScoredAnswer.
Record t := mk
  { question : ScoredQuestion.t;
    answerChoice : option Z;
    essayAnswer : option jsstring }.
End ScoredAnswer.

Module ScoredSession.
Record t := mk
  { endTime : Z;
    package_TOend : Z;
    userAnswers : list ScoredAnswer.t }.
End ScoredSession.

Module PackageSubtest.
Record t := mk
  { subtest : Subtest.t;
    quizSession : list ScoredSession.t }.
End PackageSubtest.

Module PackageData.
Record t := mk
  { name : jsstring;
    type : jsstring;
    TOstart : Z;
    TOend : Z;
    subtests : list PackageSubtest.t }.
End PackageData.

Definition scoredAnswers (s : Store) (sessionId pkgId : Z) : list ScoredAnswer.t :=
  joinParent (fun a => questionOf s (UserAnswer.questionId a))
    (fun a q =>
       ScoredAnswer.mk
         (ScoredQuestion.mk (Question.correctAnswerChoice q) (Question.score q)
            (map Answer.content (answersOf s (Question.id q))))
         (UserAnswer.answerChoice a) (UserAnswer.essayAnswer a))
    (filter (fun a => (UserAnswer.quizSessionId a =? sessionId)
                      && (UserAnswer.packageId a =? pkgId))
            (userAnswer s)).

Definition scoredSessions (s : Store) (u : jsstring) (sid pkgId : Z)
  : list ScoredSession.t :=
  joinParent (fun r => packageOf s (QuizSession.packageId r))
    (fun r p => ScoredSession.mk (QuizSession.endTime r) (Package.TOend p)
                  (scoredAnswers s (QuizSession.id r) pkgId))
    (filter (fun r => (QuizSession.subtestId r =? sid)
                      && strictEq (QuizSession.userId r) u)
            (quizSession s)).

Definition subtestsOf (s : Store) (pkgId : Z) : list Subtest.t :=
  filter (fun t => Subtest.packageId t =? pkgId) (subtest s).

Definition loadPackage (s : Store) (u : jsstring) (pkgId : Z) : option PackageData.t :=
  match packageOf s pkgId with
  | Some p =>
      Some (PackageData.mk (Package.name p) (Package.type p)
              (Package.TOstart p) (Package.TOend p)
              (map (fun t => PackageSubtest.mk t (scoredSessions s u (Subtest.id t) pkgId))
                   (subtestsOf s pkgId)))
  | None => None
  end.

(** What the handler returns. *)
Module SubtestWithScore.
Record t := mk
  { subtest : Subtest.t;
    quizSession : option Z;
    score : option Z }.
End SubtestWithScore.

Module PackageWithScores.
Record t := mk
  { name : jsstring;
    type : jsstring;
    TOstart : Z;
    TOend : Z;
    totalScore : Z;
    subtests : list SubtestWithScore.t }.
End PackageWithScores.

(** [answer.answerChoice === correct], with [correct] a number. *)
Definition choiceIs (answerChoice : option Z) (correct : Z) : bool :=
  match answerChoice with
  | Some c => c =? correct
  | None => false
  end.

Section Scoring.

Variable toLowerCase : jsstring -> jsstring.

(** [essay.trim().toLowerCase() === answers[0]?.content.trim().toLowerCase()]:
    with no first answer the right-hand side is [undefined]. *)
Definition isEssayCorrect (essay : jsstring) (answers : list jsstring) : bool :=
  strictEqOpt (Some (toLowerCase (trim essay)))
              (option_map (fun content => toLowerCase (trim content)) (head answers)).

(** The callback of [userAnswers.reduce]. *)
Definition scoreStep (total : Z) (answer : ScoredAnswer.t) : Z :=
  let question := ScoredAnswer.question answer in
  match ScoredQuestion.correctAnswerChoice question with
  | Some correct =>
      total + (if choiceIs (ScoredAnswer.answerChoice answer) correct
               then ScoredQuestion.score question else 0)
  | None =>
      match ScoredAnswer.essayAnswer answer with
      | Some essay =>
          total + (if isEssayCorrect essay (ScoredQuestion.answers question)
                   then ScoredQuestion.score question else 0)
      | None => total
      end
  end.

Definition sessionScore (userAnswers : list ScoredAnswer.t) : Z :=
  fold_left scoreStep userAnswers 0.

(** The callback of [packageData.subtests.map]; [totalScore] is the variable
    of the enclosing handler that the callback adds to. *)
Definition scoreSubtest (totalScore : Z) (subtest : PackageSubtest.t)
  : M (SubtestWithScore.t * Z) :=
  match PackageSubtest.quizSession subtest with
  | [] =>
      ret (SubtestWithScore.mk (PackageSubtest.subtest subtest) None None, totalScore)
  | quizSession :: _ =>
      now <- newDate ;;
      if ScoredSession.package_TOend quizSession >? now
      then ret (SubtestWithScore.mk (PackageSubtest.subtest subtest)
                  (Some (ScoredSession.endTime quizSession)) None, totalScore)
      else
        let score := sessionScore (ScoredSession.userAnswers quizSession) in
        ret (SubtestWithScore.mk (PackageSubtest.subtest subtest)
               (Some (ScoredSession.endTime quizSession)) (Some score),
             totalScore + score)
  end.

Fixpoint scoreSubtests (totalScore : Z) (subtests : list PackageSubtest.t)
  : M (list SubtestWithScore.t * Z) :=
  match subtests with
  | [] => ret ([], totalScore)
  | subtest :: rest =>
      r <- scoreSubtest totalScore subtest ;;
      rs <- scoreSubtests (snd r) rest ;;
      ret (fst r :: fst rs, snd rs)
  end.

Definition getPackageWithSubtest (ctx : User.t) (id : Z) : M PackageWithScores.t :=
  packageData <- query PackageFindUnique (fun s => loadPackage s (User.id ctx) id) ;;
  match packageData with
  | None => throw "Package not found"
  | Some packageData =>
      r <- scoreSubtests 0 (PackageData.subtests packageData) ;;
      ret (PackageWithScores.mk (PackageData.name packageData)
             (PackageData.type packageData) (PackageData.TOstart packageData)
             (PackageData.TOend packageData) (snd r) (fst r))
  end.

End Scoring.

(** ** Notions used in the statements *)

Definition sumZ (l : list Z) : Z := fold_right Z.add 0 l.

Definition scoreOrZero (o : SubtestWithScore.t) : Z :=
  match SubtestWithScore.score o with
  | Some v => v
  | None => 0
  end.

(** The window of a session is closed from the [n]-th reading of the clock
    on. *)
Definition closedFrom (clk : nat -> Z) (n : nat) (toEnd : Z) : Prop :=
  forall k, (n <= k)%nat -> toEnd <= clk k.

Section Contributions.

Variable toLowerCase : jsstring -> jsstring.

(** What one stored answer adds to its subtest's score, read off the
    reducer: the essay comparison is reached only for a question without a
    correct-answer choice. *)
Definition answerScore (answer : ScoredAnswer.t) : Z :=
  let question := ScoredAnswer.question answer in
  match ScoredQuestion.correctAnswerChoice question,
        ScoredAnswer.essayAnswer answer with
  | Some correct, _ =>
      if choiceIs (ScoredAnswer.answerChoice answer) correct
      then ScoredQuestion.score question else 0
  | None, Some essay =>
      if isEssayCorrect toLowerCase essay (ScoredQuestion.answers question)
      then ScoredQuestion.score question else 0
  | None, None => 0
  end.

(** The contribution in the words of the specification: the question's
    score on a matching choice; otherwise, for a non-null essay answer, the
    question's score on a matching essay; otherwise nothing. *)
Definition claimedAnswerScore (answer : ScoredAnswer.t) : Z :=
  let question := ScoredAnswer.question answer in
  if match ScoredQuestion.correctAnswerChoice question with
     | Some correct => choiceIs (ScoredAnswer.answerChoice answer) correct
     | None => false
     end
  then ScoredQuestion.score question
  else
    match ScoredAnswer.essayAnswer answer with
    | Some essay =>
        if isEssayCorrect toLowerCase essay (ScoredQuestion.answers question)
        then ScoredQuestion.score question else 0
    | None => 0
    end.

(** How a loaded subtest and the reported one are related when the handler
    starts with clock [clk] at reading [n]. *)
Definition scoredAs (clk : nat -> Z) (n : nat)
    (st : PackageSubtest.t) (o : SubtestWithScore.t) : Prop :=
  SubtestWithScore.subtest o = PackageSubtest.subtest st /\
  forall quizSession rest,
    PackageSubtest.quizSession st = quizSession :: rest ->
    closedFrom clk n (ScoredSession.package_TOend quizSession) ->
    SubtestWithScore.score o
    = Some (sumZ (map answerScore (ScoredSession.userAnswers quizSession))).

End Contributions.

(** Every stored answer of a session, in the words of the specification:
    the session's answers, each joined to its question. *)
Definition claimedSessionAnswers (s : Store) (sessionId : Z) : list ScoredAnswer.t :=
  joinParent (fun a => questionOf s (UserAnswer.questionId a))
    (fun a q =>
       ScoredAnswer.mk
         (ScoredQuestion.mk (Question.correctAnswerChoice q) (Question.score q)
            (map Answer.content (answersOf s (Question.id q))))
         (UserAnswer.answerChoice a) (UserAnswer.essayAnswer a))
    (filter (fun a => UserAnswer.quizSessionId a =? sessionId) (userAnswer s)).

(** The unique constraint of the UserAnswer table. *)
Definition userAnswerUnique (rows : list UserAnswer.t) : Prop :=
  forall u s q, (List.length (filter (UserAnswer.hasKey u s q) rows) <= 1)%nat.

(** A submission that passes the precondition of [saveAnswer]. *)
Definition answered (input : SaveAnswerInput.t) : Prop :=
  SaveAnswerInput.answerChoice input <> None
  \/ SaveAnswerInput.essayAnswer input <> None.

(** The rows a submission is keyed to. *)
Definition keyOf (input : SaveAnswerInput.t) : UserAnswer.t -> bool :=
  UserAnswer.hasKey (SaveAnswerInput.userId input)
    (SaveAnswerInput.quizSessionId input) (SaveAnswerInput.questionId input).

(** Two rows agree outside [answerChoice] and [essayAnswer]. *)
Definition sameFrame (old new : UserAnswer.t) : Prop :=
  UserAnswer.userId new = UserAnswer.userId old /\
  UserAnswer.packageId new = UserAnswer.packageId old /\
  UserAnswer.quizSessionId new = UserAnswer.quizSessionId old /\
  UserAnswer.questionId new = UserAnswer.questionId old.

(** A row holds the answer of a submission. *)
Definition holds (input : SaveAnswerInput.t) (r : UserAnswer.t) : Prop :=
  UserAnswer.answerChoice r = SaveAnswerInput.answerChoice input /\
  UserAnswer.essayAnswer r = SaveAnswerInput.essayAnswer input.

(** The Announcement table holds nothing but the row with id 1, or is empty
    with its id sequence not yet drawn from. *)
Definition announcementSingleton (s : Store) : Prop :=
  (announcement s = [] /\ announcementSeq s = 1)
  \/ exists r, announcement s = [r] /\ Announcement.id r = 1.

(** A sequence of [upsertAnnouncement] calls, each on the world its
    predecessor left. *)
Definition upsertAnnouncements (ctx : User.t) (inputs : list AnnouncementInput.t)
    (w : World) : World :=
  fold_left (fun w input => snd (upsertAnnouncement ctx input w)) inputs w.

(** How [getQuestionsBySubtest] delivers a stored question: with the stored
    answer choices of that question, and with its key, explanation and score
    either as stored or null. *)
Definition delivered (s : Store) (revealed : bool)
    (q : Question.t) (v : QuestionView.t) : Prop :=
  QuestionView.id v = Question.id q /\
  QuestionView.index v = Question.index q /\
  QuestionView.content v = Question.content q /\
  QuestionView.imageUrl v = Question.imageUrl q /\
  QuestionView.type v = Question.type q /\
  QuestionView.subtestId v = Question.subtestId q /\
  QuestionView.answers v
  = filter (fun a => Answer.questionId a =? Question.id q) (answer s) /\
  if revealed
  then QuestionView.correctAnswerChoice v = Question.correctAnswerChoice q /\
       QuestionView.explanation v = Question.explanation q /\
       QuestionView.score v = Some (Question.score q)
  else QuestionView.correctAnswerChoice v = None /\
       QuestionView.explanation v = None /\
       QuestionView.score v = None.

Definition indexLe (a b : Question.t) : Prop := Question.index a <= Question.index b.

(** ** Concrete worlds used below *)

Definition constClock (t : Z) : nat -> Z := fun _ => t.

Definition worldOf (s : Store) (now : Z) : World := mkWorld s (constClock now) 0 [].

Definition student : User.t := User.mk (js "u1") (js "user").
Definition otherStudent : User.t := User.mk (js "u2") (js "user").

Definition admin : User.t := User.mk (js "t1") (js "admin").

(** One package closing at [toEnd], with one subtest, a multiple-choice
    question (key 1, 10 points) and an essay question (expected text
    "Jakarta", 5 points), and the session of user "u1" with both questions
    answered. *)
Definition examplePackage (toEnd : Z) : Package.t :=
  Package.mk 1 (js "Tryout 1") (js "tryout") 1 0 toEnd.

Definition exampleSubtest : Subtest.t := Subtest.mk 1 (js "pu") 30 1.

Definition choiceQuestion : Question.t :=
  Question.mk 1 1 (js "1 + 1 = ?") None (js "mulChoice") 10
    (Some (js "count")) (Some 1) 1.

Definition essayQuestion : Question.t :=
  Question.mk 2 2 (js "Capital of Indonesia?") None (js "essay") 5 None None 1.

Definition exampleAnswers : list Answer.t :=
  [ Answer.mk 1 1 (js "2") 1; Answer.mk 2 2 (js "3") 1;
    Answer.mk 3 1 (js "Jakarta") 2 ].

Definition exampleSession : QuizSession.t :=
  QuizSession.mk 1 (js "u1") 1 1 30 2000.

Definition exampleUserAnswers : list UserAnswer.t :=
  [ UserAnswer.mk (js "u1") 1 1 1 (Some 1) None;
    UserAnswer.mk (js "u1") 1 1 2 None (Some (js "jakarta")) ].

Definition exampleStore (toEnd : Z) : Store :=
  mkStore [] 1 [examplePackage toEnd] [exampleSubtest]
    [essayQuestion; choiceQuestion] exampleAnswers [exampleSession]
    exampleUserAnswers [student; otherStudent; admin].

(** A store whose only announcement is not the row with id 1. *)
Definition strayStore : Store :=
  mkStore [Announcement.mk 2 (Some (js "Old")) None None] 3 [] [] [] [] [] []
    [admin].

(** A closed package with two multiple-choice questions.  The first (key 2,
    10 points) is answered with an essay text only, one that matches its
    first listed answer choice; the second (key 1, 7 points) is answered
    rightly, in the same session, but recorded under package 2. *)
Definition mixedStore : Store :=
  mkStore [] 1
    [examplePackage 500; Package.mk 2 (js "Tryout 2") (js "tryout") 1 0 500]
    [exampleSubtest]
    [Question.mk 1 1 (js "Capital of France?") None (js "mulChoice") 10 None
       (Some 2) 1;
     Question.mk 2 2 (js "1 + 1 = ?") None (js "mulChoice") 7 None (Some 1) 1]
    [Answer.mk 1 1 (js "paris") 1; Answer.mk 2 2 (js "london") 1;
     Answer.mk 3 1 (js "2") 2; Answer.mk 4 2 (js "3") 2]
    [exampleSession]
    [UserAnswer.mk (js "u1") 1 1 1 None (Some (js " Paris "));
     UserAnswer.mk (js "u1") 2 1 2 (Some 1) None]
    [student].

(** Submissions and announcements used as inputs. *)
Definition emptySubmission : SaveAnswerInput.t :=
  SaveAnswerInput.mk None None 7 (js "u1") 1 3.

Definition essaySubmission : SaveAnswerInput.t :=
  SaveAnswerInput.mk None (Some (js "Jakarta")) 2 (js "u1") 1 1.

Definition choiceResubmission : SaveAnswerInput.t :=
  SaveAnswerInput.mk (Some 2) None 1 (js "u1") 99 1.

Definition emptyEssayAnswer : ScoredAnswer.t :=
  ScoredAnswer.mk (ScoredQuestion.mk None 5 []) None (Some (js "Jakarta")).

Definition helloAnnouncement : AnnouncementInput.t :=
  AnnouncementInput.mk (Some (js "Hello")) (Some (js "Tryout 1 is open")) None.

Definition closingAnnouncement : AnnouncementInput.t :=
  AnnouncementInput.mk None (Some (js "Tryout 1 is closed")) None.

(** ** The remaining procedures of the quiz router *)

Definition setQuizSession (rows : list QuizSession.t) (s : Store) : Store :=
  mkStore (announcement s) (announcementSeq s) (package s) (subtest s)
        (question s) (answer s) rows (userAnswer s) (user s).

Definition hasSessionId (i : Z) (r : QuizSession.t) : bool := QuizSession.id r =? i.

Module CreateSessionInput.
Record t := mk
  { userId : jsstring;
    packageId : Z;
    subtestId : Z;
    duration : Z }.
End CreateSessionInput.

(** [quizSession.create({ data })].

    Modelled from the spec: the schema of the QuizSession table is not among
    the sources.  The payload of the router carries no id; [fresh] is the id
    the store gives the new row, and the store refuses an id that is taken.
    The numbers of a session are 32-bit integer columns and, as the
    specification's persisted schema has it, a QuizSession row references a
    User, a Package and a Subtest; the store admits a new row only if its
    numbers fit and the three referenced rows exist. *)
Definition quizSessionFits (r : QuizSession.t) : bool :=
  fitsInt (QuizSession.id r) && fitsInt (QuizSession.packageId r)
  && fitsInt (QuizSession.subtestId r) && fitsInt (QuizSession.duration r).

Definition quizSessionReferences (st : Store) (r : QuizSession.t) : bool :=
  existsb (fun u => strictEq (User.id u) (QuizSession.userId r)) (user st)
  && existsb (fun p => Package.id p =? QuizSession.packageId r) (package st)
  && existsb (fun t => Subtest.id t =? QuizSession.subtestId r) (subtest st).

Definition quizSession_create (fresh : Z) (data : Z -> QuizSession.t)
  : M QuizSession.t :=
  mutation QuizSessionCreate (fun s =>
    if existsb (hasSessionId fresh) (quizSession s)
    then (Throw "Unique constraint failed on the fields: (`id`)", s)
    else if negb (quizSessionFits (data fresh))
    then (Throw "Value out of range for the type", s)
    else if negb (quizSessionReferences s (data fresh))
    then (Throw "Foreign key constraint violated", s)
    else (Return (data fresh), setQuizSession (quizSession s ++ [data fresh]) s)).

Definition createSession (fresh : Z) (ctx : User.t) (input : CreateSessionInput.t)
  : M QuizSession.t :=
  now <- newDate ;;
  quizSession_create fresh (fun id =>
    QuizSession.mk id
      (CreateSessionInput.userId input)
      (CreateSessionInput.packageId input)
      (CreateSessionInput.subtestId input)
      (CreateSessionInput.duration input)
      (now + CreateSessionInput.duration input * 60 * 1000)).

(** [quizSession.update({ where: { id }, data })]: the ORM throws when no
    row has the id.  An updated row keeps its place in the list that stands
    for the table. *)
Definition quizSession_update (whereId : Z)
    (update : QuizSession.t -> QuizSession.t) : M QuizSession.t :=
  mutation QuizSessionUpdate (fun s =>
    match find (hasSessionId whereId) (quizSession s) with
    | Some r =>
        (Return (update r),
         setQuizSession
           (map (fun x => if hasSessionId whereId x then update x else x)
                (quizSession s)) s)
    | None => (Throw "Record to update not found.", s)
    end).

(** The instant of [new Date().toISOString()] is the instant read. *)
Definition submitQuiz (ctx : User.t) (sessionId : Z) : M QuizSession.t :=
  now <- newDate ;;
  quizSession_update sessionId (fun r =>
    QuizSession.mk (QuizSession.id r) (QuizSession.userId r)
      (QuizSession.packageId r) (QuizSession.subtestId r)
      (QuizSession.duration r) now).

(** What [getDrillSubtest] selects of a subtest. *)
Module DrillSubtest.
Record t := mk
  { id : Z;
    duration : Z;
    package_id : Z;
    package_name : jsstring }.
End DrillSubtest.

Definition isDrill (s : Store) (subtestType : jsstring) (t : Subtest.t) : bool :=
  match packageOf s (Subtest.packageId t) with
  | Some p => strictEq (Package.type p) (js "drill")
  | None => false
  end
  && strictEq (Subtest.type t) subtestType.

Definition getDrillSubtest (ctx : User.t) (subtestType : jsstring)
  : M (list DrillSubtest.t) :=
  query SubtestFindMany (fun s =>
    joinParent (fun t => packageOf s (Subtest.packageId t))
      (fun t p => DrillSubtest.mk (Subtest.id t) (Subtest.duration t)
                    (Package.id p) (Package.name p))
      (filter (isDrill s subtestType) (subtest s))).

(** ** The answer router *)

(** [orderBy: { index: "asc" }] on answers, as a stable insertion sort. *)
Fixpoint insertAnswerByIndex (a : Answer.t) (l : list Answer.t) : list Answer.t :=
  match l with
  | [] => [a]
  | x :: l' =>
      if Answer.index a <=? Answer.index x then a :: l
      else x :: insertAnswerByIndex a l'
  end.

Definition orderAnswersByIndexAsc (l : list Answer.t) : list Answer.t :=
  fold_right insertAnswerByIndex [] l.

(** [answers ?? null]. *)
Definition orNull {A} (x : option A) : option A :=
  match x with
  | Some v => Some v
  | None => None
  end.

Definition getAnswer (ctx : User.t) (questionId : Z) : M (option (list Answer.t)) :=
  answers <- query AnswerFindMany (fun s =>
               orderAnswersByIndexAsc (answersOf s questionId)) ;;
  ret (orNull (Some answers)).

(** ** Further notions used in the statements *)

Definition answerIndexLe (a b : Answer.t) : Prop := Answer.index a <= Answer.index b.

Definition allWhiteSpace (s : jsstring) : Prop := forallb isWhiteSpace s = true.

(** The window of a session is open from the [n]-th reading of the clock
    on. *)
Definition openFrom (clk : nat -> Z) (n : nat) (toEnd : Z) : Prop :=
  forall k, (n <= k)%nat -> toEnd > clk k.

(** What the scoring handler reports of a subtest whatever its score: no
    session, or the first session's [endTime], and no score while that
    session's window is open. *)
Definition reportedAs (clk : nat -> Z) (n : nat)
    (st : PackageSubtest.t) (o : SubtestWithScore.t) : Prop :=
  SubtestWithScore.subtest o = PackageSubtest.subtest st /\
  match PackageSubtest.quizSession st with
  | [] => SubtestWithScore.quizSession o = None /\ SubtestWithScore.score o = None
  | first :: _ =>
      SubtestWithScore.quizSession o = Some (ScoredSession.endTime first)
      /\ (openFrom clk n (ScoredSession.package_TOend first) ->
          SubtestWithScore.score o = None)
  end.

Definition hasSession (st : PackageSubtest.t) : bool :=
  match PackageSubtest.quizSession st with
  | [] => false
  | _ :: _ => true
  end.

(** Two stores that differ at most in their UserAnswer table. *)
Definition sameButUserAnswers (s s' : Store) : Prop :=
  setUserAnswer (userAnswer s) s' = s.

(** Two stores that differ at most in their QuizSession table. *)
Definition sameButQuizSessions (s s' : Store) : Prop :=
  setQuizSession (quizSession s) s' = s.

Definition inPackage (pkgId : Z) (a : UserAnswer.t) : bool :=
  UserAnswer.packageId a =? pkgId.

(** A row with its [userId] replaced. *)
Definition withUserId (u : jsstring) (a : UserAnswer.t) : UserAnswer.t :=
  UserAnswer.mk u (UserAnswer.packageId a) (UserAnswer.quizSessionId a)
    (UserAnswer.questionId a) (UserAnswer.answerChoice a)
    (UserAnswer.essayAnswer a).

(** A sequence of [saveAnswer] calls, each on the world its predecessor
    left, whether it returned or threw. *)
Definition saveAnswers (ctx : User.t) (inputs : list SaveAnswerInput.t)
    (w : World) : World :=
  fold_left (fun w input => snd (saveAnswer ctx input w)) inputs w.

(** No Announcement row has id 1 and the next id the store gives is above 1
    and above every id in the table. *)
Definition announcementAstray (s : Store) : Prop :=
  1 < announcementSeq s
  /\ Forall (fun r => Announcement.id r <> 1
                      /\ Announcement.id r < announcementSeq s)
            (announcement s).

(** The row an [upsertAnnouncement] payload makes of a stored row. *)
Definition announcementUpdate (input : AnnouncementInput.t) (r : Announcement.t)
  : Announcement.t :=
  Announcement.mk (Announcement.id r)
    (orKeep (AnnouncementInput.title input) (Announcement.title r))
    (orKeep (AnnouncementInput.content input) (Announcement.content r))
    (orKeep (AnnouncementInput.url input) (Announcement.url r)).

Definition emptyAnnouncement : AnnouncementInput.t :=
  AnnouncementInput.mk None None None.

(** A store with the Announcement row with id 1 among others. *)
Definition crowdedStore : Store :=
  mkStore [Announcement.mk 2 (Some (js "Old")) None None;
           Announcement.mk 1 (Some (js "Hello")) (Some (js "Open")) None]
    3 [] [] [] [] [] [] [admin].

(** A drill package with two subtests beside an ordinary package with one. *)
Definition drillStore : Store :=
  mkStore [] 1
    [examplePackage 500; Package.mk 2 (js "Drill PU") (js "drill") 1 0 0]
    [exampleSubtest; Subtest.mk 2 (js "pu") 15 2; Subtest.mk 3 (js "pk") 20 2]
    [] [] [] [] [student].

(** ** Sessions and points, read off the store *)

(** [u] is the user the session lookup of [getQuestionsBySubtest] is scoped
    to: the one an administrator names, otherwise the caller. *)
Definition lookedUp (ctx : User.t) (input : GetQuestionsInput.t) (u : jsstring)
  : Prop :=
  (User.role ctx = js "admin" /\ GetQuestionsInput.userId input = Some u)
  \/ ((User.role ctx <> js "admin" \/ GetQuestionsInput.userId input = None)
      /\ u = User.id ctx).

(** [r] is the first stored session of user [u] for subtest [sid]. *)
Definition firstSessionOf (s : Store) (u : jsstring) (sid : Z) (r : QuizSession.t)
  : Prop :=
  QuizSession.userId r = u /\ QuizSession.subtestId r = sid
  /\ exists before after,
       quizSession s = before ++ r :: after
       /\ Forall (fun x => QuizSession.userId x <> u \/ QuizSession.subtestId x <> sid)
                 before.

(** What a stored answer is worth: for a question with a correct-answer
    choice, the question's score if the answer's choice is that one; for a
    question without one, the question's score if the answer carries an
    essay text that, trimmed and lower-cased, is the trimmed and lower-cased
    text of the first stored answer choice of the question; otherwise
    nothing.  An answer whose question is not stored is worth nothing. *)
Definition points (toLowerCase : jsstring -> jsstring) (s : Store) (a : UserAnswer.t)
  : Z :=
  match find (fun q => Question.id q =? UserAnswer.questionId a) (question s) with
  | None => 0
  | Some q =>
      match Question.correctAnswerChoice q with
      | Some correct =>
          match UserAnswer.answerChoice a with
          | Some c => if Z.eq_dec c correct then Question.score q else 0
          | None => 0
          end
      | None =>
          match UserAnswer.essayAnswer a,
                filter (fun x => Answer.questionId x =? Question.id q) (answer s) with
          | Some essay, first :: _ =>
              if list_eq_dec N.eq_dec (toLowerCase (trim essay))
                   (toLowerCase (trim (Answer.content first)))
              then Question.score q else 0
          | _, _ => 0
          end
      end
  end.

(** How a stored subtest of the requested package [pkg] and the reported one
    are related for caller [u], when the handler starts with clock [clk] at
    reading [n]: if the caller's first stored session for the subtest names
    a stored package whose [TOend] no later reading precedes, the score is
    the sum of the points of the answers stored for that session under
    [pkg]. *)
Definition scoredFromStore (toLowerCase : jsstring -> jsstring) (s : Store)
    (u : jsstring) (pkg : Z) (clk : nat -> Z) (n : nat)
    (t : Subtest.t) (o : SubtestWithScore.t) : Prop :=
  SubtestWithScore.subtest o = t /\
  forall r q,
    firstSessionOf s u (Subtest.id t) r ->
    find (fun p => Package.id p =? QuizSession.packageId r) (package s) = Some q ->
    closedFrom clk n (Package.TOend q) ->
    SubtestWithScore.score o
    = Some (sumZ (map (points toLowerCase s)
                      (filter (fun a => (UserAnswer.quizSessionId a =? QuizSession.id r)
                                        && (UserAnswer.packageId a =? pkg))
                              (userAnswer s)))).

(** Subtest 1 belongs to package 1, whose window is open until 5000;
    package 2 closes at 500. *)
Definition twoPackageStore : Store :=
  mkStore [] 1
    [examplePackage 5000; Package.mk 2 (js "Tryout 2") (js "tryout") 1 0 500]
    [exampleSubtest] [essayQuestion; choiceQuestion] exampleAnswers
    [] [] [student].

(** A session for subtest 1 that names package 2. *)
Definition crossSessionInput : CreateSessionInput.t :=
  CreateSessionInput.mk (js "u1") 2 1 30.

(** [twoPackageStore] once that session is created at 200. *)
Definition crossStore : Store :=
  setQuizSession [QuizSession.mk 1 (js "u1") 2 1 30 1800200] twoPackageStore.

(** The sessions of one user for the subtest [sid] all name the same
    package. *)
Definition onePackagePerSubtest (rows : list QuizSession.t) (sid : Z) : Prop :=
  forall r1 r2,
    In r1 rows -> In r2 rows ->
    QuizSession.userId r1 = QuizSession.userId r2 ->
    QuizSession.subtestId r1 = sid -> QuizSession.subtestId r2 = sid ->
    QuizSession.packageId r1 = QuizSession.packageId r2.

(** User "u1" has started subtest 1 twice, both times under package 1. *)
Definition repeatedStore : Store :=
  mkStore [] 1 [examplePackage 5000] [exampleSubtest]
    [essayQuestion; choiceQuestion] exampleAnswers
    [exampleSession; QuizSession.mk 2 (js "u1") 1 1 30 3000] [] [student].

(** [repeatedStore] after session 1 was submitted at 1000, with the updated
    row stored last. *)
Definition repeatedStoreSubmitted : Store :=
  setQuizSession
    [QuizSession.mk 2 (js "u1") 1 1 30 3000; QuizSession.mk 1 (js "u1") 1 1 30 1000]
    repeatedStore.

(** ** What the store admits of a submission *)

Definition inInt (z : Z) : Prop := -2147483648 <= z <= 2147483647.

(** The row a submission creates. *)
Definition createdBy (input : SaveAnswerInput.t) : UserAnswer.t :=
  UserAnswer.mk (SaveAnswerInput.userId input) (SaveAnswerInput.packageId input)
    (SaveAnswerInput.quizSessionId input) (SaveAnswerInput.questionId input)
    (SaveAnswerInput.answerChoice input) (SaveAnswerInput.essayAnswer input).

(** The numbers of a submission fit their columns. *)
Definition fitsColumns (input : SaveAnswerInput.t) : Prop :=
  inInt (SaveAnswerInput.packageId input)
  /\ inInt (SaveAnswerInput.quizSessionId input)
  /\ inInt (SaveAnswerInput.questionId input)
  /\ forall c, SaveAnswerInput.answerChoice input = Some c -> inInt c.

(** The user, package, quiz session and question a submission names are
    stored. *)
Definition referencesExist (s : Store) (input : SaveAnswerInput.t) : Prop :=
  (exists u, In u (user s) /\ User.id u = SaveAnswerInput.userId input)
  /\ (exists p, In p (package s) /\ Package.id p = SaveAnswerInput.packageId input)
  /\ (exists x, In x (quizSession s)
                /\ QuizSession.id x = SaveAnswerInput.quizSessionId input)
  /\ (exists q, In q (question s)
                /\ Question.id q = SaveAnswerInput.questionId input).

Definition choiceSubmission : SaveAnswerInput.t :=
  SaveAnswerInput.mk (Some 1) None 1 (js "u1") 1 1.

(** The numbers of a session to create fit their columns. *)
Definition sessionFits (input : CreateSessionInput.t) : Prop :=
  inInt (CreateSessionInput.packageId input)
  /\ inInt (CreateSessionInput.subtestId input)
  /\ inInt (CreateSessionInput.duration input).

(** The user, package and subtest a session to create names are stored. *)
Definition sessionReferencesExist (s : Store) (input : CreateSessionInput.t) : Prop :=
  (exists u, In u (user s) /\ User.id u = CreateSessionInput.userId input)
  /\ (exists p, In p (package s) /\ Package.id p = CreateSessionInput.packageId input)
  /\ (exists t, In t (subtest s) /\ Subtest.id t = CreateSessionInput.subtestId input).

(** The session [createSession] makes of its input at clock reading [now]. *)
Definition sessionOfInput (fresh : Z) (input : CreateSessionInput.t) (now : Z)
  : QuizSession.t :=
  QuizSession.mk fresh (CreateSessionInput.userId input)
    (CreateSessionInput.packageId input) (CreateSessionInput.subtestId input)
    (CreateSessionInput.duration input)
    (now + CreateSessionInput.duration input * 60000).

(** ** Basic facts *)

Lemma strictEq_refl (a : jsstring) : strictEq a a = true.
Proof.
  induction a as [|c a IH]; simpl; [reflexivity|].
  rewrite N.eqb_refl. exact IH.
Qed.

Lemma strictEq_true_iff (a b : jsstring) : strictEq a b = true <-> a = b.
Proof.
  split.
  - revert b. induction a as [|x a IH]; intros [|y b] H; simpl in H;
      try discriminate; [reflexivity|].
    apply andb_true_iff in H. destruct H as [Hxy Hab].
    apply N.eqb_eq in Hxy. apply IH in Hab. congruence.
  - intros ->. apply strictEq_refl.
Qed.

Lemma strictEq_false_iff (a b : jsstring) : strictEq a b = false <-> a <> b.
Proof.
  destruct (strictEq a b) eqn:E.
  - apply strictEq_true_iff in E. split; [discriminate | contradiction].
  - split; [|reflexivity]. intros _ Hab.
    apply strictEq_true_iff in Hab. congruence.
Qed.

Lemma fold_scoreStep lower (l : list ScoredAnswer.t) (total : Z) :
  fold_left (scoreStep lower) l total = total + sumZ (map (answerScore lower) l).
Proof.
  revert total. induction l as [|a l IH]; intro total; simpl.
  - lia.
  - rewrite IH. unfold scoreStep, answerScore.
    destruct (ScoredQuestion.correctAnswerChoice (ScoredAnswer.question a));
      [|destruct (ScoredAnswer.essayAnswer a)]; lia.
Qed.

Lemma sessionScore_sum lower (l : list ScoredAnswer.t) :
  sessionScore lower l = sumZ (map (answerScore lower) l).
Proof. unfold sessionScore. rewrite fold_scoreStep. lia. Qed.

(** ** Answer submission: the precondition *)

(** C3: [saveAnswer] throws when [answerChoice] and [essayAnswer] are both
    null, and does so before any call to the store: the world it leaves is
    the world it found, with the same UserAnswer rows and the same journal
    of ORM calls. *)
Theorem saveAnswer_rejects_empty_answer
    (ctx : User.t) (input : SaveAnswerInput.t) (w : World) :
  SaveAnswerInput.answerChoice input = None ->
  SaveAnswerInput.essayAnswer input = None ->
  saveAnswer ctx input w
  = (Throw "Either answerChoice or essayAnswer must be provided.", w)
  /\ userAnswer (db (snd (saveAnswer ctx input w))) = userAnswer (db w)
  /\ journal (snd (saveAnswer ctx input w)) = journal w.
Proof.
  intros Hc He. unfold saveAnswer. rewrite Hc, He. simpl.
  repeat split.
Qed.

Lemma saveAnswer_rejects_empty_answer_witness :
  saveAnswer student emptySubmission (worldOf emptyStore 0)
  = (Throw "Either answerChoice or essayAnswer must be provided.",
     worldOf emptyStore 0).
Proof.
  exact (proj1 (saveAnswer_rejects_empty_answer student emptySubmission
                  (worldOf emptyStore 0) eq_refl eq_refl)).
Defined.

(** ** Scoring: degenerate questions *)

(** C10: a stored answer to a question with no correct-answer choice and no
    answer choices at all, carrying an essay text, makes the essay
    comparison false and adds exactly 0: the reducer returns its
    accumulator, and the session's score is the score without that
    answer. *)
Theorem essay_without_choices_scores_zero
    (toLowerCase : jsstring -> jsstring)
    (answer : ScoredAnswer.t) (essay : jsstring) :
  ScoredQuestion.correctAnswerChoice (ScoredAnswer.question answer) = None ->
  ScoredAnswer.essayAnswer answer = Some essay ->
  ScoredQuestion.answers (ScoredAnswer.question answer) = [] ->
  isEssayCorrect toLowerCase essay
    (ScoredQuestion.answers (ScoredAnswer.question answer)) = false
  /\ (forall total, scoreStep toLowerCase total answer = total + 0)
  /\ (forall before after,
        sessionScore toLowerCase (before ++ answer :: after)
        = sessionScore toLowerCase (before ++ after)).
Proof.
  intros Hc He Ha.
  assert (Hstep : forall total, scoreStep toLowerCase total answer = total + 0).
  { intro total. unfold scoreStep. rewrite Hc, He, Ha. simpl. reflexivity. }
  split; [rewrite Ha; reflexivity|]. split; [exact Hstep|].
  intros before after. unfold sessionScore.
  rewrite !fold_left_app. simpl. rewrite Hstep, Z.add_0_r. reflexivity.
Qed.

Lemma essay_without_choices_scores_zero_witness :
  scoreStep asciiToLowerCase 10 emptyEssayAnswer = 10 + 0.
Proof.
  exact (proj1 (proj2 (essay_without_choices_scores_zero asciiToLowerCase
                         emptyEssayAnswer (js "Jakarta")
                         eq_refl eq_refl eq_refl)) 10).
Defined.

(** ** Question delivery *)

Lemma insertByIndex_perm (q : Question.t) (l : list Question.t) :
  Permutation (insertByIndex q l) (q :: l).
Proof.
  induction l as [|x l IH]; simpl; [apply Permutation_refl|].
  destruct (Question.index q <=? Question.index x).
  - apply Permutation_refl.
  - eapply perm_trans; [apply perm_skip, IH | apply perm_swap].
Qed.

Lemma orderByIndexAsc_perm (l : list Question.t) :
  Permutation (orderByIndexAsc l) l.
Proof.
  induction l as [|q l IH]; simpl; [constructor|].
  eapply perm_trans; [apply insertByIndex_perm | apply perm_skip, IH].
Qed.

Lemma insertByIndex_sorted (q : Question.t) (l : list Question.t) :
  StronglySorted indexLe l -> StronglySorted indexLe (insertByIndex q l).
Proof.
  induction l as [|x l IH]; intro Hs; simpl.
  - constructor; constructor.
  - inversion Hs as [|? ? Hl Hx]; subst.
    destruct (Z.leb_spec (Question.index q) (Question.index x)) as [Hqx|Hqx].
    + constructor; [exact Hs|].
      constructor; [exact Hqx|].
      eapply Forall_impl; [|exact Hx].
      intros y Hy. unfold indexLe in *. lia.
    + constructor; [apply IH, Hl|].
      eapply Permutation_Forall;
        [apply Permutation_sym, insertByIndex_perm|].
      constructor; [unfold indexLe; lia | exact Hx].
Qed.

Lemma orderByIndexAsc_sorted (l : list Question.t) :
  StronglySorted indexLe (orderByIndexAsc l).
Proof.
  induction l as [|q l IH]; simpl; [constructor|].
  apply insertByIndex_sorted, IH.
Qed.

Lemma delivered_withAnswers (s : Store) (l : list Question.t) :
  Forall2 (delivered s true) l (map (withAnswers s) l).
Proof.
  induction l as [|q l IH]; simpl; constructor; [|exact IH].
  unfold delivered, withAnswers; simpl. repeat split.
Qed.

Lemma delivered_redact (s : Store) (l : list Question.t) :
  Forall2 (delivered s false) l (map redact (map (withAnswers s) l)).
Proof.
  induction l as [|q l IH]; simpl; constructor; [|exact IH].
  unfold delivered, redact, withAnswers; simpl. repeat split.
Qed.

Lemma filter_nil_Forall {A} (P : A -> bool) (l : list A) :
  Forall (fun x => P x = false) l -> filter P l = [].
Proof.
  induction 1 as [|x l Hx _ IH]; simpl; [reflexivity|]. rewrite Hx. exact IH.
Qed.

Lemma lookedUp_scopedUser (ctx : User.t) (input : GetQuestionsInput.t) (u : jsstring) :
  lookedUp ctx input u -> scopedUser ctx input = u.
Proof.
  unfold lookedUp, scopedUser.
  intros [[Hr Hu] | [[Hr | Hu] ->]].
  - rewrite Hr, Hu. reflexivity.
  - apply strictEq_false_iff in Hr. rewrite Hr. reflexivity.
  - rewrite Hu. destruct (strictEq _ _); reflexivity.
Qed.

(** The session the lookup of [getQuestionsBySubtest] finds. *)
Lemma firstSessionOf_window (s : Store) (u : jsstring) (sid : Z)
    (r : QuizSession.t) (q : Package.t) :
  firstSessionOf s u sid r ->
  find (fun p => Package.id p =? QuizSession.packageId r) (package s) = Some q ->
  head (sessionWindows s u sid)
  = Some (SessionWindow.mk (QuizSession.endTime r) (Package.TOend q)).
Proof.
  intros (Hu & Hs & before & after & Hrows & Hnone) Hq.
  unfold sessionWindows, joinParent, packageOf. rewrite Hrows, filter_app.
  rewrite filter_nil_Forall.
  - simpl. unfold sessionOf at 1. rewrite Hu, Hs, strictEq_refl, Z.eqb_refl.
    simpl. rewrite Hq. reflexivity.
  - eapply Forall_impl; [|exact Hnone]. intros x Hx. unfold sessionOf.
    destruct Hx as [Hx | Hx].
    + apply strictEq_false_iff in Hx. rewrite Hx. reflexivity.
    + apply Z.eqb_neq in Hx. rewrite Hx. apply andb_false_r.
Qed.

(** C2, as the code has it: let the user the lookup is scoped to (the
    caller, or the user an administrator names) have a stored session for
    the subtest, and let the first such session name a stored package.  The
    questions [getQuestionsBySubtest] delivers are the stored questions of
    the subtest in ascending order of [index], each with the stored answer
    choices of that question.  If the [TOend] of the package the session row
    names is later than the clock, each question comes with
    [correctAnswerChoice], [explanation] and [score] null; if it is earlier
    than the clock (and the clock does not run backwards between the
    handler's two readings), each comes with the stored values of these
    fields. *)
Theorem getQuestionsBySubtest_window
    (ctx : User.t) (input : GetQuestionsInput.t) (w : World)
    (u : jsstring) (r : QuizSession.t) (q : Package.t) :
  lookedUp ctx input u ->
  firstSessionOf (db w) u (GetQuestionsInput.subtestId input) r ->
  find (fun p => Package.id p =? QuizSession.packageId r) (package (db w)) = Some q ->
  let toEnd := Package.TOend q in
  let now := clock w (reads w) in
  let now' := clock w (S (reads w)) in
  exists stored,
    Permutation stored
      (filter (fun x => Question.subtestId x =? GetQuestionsInput.subtestId input)
              (question (db w)))
    /\ StronglySorted indexLe stored
    /\ (toEnd > now ->
        exists questions,
          fst (getQuestionsBySubtest ctx input w) = Return (Value questions)
          /\ Forall2 (delivered (db w) false) stored questions)
    /\ (toEnd < now -> now <= now' ->
        exists questions,
          fst (getQuestionsBySubtest ctx input w) = Return (Value questions)
          /\ Forall2 (delivered (db w) true) stored questions).
Proof.
  intros Hu Hr Hq toEnd now now'.
  pose proof (firstSessionOf_window _ _ _ _ _ Hr Hq) as Hs.
  rewrite <- (lookedUp_scopedUser ctx input u Hu) in Hs.
  exists (orderByIndexAsc
            (filter (inSubtest (GetQuestionsInput.subtestId input)) (question (db w)))).
  split; [apply orderByIndexAsc_perm|].
  split; [apply orderByIndexAsc_sorted|].
  split.
  - intro Hopen. eexists.
    split; [|apply delivered_redact].
    unfold getQuestionsBySubtest, bind, query, newDate, question_findMany, ret.
    simpl. rewrite Hs. simpl.
    assert (E : (toEnd >? now) = true) by (apply Z.gtb_lt; lia).
    unfold toEnd, now in E. rewrite E. reflexivity.
  - intros Hclosed Hmono. eexists.
    split; [|apply delivered_withAnswers].
    unfold getQuestionsBySubtest, bind, query, newDate, question_findMany, ret.
    simpl. rewrite Hs. simpl.
    assert (E : (toEnd >? now) = false)
      by (rewrite Z.gtb_ltb; apply Z.ltb_ge; lia).
    assert (E' : (toEnd <? now') = true) by (apply Z.ltb_lt; lia).
    unfold toEnd, now, now' in E, E'. rewrite E. simpl. rewrite E'.
    reflexivity.
Qed.


Lemma exampleSession_first (toEnd : Z) :
  firstSessionOf (exampleStore toEnd) (js "u1") 1 exampleSession.
Proof.
  split; [reflexivity|]. split; [reflexivity|].
  exists [], []. split; [reflexivity | constructor].
Qed.

Lemma getQuestionsBySubtest_window_witness :
  (exists stored questions,
      Permutation stored [essayQuestion; choiceQuestion]
      /\ fst (getQuestionsBySubtest student (GetQuestionsInput.mk 1 None)
                (worldOf (exampleStore 5000) 1000)) = Return (Value questions)
      /\ Forall2 (delivered (exampleStore 5000) false) stored questions)
  /\ (exists stored questions,
      Permutation stored [essayQuestion; choiceQuestion]
      /\ fst (getQuestionsBySubtest student (GetQuestionsInput.mk 1 None)
                (worldOf (exampleStore 500) 1000)) = Return (Value questions)
      /\ Forall2 (delivered (exampleStore 500) true) stored questions).
Proof.
  split.
  - destruct (getQuestionsBySubtest_window student (GetQuestionsInput.mk 1 None)
                (worldOf (exampleStore 5000) 1000) (js "u1") exampleSession
                (examplePackage 5000))
      as (stored & Hperm & _ & Hopen & _).
    + right. split; [right; reflexivity | reflexivity].
    + apply exampleSession_first.
    + reflexivity.
    + destruct Hopen as (questions & Hrun & Hall); [reflexivity|].
      exists stored, questions. auto.
  - destruct (getQuestionsBySubtest_window student (GetQuestionsInput.mk 1 None)
                (worldOf (exampleStore 500) 1000) (js "u1") exampleSession
                (examplePackage 500))
      as (stored & Hperm & _ & _ & Hclosed).
    + right. split; [right; reflexivity | reflexivity].
    + apply exampleSession_first.
    + reflexivity.
    + destruct Hclosed as (questions & Hrun & Hall);
        [reflexivity | discriminate |].
      exists stored, questions. auto.
Defined.

(** C2 as stated fails: subtest 1 belongs to package 1, whose [TOend] 5000
    is still ahead of the clock at 1000, but [createSession] has stored the
    user's session for the subtest under package 2, which closed at 500,
    and the handler delivers the keys and scores. *)
Lemma getQuestionsBySubtest_leaks :
  db (snd (createSession 1 student crossSessionInput (worldOf twoPackageStore 200)))
  = crossStore
  /\ map Subtest.packageId (subtest crossStore) = [1]
  /\ map Package.TOend
       (filter (fun p => Package.id p =? 1) (package crossStore)) = [5000]
  /\ match fst (getQuestionsBySubtest student (GetQuestionsInput.mk 1 None)
                  (worldOf crossStore 1000)) with
     | Return (Value questions) =>
         map QuestionView.correctAnswerChoice questions = [Some 1; None]
         /\ map QuestionView.score questions = [Some 10; Some 5]
     | _ => False
     end.
Proof. repeat split. Qed.


(** ** Session details *)

(** C6: [getSessionDetails] never throws, and it returns a session only to
    its owner or to an administrator.  For a session owned by someone else
    and a caller who is not an administrator it returns null, which is also
    what it returns, on any world, when no session has the requested id. *)
Theorem getSessionDetails_access
    (ctx : User.t) (sessionId : Z) (w : World) :
  (exists result, fst (getSessionDetails ctx sessionId w) = Return result)
  /\ (forall details,
        fst (getSessionDetails ctx sessionId w) = Return (Some details) ->
        QuizSession.userId (SessionDetails.session details) = User.id ctx
        \/ User.role ctx = js "admin")
  /\ (forall details,
        head (sessionDetails (db w) sessionId) = Some details ->
        QuizSession.userId (SessionDetails.session details) <> User.id ctx ->
        User.role ctx <> js "admin" ->
        fst (getSessionDetails ctx sessionId w) = Return None
        /\ forall w0,
             head (sessionDetails (db w0) sessionId) = None ->
             fst (getSessionDetails ctx sessionId w0)
             = fst (getSessionDetails ctx sessionId w)).
Proof.
  unfold getSessionDetails, bind, query, ret. simpl.
  destruct (head (sessionDetails (db w) sessionId)) as [d|] eqn:Hd; simpl.
  - destruct (strictEq (QuizSession.userId (SessionDetails.session d)) (User.id ctx))
      eqn:Eo; simpl.
    + split; [eexists; reflexivity|]. split.
      * intros details H. inversion H; subst. left.
        apply strictEq_true_iff, Eo.
      * intros details H Hne. inversion H; subst.
        apply strictEq_true_iff in Eo. contradiction.
    + destruct (strictEq (User.role ctx) (js "admin")) eqn:Ea; simpl.
      * split; [eexists; reflexivity|]. split.
        -- intros details H. inversion H; subst. right.
           apply strictEq_true_iff, Ea.
        -- intros details _ _ Hna. apply strictEq_true_iff in Ea. contradiction.
      * split; [eexists; reflexivity|]. split; [discriminate|].
        intros details _ _ _. split; [reflexivity|].
        intros w0 H0. rewrite H0. reflexivity.
  - split; [eexists; reflexivity|]. split; discriminate.
Qed.

Lemma getSessionDetails_access_witness :
  fst (getSessionDetails otherStudent 1 (worldOf (exampleStore 500) 1000))
  = Return None
  /\ fst (getSessionDetails otherStudent 1 (worldOf emptyStore 1000))
     = fst (getSessionDetails otherStudent 1 (worldOf (exampleStore 500) 1000)).
Proof.
  destruct (proj2 (proj2 (getSessionDetails_access otherStudent 1
                            (worldOf (exampleStore 500) 1000)))
              (SessionDetails.mk exampleSession exampleSubtest 500 exampleUserAnswers)
              eq_refl) as [Hnull Hsame].
  - discriminate.
  - discriminate.
  - split; [exact Hnull | exact (Hsame (worldOf emptyStore 1000) eq_refl)].
Defined.

(** ** Answer submission: the upsert *)

Lemma find_head_filter {A} (P : A -> bool) (l : list A) :
  find P l = head (filter P l).
Proof.
  induction l as [|x l IH]; simpl; [reflexivity|].
  destruct (P x); simpl; [reflexivity | exact IH].
Qed.

Lemma filter_map_same {A} (P : A -> bool) (g : A -> A) (l : list A) :
  (forall x, P (g x) = P x) -> filter P (map g l) = map g (filter P l).
Proof.
  intro Hg. induction l as [|x l IH]; simpl; [reflexivity|].
  rewrite Hg. destruct (P x); simpl; rewrite IH; reflexivity.
Qed.

Lemma setUserAnswer_same (s : Store) : setUserAnswer (userAnswer s) s = s.
Proof. destruct s; reflexivity. Qed.

Lemma hasKey_own (r : UserAnswer.t) :
  UserAnswer.hasKey (UserAnswer.userId r) (UserAnswer.quizSessionId r)
    (UserAnswer.questionId r) r = true.
Proof.
  unfold UserAnswer.hasKey. rewrite strictEq_refl, !Z.eqb_refl. reflexivity.
Qed.

Lemma hasKey_inv (u : jsstring) (s q : Z) (r : UserAnswer.t) :
  UserAnswer.hasKey u s q r = true ->
  u = UserAnswer.userId r /\ s = UserAnswer.quizSessionId r
  /\ q = UserAnswer.questionId r.
Proof.
  unfold UserAnswer.hasKey. intro H.
  apply andb_true_iff in H. destruct H as [H Hq].
  apply andb_true_iff in H. destruct H as [Hu Hs].
  apply strictEq_true_iff in Hu. apply Z.eqb_eq in Hs. apply Z.eqb_eq in Hq.
  auto.
Qed.

Lemma answered_not_null (input : SaveAnswerInput.t) :
  answered input ->
  isNull (SaveAnswerInput.answerChoice input)
  && isNull (SaveAnswerInput.essayAnswer input) = false.
Proof.
  intros [H|H];
    destruct (SaveAnswerInput.answerChoice input),
             (SaveAnswerInput.essayAnswer input);
    try reflexivity; contradiction.
Qed.

(** The row [saveAnswer] writes over [r]. *)
Lemma saveAnswer_hit (ctx : User.t) (input : SaveAnswerInput.t) (w : World)
    (r : UserAnswer.t) :
  answered input ->
  find (keyOf input) (userAnswer (db w)) = Some r ->
  exists r' rows',
    saveAnswer ctx input w
    = (Return r',
       mkWorld (setUserAnswer rows' (db w)) (clock w) (reads w)
               (journal w ++ [UserAnswerUpsert]))
    /\ sameFrame r r' /\ holds input r'
    /\ Forall2 (fun old new =>
                  sameFrame old new
                  /\ (keyOf input old = false -> new = old)
                  /\ (keyOf input old = true -> holds input new))
               (userAnswer (db w)) rows'
    /\ (forall P : UserAnswer.t -> bool,
          (forall x y, sameFrame x y -> P y = P x) ->
          List.length (filter P rows')
          = List.length (filter P (userAnswer (db w))))
    /\ filter (keyOf input) rows'
       = map (fun x => UserAnswer.mk (UserAnswer.userId x) (UserAnswer.packageId x)
                         (UserAnswer.quizSessionId x) (UserAnswer.questionId x)
                         (SaveAnswerInput.answerChoice input)
                         (SaveAnswerInput.essayAnswer input))
             (filter (keyOf input) (userAnswer (db w))).
Proof.
  intros Hv Hf.
  unfold saveAnswer, bind, userAnswer_upsert, mutation, ret.
  rewrite (answered_not_null input Hv). fold (keyOf input). rewrite Hf.
  set (upd := fun x => UserAnswer.mk (UserAnswer.userId x) (UserAnswer.packageId x)
                         (UserAnswer.quizSessionId x) (UserAnswer.questionId x)
                         (SaveAnswerInput.answerChoice input)
                         (SaveAnswerInput.essayAnswer input)).
  set (g := fun x => if keyOf input x then upd x else x).
  assert (Hframe : forall x, sameFrame x (g x)).
  { intro x. unfold g, sameFrame. destruct (keyOf input x); simpl; auto. }
  exists (upd r), (map g (userAnswer (db w))).
  split; [reflexivity|].
  split; [unfold sameFrame; simpl; auto|].
  split; [unfold holds; simpl; auto|].
  split; [|split].
  - clear Hf.
    induction (userAnswer (db w)) as [|x l IH]; simpl; constructor; [|exact IH].
    split; [apply Hframe|]. unfold g.
    split; intro Hk; rewrite Hk; [reflexivity | unfold holds; simpl; auto].
  - intros P HP. rewrite filter_map_same by (intro x; apply HP, Hframe).
    apply length_map.
  - assert (Hk : forall x, keyOf input (g x) = keyOf input x).
    { intro x. unfold g. destruct (keyOf input x) eqn:E; [|exact E].
      unfold keyOf, UserAnswer.hasKey in *. simpl. exact E. }
    rewrite filter_map_same by exact Hk.
    apply map_ext_in. intros x Hx. apply filter_In in Hx.
    unfold g. rewrite (proj2 Hx). reflexivity.
Qed.

Lemma fitsInt_true (z : Z) : inInt z -> fitsInt z = true.
Proof.
  unfold inInt, fitsInt. intros [Hl Hu].
  apply andb_true_iff. split; apply Z.leb_le; assumption.
Qed.

Lemma fitsColumns_true (input : SaveAnswerInput.t) :
  fitsColumns input -> userAnswerFits (createdBy input) = true.
Proof.
  intros (Hp & Hs & Hq & Hc). unfold userAnswerFits, createdBy. simpl.
  rewrite !fitsInt_true by assumption. simpl.
  destruct (SaveAnswerInput.answerChoice input) as [c|]; [|reflexivity].
  simpl. apply fitsInt_true, Hc. reflexivity.
Qed.

Lemma referencesExist_true (s : Store) (input : SaveAnswerInput.t) :
  referencesExist s input -> userAnswerReferences s (createdBy input) = true.
Proof.
  intros ((u & Hu & Eu) & (p & Hp & Ep) & (x & Hx & Ex) & (q & Hq & Eq)).
  unfold userAnswerReferences, createdBy. simpl.
  repeat (apply andb_true_iff; split); apply existsb_exists.
  - exists u. split; [exact Hu|]. rewrite Eu. apply strictEq_refl.
  - exists p. split; [exact Hp|]. apply Z.eqb_eq, Ep.
  - exists x. split; [exact Hx|]. apply Z.eqb_eq, Ex.
  - exists q. split; [exact Hq|]. apply Z.eqb_eq, Eq.
Qed.

(** The row [saveAnswer] adds when the key is new and the store admits the
    row. *)
Lemma saveAnswer_miss (ctx : User.t) (input : SaveAnswerInput.t) (w : World) :
  answered input ->
  find (keyOf input) (userAnswer (db w)) = None ->
  userAnswerFits (createdBy input) = true ->
  userAnswerReferences (db w) (createdBy input) = true ->
  saveAnswer ctx input w
  = (Return (createdBy input),
     mkWorld (setUserAnswer (userAnswer (db w) ++ [createdBy input]) (db w))
             (clock w) (reads w) (journal w ++ [UserAnswerUpsert])).
Proof.
  intros Hv Hf Hfit Href. unfold createdBy in *.
  unfold saveAnswer, bind, userAnswer_upsert, mutation, ret.
  rewrite (answered_not_null input Hv). fold (keyOf input). rewrite Hf.
  rewrite Hfit, Href. reflexivity.
Qed.

(** What [saveAnswer] does when the key is new and the store does not admit
    the row. *)
Lemma saveAnswer_not_admitted (ctx : User.t) (input : SaveAnswerInput.t) (w : World) :
  answered input ->
  find (keyOf input) (userAnswer (db w)) = None ->
  userAnswerFits (createdBy input)
  && userAnswerReferences (db w) (createdBy input) = false ->
  exists message,
    saveAnswer ctx input w
    = (Throw message,
       mkWorld (db w) (clock w) (reads w) (journal w ++ [UserAnswerUpsert])).
Proof.
  intros Hv Hf Hno. unfold createdBy in *.
  unfold saveAnswer, bind, userAnswer_upsert, mutation, ret.
  rewrite (answered_not_null input Hv). fold (keyOf input). rewrite Hf.
  destruct (userAnswerFits _); simpl in *; [|eexists; reflexivity].
  rewrite Hno. simpl. eexists. reflexivity.
Qed.



Lemma row_determined (input : SaveAnswerInput.t) (r a b : UserAnswer.t) :
  sameFrame r a -> holds input a -> sameFrame r b -> holds input b -> a = b.
Proof.
  unfold sameFrame, holds. destruct a, b; simpl.
  intros (-> & -> & -> & ->) (-> & ->) (-> & -> & -> & ->) (-> & ->).
  reflexivity.
Qed.

Lemma sameFrame_hasKey (u : jsstring) (s q : Z) (x y : UserAnswer.t) :
  sameFrame x y -> UserAnswer.hasKey u s q y = UserAnswer.hasKey u s q x.
Proof.
  unfold sameFrame, UserAnswer.hasKey. intros (-> & _ & -> & ->). reflexivity.
Qed.

Lemma filter_singleton {A} (P : A -> bool) (l : list A) (r : A) :
  find P l = Some r -> (List.length (filter P l) <= 1)%nat -> filter P l = [r].
Proof.
  rewrite find_head_filter.
  destruct (filter P l) as [|x [|y t]]; simpl; intros H Hl.
  - discriminate.
  - congruence.
  - lia.
Qed.

Lemma filter_none {A} (P : A -> bool) (l : list A) :
  find P l = None -> filter P l = [].
Proof.
  rewrite find_head_filter. destruct (filter P l); [reflexivity | discriminate].
Qed.

Lemma Forall2_same {A} (R : A -> A -> Prop) (l l' : list A) :
  Forall2 R l l' -> (forall x y, In x l -> R x y -> y = x) -> l' = l.
Proof.
  induction 1 as [|x y l l' Hxy _ IH]; intro HR; [reflexivity|].
  f_equal.
  - apply HR; [left; reflexivity | exact Hxy].
  - apply IH. intros a b Ha. apply HR. right. exact Ha.
Qed.

(** A submission whose key is stored: it returns, the key then names
    exactly the returned row, which holds the submitted answer, and the
    unique constraint still stands. *)
Lemma saveAnswer_once_hit (ctx : User.t) (input : SaveAnswerInput.t) (w : World)
    (r0 : UserAnswer.t) :
  userAnswerUnique (userAnswer (db w)) ->
  answered input ->
  find (keyOf input) (userAnswer (db w)) = Some r0 ->
  exists r w',
    saveAnswer ctx input w = (Return r, w')
    /\ filter (keyOf input) (userAnswer (db w')) = [r]
    /\ holds input r
    /\ userAnswerUnique (userAnswer (db w')).
Proof.
  intros Hu Hv Hf.
  destruct (saveAnswer_hit ctx input w r0 Hv Hf)
    as (r' & rows' & Hrun & Hfr & Hh & _ & Hlen & Hkey).
  exists r'. eexists. split; [exact Hrun|]. simpl.
  split; [|split; [exact Hh|]].
  - rewrite Hkey, (filter_singleton _ _ r0 Hf) by apply Hu. simpl. f_equal.
    apply (row_determined input r0); unfold sameFrame, holds; simpl; auto.
  - intros u s q. rewrite Hlen; [apply Hu|].
    intros x y Hxy. apply sameFrame_hasKey, Hxy.
Qed.

(** A submission whose key is new and which the store admits. *)
Lemma saveAnswer_once_miss (ctx : User.t) (input : SaveAnswerInput.t) (w : World) :
  userAnswerUnique (userAnswer (db w)) ->
  answered input ->
  find (keyOf input) (userAnswer (db w)) = None ->
  userAnswerFits (createdBy input) = true ->
  userAnswerReferences (db w) (createdBy input) = true ->
  exists r w',
    saveAnswer ctx input w = (Return r, w')
    /\ filter (keyOf input) (userAnswer (db w')) = [r]
    /\ holds input r
    /\ userAnswerUnique (userAnswer (db w')).
Proof.
  intros Hu Hv Hf Hfit Href.
  pose proof (saveAnswer_miss ctx input w Hv Hf Hfit Href) as Hrun.
  set (c := createdBy input) in *.
  assert (Hc : keyOf input c = true) by apply (hasKey_own c).
  exists c. eexists. split; [exact Hrun|]. simpl.
  split; [|split; [split; reflexivity|]].
  - rewrite filter_app, (filter_none _ _ Hf). simpl. rewrite Hc. reflexivity.
  - intros u s q. rewrite filter_app, length_app. simpl.
    destruct (UserAnswer.hasKey u s q c) eqn:E; simpl.
    + apply hasKey_inv in E. simpl in E. destruct E as (-> & -> & ->).
      fold (keyOf input). rewrite (filter_none _ _ Hf). simpl. lia.
    + specialize (Hu u s q). lia.
Qed.

(** C4, as the code has it: on a UserAnswer table that satisfies its unique
    constraint, take two accepted submissions under the same key (userId,
    quizSessionId, questionId) whose numbers fit their columns, the first
    naming a stored user, package, quiz session and question.  Both calls
    return, and afterwards the key names exactly one row, holding the second
    submission's [answerChoice] and [essayAnswer]; the second call adds no
    row.  When the two submissions carry the same answer, the second call
    returns the row of the first and leaves the store as the first left
    it. *)
Theorem saveAnswer_idempotent
    (ctx : User.t) (first second : SaveAnswerInput.t) (w : World) :
  userAnswerUnique (userAnswer (db w)) ->
  answered first -> answered second ->
  fitsColumns first -> fitsColumns second ->
  referencesExist (db w) first ->
  SaveAnswerInput.userId second = SaveAnswerInput.userId first ->
  SaveAnswerInput.quizSessionId second = SaveAnswerInput.quizSessionId first ->
  SaveAnswerInput.questionId second = SaveAnswerInput.questionId first ->
  exists r1 w1 r2 w2,
    saveAnswer ctx first w = (Return r1, w1)
    /\ saveAnswer ctx second w1 = (Return r2, w2)
    /\ filter (keyOf second) (userAnswer (db w2)) = [r2]
    /\ holds second r2
    /\ List.length (userAnswer (db w2)) = List.length (userAnswer (db w1))
    /\ userAnswerUnique (userAnswer (db w2))
    /\ (SaveAnswerInput.answerChoice second = SaveAnswerInput.answerChoice first ->
        SaveAnswerInput.essayAnswer second = SaveAnswerInput.essayAnswer first ->
        r2 = r1 /\ db w2 = db w1).
Proof.
  intros Hu Hv1 Hv2 Hfit1 _ Href1 Ku Ks Kq.
  assert (Hkey : keyOf second = keyOf first)
    by (unfold keyOf; rewrite Ku, Ks, Kq; reflexivity).
  assert (H1 : exists r1 w1,
             saveAnswer ctx first w = (Return r1, w1)
             /\ filter (keyOf first) (userAnswer (db w1)) = [r1]
             /\ holds first r1
             /\ userAnswerUnique (userAnswer (db w1))).
  { destruct (find (keyOf first) (userAnswer (db w))) as [r0|] eqn:Hf.
    - apply (saveAnswer_once_hit ctx first w r0 Hu Hv1 Hf).
    - apply (saveAnswer_once_miss ctx first w Hu Hv1 Hf).
      + apply fitsColumns_true, Hfit1.
      + apply referencesExist_true, Href1. }
  destruct H1 as (r1 & w1 & Hrun1 & Hone1 & Hh1 & Hu1).
  assert (Hf : find (keyOf second) (userAnswer (db w1)) = Some r1)
    by (rewrite find_head_filter, Hkey, Hone1; reflexivity).
  destruct (saveAnswer_once_hit ctx second w1 r1 Hu1 Hv2 Hf)
    as (r2 & w2 & Hrun2 & Hone2 & Hh2 & Hu2).
  destruct (saveAnswer_hit ctx second w1 r1 Hv2 Hf)
    as (r2' & rows' & Hrun & Hfr & Hh & Hall & _).
  rewrite Hrun2 in Hrun. inversion Hrun; subst r2' w2. simpl in *.
  exists r1, w1, r2. eexists. split; [exact Hrun1|]. split; [exact Hrun2|].
  simpl. split; [exact Hone2|]. split; [exact Hh2|].
  split; [symmetry; apply (Forall2_length Hall)|]. split; [exact Hu2|].
  intros Ea Ee.
  assert (Hsame : forall x, holds first x -> holds second x)
    by (unfold holds; rewrite Ea, Ee; auto).
  assert (Hr : r2 = r1).
  { apply (row_determined second r1); auto.
    unfold sameFrame; auto. }
  split; [exact Hr|].
  rewrite (Forall2_same _ _ _ Hall); [apply setUserAnswer_same|].
  intros x y Hx (Hxy & Hother & Hhit).
  destruct (keyOf second x) eqn:E; [|apply Hother; reflexivity].
  assert (Hx1 : In x (filter (keyOf first) (userAnswer (db w1))))
    by (apply filter_In; rewrite <- Hkey; auto).
  rewrite Hone1 in Hx1. destruct Hx1 as [<-|[]].
  apply (row_determined second r1); auto.
  unfold sameFrame; auto.
Qed.

Lemma saveAnswer_idempotent_witness :
  exists r1 w1 r2 w2,
    saveAnswer student essaySubmission
      (worldOf (setUserAnswer [] (exampleStore 500)) 1000) = (Return r1, w1)
    /\ saveAnswer student essaySubmission w1 = (Return r2, w2)
    /\ filter (keyOf essaySubmission) (userAnswer (db w2)) = [r2]
    /\ r2 = r1 /\ db w2 = db w1.
Proof.
  destruct (saveAnswer_idempotent student essaySubmission essaySubmission
              (worldOf (setUserAnswer [] (exampleStore 500)) 1000))
    as (r1 & w1 & r2 & w2 & H1 & H2 & Hone & _ & _ & _ & Hsame);
    try reflexivity.
  - intros u s q. simpl. lia.
  - right. discriminate.
  - right. discriminate.
  - unfold fitsColumns, inInt. simpl.
    repeat split; try lia; discriminate.
  - unfold fitsColumns, inInt. simpl.
    repeat split; try lia; discriminate.
  - unfold referencesExist. simpl. repeat split.
    + exists student. auto.
    + exists (examplePackage 500). auto.
    + exists exampleSession. auto.
    + exists essayQuestion. auto.
  - exists r1, w1, r2, w2. repeat split; try assumption;
      apply Hsame; reflexivity.
Defined.

(** C4 as stated fails: a submission with an answer, naming a question, a
    session, a package and a user that are not stored, is refused by the
    store both times and leaves no row under its key. *)
Lemma saveAnswer_refused_twice :
  saveAnswer student essaySubmission (worldOf emptyStore 0)
  = (Throw "Foreign key constraint violated",
     mkWorld emptyStore (constClock 0) 0 [UserAnswerUpsert])
  /\ saveAnswer student essaySubmission
       (mkWorld emptyStore (constClock 0) 0 [UserAnswerUpsert])
     = (Throw "Foreign key constraint violated",
        mkWorld emptyStore (constClock 0) 0 [UserAnswerUpsert; UserAnswerUpsert])
  /\ filter (keyOf essaySubmission) (userAnswer emptyStore) = [].
Proof. repeat split. Qed.

(** ** Announcement *)

(** One call on a store that holds at most the row with id 1. *)
Lemma upsertAnnouncement_step (ctx : User.t) (input : AnnouncementInput.t)
    (w : World) :
  announcementSingleton (db w) ->
  exists r,
    fst (upsertAnnouncement ctx input w) = Return r
    /\ Announcement.id r = 1
    /\ announcement (db (snd (upsertAnnouncement ctx input w))) = [r]
    /\ (announcement (db w) = [] ->
        r = Announcement.mk 1 (AnnouncementInput.title input)
              (AnnouncementInput.content input) (AnnouncementInput.url input))
    /\ (forall old, announcement (db w) = [old] ->
        r = Announcement.mk 1
              (orKeep (AnnouncementInput.title input) (Announcement.title old))
              (orKeep (AnnouncementInput.content input) (Announcement.content old))
              (orKeep (AnnouncementInput.url input) (Announcement.url old))).
Proof.
  intros [[Hrows Hseq] | (r0 & Hrows & Hid)];
    unfold upsertAnnouncement, announcement_upsert, mutation;
    rewrite Hrows.
  - simpl. rewrite Hseq. simpl. eexists.
    split; [reflexivity|]. split; [reflexivity|]. split; [reflexivity|].
    split; [intros _; reflexivity | intros old H; discriminate].
  - destruct r0 as [i t c u]. simpl in Hid. subst i. simpl. eexists.
    split; [reflexivity|]. split; [reflexivity|]. split; [reflexivity|].
    split; [intro H; discriminate|].
    intros old H. inversion H; subst. reflexivity.
Qed.

(** C8, as the code has it: on a store whose Announcement table is empty
    with an untouched id sequence, or holds just the row with id 1, every
    sequence of [upsertAnnouncement] calls leaves at most one Announcement
    row.  Each call returns the row with id 1, which is then the whole
    table: created from the payload when the table was empty, updated in
    place from the fields the payload carries when it was there. *)
Theorem upsertAnnouncement_singleton
    (ctx : User.t) (inputs : list AnnouncementInput.t) (w : World) :
  announcementSingleton (db w) ->
  announcementSingleton (db (upsertAnnouncements ctx inputs w))
  /\ (List.length (announcement (db (upsertAnnouncements ctx inputs w))) <= 1)%nat
  /\ forall input,
       let w' := upsertAnnouncements ctx inputs w in
       exists r,
         fst (upsertAnnouncement ctx input w') = Return r
         /\ Announcement.id r = 1
         /\ announcement (db (snd (upsertAnnouncement ctx input w'))) = [r]
         /\ (announcement (db w') = [] ->
             r = Announcement.mk 1 (AnnouncementInput.title input)
                   (AnnouncementInput.content input) (AnnouncementInput.url input))
         /\ (forall old, announcement (db w') = [old] ->
             r = Announcement.mk 1
                   (orKeep (AnnouncementInput.title input) (Announcement.title old))
                   (orKeep (AnnouncementInput.content input) (Announcement.content old))
                   (orKeep (AnnouncementInput.url input) (Announcement.url old))).
Proof.
  intro Hinv.
  assert (Hall : announcementSingleton (db (upsertAnnouncements ctx inputs w))).
  { revert w Hinv. unfold upsertAnnouncements.
    induction inputs as [|input inputs IH]; intros w Hinv; simpl; [exact Hinv|].
    apply IH.
    destruct (upsertAnnouncement_step ctx input w Hinv) as (r & _ & Hid & Hrows & _).
    right. exists r. auto. }
  split; [exact Hall|]. split.
  - destruct Hall as [[H _] | (r & H & _)]; rewrite H; simpl; lia.
  - intros input w'. apply upsertAnnouncement_step, Hall.
Qed.

Lemma upsertAnnouncement_singleton_witness :
  announcement
    (db (upsertAnnouncements admin [helloAnnouncement; closingAnnouncement]
           (worldOf emptyStore 0)))
  = [Announcement.mk 1 (Some (js "Hello")) (Some (js "Tryout 1 is closed")) None]
  /\ (List.length
        (announcement
           (db (upsertAnnouncements admin [helloAnnouncement; closingAnnouncement]
                  (worldOf emptyStore 0))))
      <= 1)%nat.
Proof.
  split; [reflexivity|].
  apply (upsertAnnouncement_singleton admin
           [helloAnnouncement; closingAnnouncement] (worldOf emptyStore 0)).
  left. split; reflexivity.
Defined.

(** C8 as stated fails: from a store whose one Announcement row does not
    have id 1, a single call adds a second row. *)
Lemma upsertAnnouncement_multiplies :
  List.length (announcement strayStore) = 1%nat
  /\ List.length
       (announcement
          (db (upsertAnnouncements admin [helloAnnouncement]
                 (worldOf strayStore 0))))
     = 2%nat.
Proof. split; reflexivity. Qed.

(** ** Absent targets *)

(** C7, as the code has it: [getAnnouncement], [getSession],
    [getSessionDetails] and [getQuestionsBySubtest] return null when the row
    they look for is absent, while [getPackageWithSubtest] throws "Package
    not found" when no package has the requested id. *)
Theorem absent_targets
    (toLowerCase : jsstring -> jsstring) (ctx : User.t) (w : World) :
  (announcement (db w) = [] -> fst (getAnnouncement ctx w) = Return None)
  /\ (forall input,
        find (sessionOf (GetSessionInput.userId input)
                (GetSessionInput.subtestId input)) (quizSession (db w)) = None ->
        fst (getSession ctx input w) = Return None)
  /\ (forall sessionId,
        find (fun r => QuizSession.id r =? sessionId) (quizSession (db w)) = None ->
        fst (getSessionDetails ctx sessionId w) = Return None)
  /\ (forall input,
        find (sessionOf (scopedUser ctx input) (GetQuestionsInput.subtestId input))
             (quizSession (db w)) = None ->
        fst (getQuestionsBySubtest ctx input w) = Return Null)
  /\ (forall id,
        find (fun p => Package.id p =? id) (package (db w)) = None ->
        fst (getPackageWithSubtest toLowerCase ctx id w)
        = Throw "Package not found").
Proof.
  repeat split.
  - intro H. unfold getAnnouncement, query. simpl. rewrite H. reflexivity.
  - intros input H. unfold getSession, query. simpl. rewrite H. reflexivity.
  - intros sessionId H.
    unfold getSessionDetails, bind, query, sessionDetails. simpl.
    rewrite (filter_none _ _ H). reflexivity.
  - intros input H.
    unfold getQuestionsBySubtest, bind, query, sessionWindows. simpl.
    rewrite (filter_none _ _ H). reflexivity.
  - intros id H.
    unfold getPackageWithSubtest, bind, query, loadPackage, packageOf. simpl.
    rewrite H. reflexivity.
Qed.

Lemma absent_targets_witness :
  fst (getSession student (GetSessionInput.mk (js "u1") 1) (worldOf emptyStore 0))
  = Return None
  /\ fst (getSessionDetails student 1 (worldOf emptyStore 0)) = Return None
  /\ fst (getQuestionsBySubtest student (GetQuestionsInput.mk 1 None)
            (worldOf emptyStore 0)) = Return Null
  /\ fst (getPackageWithSubtest asciiToLowerCase student 1 (worldOf emptyStore 0))
     = Throw "Package not found".
Proof.
  destruct (absent_targets asciiToLowerCase student (worldOf emptyStore 0))
    as (_ & Hs & Hd & Hq & Hp).
  split; [apply Hs; reflexivity|].
  split; [apply Hd; reflexivity|].
  split; [apply Hq; reflexivity|].
  apply Hp. reflexivity.
Defined.

(** C7 as stated fails: asking for a package that does not exist throws. *)
Lemma getPackageWithSubtest_missing_throws :
  fst (getPackageWithSubtest asciiToLowerCase student 42
         (worldOf (exampleStore 500) 1000))
  = Throw "Package not found".
Proof. reflexivity. Qed.

(** ** Scoring *)

Lemma closedFrom_later (clk : nat -> Z) (n n' : nat) (toEnd : Z) :
  (n <= n')%nat -> closedFrom clk n toEnd -> closedFrom clk n' toEnd.
Proof. intros Hn H k Hk. apply H. lia. Qed.

Lemma scoredAs_earlier lower (clk : nat -> Z) (n n' : nat)
    (st : PackageSubtest.t) (o : SubtestWithScore.t) :
  (n <= n')%nat -> scoredAs lower clk n' st o -> scoredAs lower clk n st o.
Proof.
  intros Hn [Hsub Hscore]. split; [exact Hsub|].
  intros qs rest Hqs Hclosed.
  apply (Hscore qs rest Hqs). apply (closedFrom_later clk n n'); assumption.
Qed.

(** The callback on one subtest: it returns, reads the clock at most once,
    adds the reported score to the running total and touches nothing
    else. *)
Lemma scoreSubtest_run lower (total : Z) (st : PackageSubtest.t) (w : World) :
  exists o n',
    scoreSubtest lower total st w
    = (Return (o, total + scoreOrZero o),
       mkWorld (db w) (clock w) n' (journal w))
    /\ (reads w <= n')%nat
    /\ scoredAs lower (clock w) (reads w) st o.
Proof.
  unfold scoreSubtest.
  destruct (PackageSubtest.quizSession st) as [|qs rest] eqn:Hqs.
  - exists (SubtestWithScore.mk (PackageSubtest.subtest st) None None), (reads w).
    unfold ret, scoreOrZero. simpl.
    split; [destruct w; simpl; rewrite Z.add_0_r; reflexivity|].
    split; [lia|]. split; [reflexivity|]. intros ? ? H. congruence.
  - unfold bind, newDate, ret. simpl.
    destruct (Z.gtb_spec (ScoredSession.package_TOend qs) (clock w (reads w)))
      as [Hopen|Hclosed].
    + exists (SubtestWithScore.mk (PackageSubtest.subtest st)
                (Some (ScoredSession.endTime qs)) None), (S (reads w)).
      unfold scoreOrZero. simpl.
      split; [rewrite Z.add_0_r; reflexivity|].
      split; [lia|]. split; [reflexivity|].
      intros qs' rest' H Hc. rewrite Hqs in H. inversion H; subst qs' rest'.
      specialize (Hc (reads w) (le_n _)). lia.
    + exists (SubtestWithScore.mk (PackageSubtest.subtest st)
                (Some (ScoredSession.endTime qs))
                (Some (sessionScore lower (ScoredSession.userAnswers qs)))),
             (S (reads w)).
      unfold scoreOrZero. simpl.
      split; [reflexivity|].
      split; [lia|]. split; [reflexivity|].
      intros qs' rest' H _. rewrite Hqs in H. inversion H; subst qs' rest'.
      rewrite sessionScore_sum. reflexivity.
Qed.

Lemma scoreSubtests_run lower (sts : list PackageSubtest.t) :
  forall (total : Z) (w : World),
  exists outs n',
    scoreSubtests lower total sts w
    = (Return (outs, total + sumZ (map scoreOrZero outs)),
       mkWorld (db w) (clock w) n' (journal w))
    /\ (reads w <= n')%nat
    /\ Forall2 (scoredAs lower (clock w) (reads w)) sts outs.
Proof.
  induction sts as [|st sts IH]; intros total w.
  - exists [], (reads w). simpl. unfold ret.
    split; [destruct w; simpl; rewrite Z.add_0_r; reflexivity|].
    split; [lia | constructor].
  - destruct (scoreSubtest_run lower total st w) as (o & n1 & Hrun & Hn1 & Ho).
    destruct (IH (total + scoreOrZero o) (mkWorld (db w) (clock w) n1 (journal w)))
      as (outs & n2 & Hrest & Hn2 & Houts).
    simpl in Hrest, Hn2, Houts.
    exists (o :: outs), n2.
    split.
    + simpl. unfold bind at 1. rewrite Hrun. simpl.
      unfold bind, ret. rewrite Hrest. simpl.
      rewrite Z.add_assoc. reflexivity.
    + split; [lia|]. constructor; [exact Ho|].
      eapply Forall2_impl; [|exact Houts].
      intros a b. apply scoredAs_earlier. exact Hn1.
Qed.

Lemma paris_compares_equal lower :
  agreesOnAscii lower -> isEssayCorrect lower (js " Paris ") [js "paris"] = true.
Proof.
  intro Hl. unfold isEssayCorrect. simpl.
  change (trim (js " Paris ")) with (js "Paris").
  change (trim (js "paris")) with (js "paris").
  rewrite !Hl by (repeat constructor).
  reflexivity.
Qed.

Lemma strictEq_decides (a b : jsstring) :
  strictEq a b = if list_eq_dec N.eq_dec a b then true else false.
Proof.
  destruct (list_eq_dec N.eq_dec a b) as [E | E].
  - apply strictEq_true_iff. exact E.
  - apply strictEq_false_iff. exact E.
Qed.

(** What the reducer adds for a loaded answer is what the stored answer is
    worth. *)
Lemma answerScore_points lower (s : Store) (a : UserAnswer.t) (q : Question.t) :
  questionOf s (UserAnswer.questionId a) = Some q ->
  answerScore lower
    (ScoredAnswer.mk
       (ScoredQuestion.mk (Question.correctAnswerChoice q) (Question.score q)
          (map Answer.content (answersOf s (Question.id q))))
       (UserAnswer.answerChoice a) (UserAnswer.essayAnswer a))
  = points lower s a.
Proof.
  unfold questionOf, points. intros ->. unfold answerScore. simpl.
  destruct (Question.correctAnswerChoice q) as [correct|].
  - unfold choiceIs. destruct (UserAnswer.answerChoice a) as [c|]; [|reflexivity].
    destruct (Z.eq_dec c correct) as [E | E].
    + apply Z.eqb_eq in E. rewrite E. reflexivity.
    + apply Z.eqb_neq in E. rewrite E. reflexivity.
  - destruct (UserAnswer.essayAnswer a) as [essay|]; [|reflexivity].
    unfold isEssayCorrect, answersOf.
    destruct (filter (fun x => Answer.questionId x =? Question.id q) (answer s))
      as [|first rest]; simpl; [reflexivity|].
    rewrite strictEq_decides.
    destruct (list_eq_dec N.eq_dec _ _); reflexivity.
Qed.

Lemma scoredAnswers_points lower (s : Store) (sessionId pkgId : Z) :
  sumZ (map (answerScore lower) (scoredAnswers s sessionId pkgId))
  = sumZ (map (points lower s)
              (filter (fun a => (UserAnswer.quizSessionId a =? sessionId)
                                && (UserAnswer.packageId a =? pkgId))
                      (userAnswer s))).
Proof.
  unfold scoredAnswers, joinParent.
  induction (filter (fun a => (UserAnswer.quizSessionId a =? sessionId)
                              && (UserAnswer.packageId a =? pkgId))
                    (userAnswer s)) as [|a l IH]; [reflexivity|].
  simpl. destruct (questionOf s (UserAnswer.questionId a)) as [q|] eqn:Hq; simpl.
  - rewrite IH, (answerScore_points lower s a q Hq). reflexivity.
  - rewrite IH. unfold points at 2. unfold questionOf in Hq. rewrite Hq.
    reflexivity.
Qed.

(** The session the scoring of a subtest starts from. *)
Lemma firstSessionOf_scored (s : Store) (u : jsstring) (sid pkgId : Z)
    (r : QuizSession.t) (q : Package.t) :
  firstSessionOf s u sid r ->
  find (fun p => Package.id p =? QuizSession.packageId r) (package s) = Some q ->
  exists rest,
    scoredSessions s u sid pkgId
    = ScoredSession.mk (QuizSession.endTime r) (Package.TOend q)
        (scoredAnswers s (QuizSession.id r) pkgId) :: rest.
Proof.
  intros (Hu & Hs & before & after & Hrows & Hnone) Hq.
  unfold scoredSessions, joinParent, packageOf. rewrite Hrows, filter_app.
  rewrite filter_nil_Forall.
  - simpl. rewrite Hu, Hs, strictEq_refl, Z.eqb_refl.
    simpl. rewrite Hq. simpl. eexists. reflexivity.
  - eapply Forall_impl; [|exact Hnone]. intros x [Hx | Hx].
    + apply strictEq_false_iff in Hx. rewrite Hx. apply andb_false_r.
    + apply Z.eqb_neq in Hx. rewrite Hx. reflexivity.
Qed.

Lemma Forall2_map_left {A B C} (R : B -> C -> Prop) (f : A -> B) (l : list A) :
  forall outs, Forall2 R (map f l) outs -> Forall2 (fun a c => R (f a) c) l outs.
Proof.
  induction l as [|a l IH]; intros outs H; inversion H; subst; constructor; auto.
Qed.

Lemma scoredAs_fromStore lower (s : Store) (u : jsstring) (pkgId : Z)
    (clk : nat -> Z) (n : nat) (t : Subtest.t) (o : SubtestWithScore.t) :
  scoredAs lower clk n
    (PackageSubtest.mk t (scoredSessions s u (Subtest.id t) pkgId)) o ->
  scoredFromStore lower s u pkgId clk n t o.
Proof.
  intros [Hsub Hscore]. split; [exact Hsub|].
  intros r q Hfirst Hq Hclosed.
  destruct (firstSessionOf_scored s u (Subtest.id t) pkgId r q Hfirst Hq)
    as [rest Hrest].
  rewrite (Hscore _ rest Hrest Hclosed). simpl.
  rewrite scoredAnswers_points. reflexivity.
Qed.

(** The run of [getPackageWithSubtest] on a stored package, read off the
    store. *)
Lemma getPackageWithSubtest_run lower (ctx : User.t) (id : Z) (w : World)
    (p : Package.t) :
  find (fun x => Package.id x =? id) (package (db w)) = Some p ->
  exists out w',
    getPackageWithSubtest lower ctx id w = (Return out, w')
    /\ Forall2 (scoredFromStore lower (db w) (User.id ctx) id (clock w) (reads w))
         (filter (fun t => Subtest.packageId t =? id) (subtest (db w)))
         (PackageWithScores.subtests out)
    /\ PackageWithScores.totalScore out
       = sumZ (map scoreOrZero (PackageWithScores.subtests out)).
Proof.
  intro Hfind.
  set (packageData :=
         PackageData.mk (Package.name p) (Package.type p) (Package.TOstart p)
           (Package.TOend p)
           (map (fun t => PackageSubtest.mk t
                            (scoredSessions (db w) (User.id ctx) (Subtest.id t) id))
                (subtestsOf (db w) id))).
  assert (Hload : loadPackage (db w) (User.id ctx) id = Some packageData)
    by (unfold loadPackage, packageOf; rewrite Hfind; reflexivity).
  unfold getPackageWithSubtest, bind at 1, query. simpl. rewrite Hload.
  destruct (scoreSubtests_run lower (PackageData.subtests packageData) 0
              (mkWorld (db w) (clock w) (reads w) (journal w ++ [PackageFindUnique])))
    as (outs & n' & Hrun & _ & Houts).
  subst packageData. simpl in Hrun, Houts. simpl.
  unfold bind, ret. rewrite Hrun. simpl.
  eexists. eexists. split; [reflexivity|]. simpl.
  split; [|reflexivity].
  apply Forall2_map_left in Houts.
  eapply Forall2_impl; [|exact Houts].
  intros t o. apply scoredAs_fromStore.
Qed.

(** C1, as the code has it: when the package exists, [getPackageWithSubtest]
    returns one entry per stored subtest of the package, in stored order.
    Where the caller's first stored session for the subtest names a stored
    package whose [TOend] the clock has reached, the reported score is the
    sum, over the answers stored for that session under the requested
    package, of: the question's score when the question has a
    correct-answer choice and the answer's choice equals it, and nothing
    when it has one and the choice differs or is null; when the question
    has none, the question's score for an essay answer that equals, trimmed
    and lower-cased, the trimmed and lower-cased text of the first stored
    answer choice of the question; otherwise nothing.  The package's
    [totalScore] is the sum of the reported subtest scores.  With a
    lower-casing that is the ASCII one on ASCII text, " Paris " and "paris"
    compare equal. *)
Theorem getPackageWithSubtest_scores
    (toLowerCase : jsstring -> jsstring) (ctx : User.t) (id : Z) (w : World)
    (p : Package.t) :
  find (fun x => Package.id x =? id) (package (db w)) = Some p ->
  exists out w',
    getPackageWithSubtest toLowerCase ctx id w = (Return out, w')
    /\ Forall2 (scoredFromStore toLowerCase (db w) (User.id ctx) id
                  (clock w) (reads w))
         (filter (fun t => Subtest.packageId t =? id) (subtest (db w)))
         (PackageWithScores.subtests out)
    /\ PackageWithScores.totalScore out
       = sumZ (map scoreOrZero (PackageWithScores.subtests out))
    /\ (agreesOnAscii toLowerCase ->
        isEssayCorrect toLowerCase (js " Paris ") [js "paris"] = true).
Proof.
  intro Hfind.
  destruct (getPackageWithSubtest_run toLowerCase ctx id w p Hfind)
    as (out & w' & Hrun & Hall & Htotal).
  exists out, w'. split; [exact Hrun|]. split; [exact Hall|].
  split; [exact Htotal|]. apply paris_compares_equal.
Qed.

Lemma getPackageWithSubtest_scores_witness :
  exists out w',
    getPackageWithSubtest asciiToLowerCase student 1
      (worldOf (exampleStore 500) 1000) = (Return out, w')
    /\ map SubtestWithScore.score (PackageWithScores.subtests out) = [Some 15]
    /\ PackageWithScores.totalScore out = 15
    /\ isEssayCorrect asciiToLowerCase (js " Paris ") [js "paris"] = true.
Proof.
  destruct (getPackageWithSubtest_scores asciiToLowerCase student 1
              (worldOf (exampleStore 500) 1000) (examplePackage 500) eq_refl)
    as (out & w' & Hrun & Hall & Htotal & Hparis).
  assert (Hone : Forall2 (scoredFromStore asciiToLowerCase (exampleStore 500)
                            (js "u1") 1 (constClock 1000) 0)
                   [exampleSubtest] (PackageWithScores.subtests out))
    by exact Hall.
  inversion Hone as [|t o ts os [_ Hscore] Hrest Et Eo]. subst t ts.
  inversion Hrest. subst os.
  assert (Hs : SubtestWithScore.score o = Some 15).
  { rewrite (Hscore exampleSession (examplePackage 500)
               (exampleSession_first 500) eq_refl).
    - reflexivity.
    - intros k _. unfold constClock. simpl. lia. }
  exists out, w'. split; [exact Hrun|].
  rewrite Htotal, <- Eo. unfold scoreOrZero. simpl. rewrite Hs.
  split; [reflexivity|]. split; [reflexivity|].
  apply Hparis. intros s _. reflexivity.
Defined.

(** C1 as stated fails.  In a closed session, a question with a
    correct-answer choice is answered with an essay text that matches the
    first listed choice, and a second question is answered rightly under
    another package id.  The handler reports the score 0; the stated cascade
    gives 10 on the answers the handler loads, and 17 over every stored
    answer of the session. *)
Lemma claimed_score_fails :
  closedFrom (constClock 1000) 0 500
  /\ fst (getPackageWithSubtest asciiToLowerCase student 1 (worldOf mixedStore 1000))
     = Return (PackageWithScores.mk (js "Tryout 1") (js "tryout") 0 500 0
                 [SubtestWithScore.mk exampleSubtest (Some 2000) (Some 0)])
  /\ map (fun session =>
            sumZ (map (claimedAnswerScore asciiToLowerCase)
                      (ScoredSession.userAnswers session)))
         (scoredSessions mixedStore (js "u1") 1 1)
     = [10]
  /\ sumZ (map (claimedAnswerScore asciiToLowerCase)
              (claimedSessionAnswers mixedStore 1))
     = 17.
Proof.
  split; [intros k _; unfold constClock; lia|].
  repeat split.
Qed.

(** The end-to-end scenarios of the specification: a multiple-choice answer
    worth 10 and an essay answer worth 5, both right. *)
Example scenario_closed_window :
  fst (getPackageWithSubtest asciiToLowerCase student 1
         (worldOf (exampleStore 500) 1000))
  = Return (PackageWithScores.mk (js "Tryout 1") (js "tryout") 0 500 15
              [SubtestWithScore.mk exampleSubtest (Some 2000) (Some 15)]).
Proof. reflexivity. Qed.

Example scenario_open_window :
  fst (getPackageWithSubtest asciiToLowerCase student 1
         (worldOf (exampleStore 5000) 1000))
  = Return (PackageWithScores.mk (js "Tryout 1") (js "tryout") 0 5000 0
              [SubtestWithScore.mk exampleSubtest (Some 2000) None]).
Proof. reflexivity. Qed.

(** ** Essay comparison *)

Lemma trimStart_pad (p s : jsstring) :
  allWhiteSpace p -> trimStart (p ++ s) = trimStart s.
Proof.
  unfold allWhiteSpace. induction p as [|c p IH]; simpl; intro H; [reflexivity|].
  apply andb_true_iff in H. destruct H as [Hc Hp]. rewrite Hc. apply IH, Hp.
Qed.

Lemma trimStart_all (p : jsstring) : allWhiteSpace p -> trimStart p = [].
Proof.
  intro H. rewrite <- (app_nil_r p). rewrite trimStart_pad by exact H.
  reflexivity.
Qed.

Lemma allWhiteSpace_rev (p : jsstring) : allWhiteSpace p -> allWhiteSpace (rev p).
Proof.
  unfold allWhiteSpace. rewrite !forallb_forall. intros H c Hc.
  apply H. apply in_rev. exact Hc.
Qed.

Lemma trimEnd_pad (s p : jsstring) :
  allWhiteSpace p -> trimEnd (s ++ p) = trimEnd s.
Proof.
  intro H. unfold trimEnd. rewrite rev_app_distr.
  rewrite trimStart_pad by (apply allWhiteSpace_rev, H). reflexivity.
Qed.

Lemma trimStart_app (s q : jsstring) :
  trimStart (s ++ q) = if forallb isWhiteSpace s then trimStart q else trimStart s ++ q.
Proof.
  induction s as [|c s IH]; simpl; [reflexivity|].
  destruct (isWhiteSpace c); simpl; [exact IH | reflexivity].
Qed.

Lemma trim_pad (p s q : jsstring) :
  allWhiteSpace p -> allWhiteSpace q -> trim (p ++ s ++ q) = trim s.
Proof.
  intros Hp Hq. unfold trim. rewrite trimStart_pad by exact Hp.
  rewrite trimStart_app.
  destruct (forallb isWhiteSpace s) eqn:Hs.
  - rewrite (trimStart_all q Hq), (trimStart_all s Hs). reflexivity.
  - apply trimEnd_pad, Hq.
Qed.

(** X1: the essay comparison ignores white space around the essay text and
    around the first answer choice's text, and it looks at no answer choice
    but the first. *)
Theorem isEssayCorrect_ignores_padding
    (toLowerCase : jsstring -> jsstring)
    (p1 p2 q1 q2 essay content : jsstring) (rest rest' : list jsstring) :
  allWhiteSpace p1 -> allWhiteSpace p2 ->
  allWhiteSpace q1 -> allWhiteSpace q2 ->
  isEssayCorrect toLowerCase (p1 ++ essay ++ p2) ((q1 ++ content ++ q2) :: rest)
  = isEssayCorrect toLowerCase essay (content :: rest').
Proof.
  intros H1 H2 H3 H4. unfold isEssayCorrect. simpl.
  rewrite !trim_pad by assumption. reflexivity.
Qed.

Lemma isEssayCorrect_ignores_padding_witness :
  isEssayCorrect asciiToLowerCase (js "  Jakarta ") [js " jakarta"; js "Bandung"]
  = isEssayCorrect asciiToLowerCase (js "Jakarta") [js "jakarta"].
Proof.
  exact (isEssayCorrect_ignores_padding asciiToLowerCase
           (js "  ") (js " ") (js " ") (js "") (js "Jakarta") (js "jakarta")
           [js "Bandung"] [] eq_refl eq_refl eq_refl eq_refl).
Defined.

Lemma isWhiteSpace_letter (c : N) :
  (65 <= c)%N -> (c <= 122)%N -> isWhiteSpace c = false.
Proof.
  intros Hl Hu. unfold isWhiteSpace.
  rewrite (proj2 (N.leb_gt c 13)) by lia.
  rewrite (proj2 (N.leb_gt 8192 c)) by lia.
  repeat rewrite (proj2 (N.eqb_neq c _)) by lia.
  rewrite !andb_false_r. reflexivity.
Qed.

Lemma isWhiteSpace_asciiLower (c : N) :
  isWhiteSpace (asciiLower c) = isWhiteSpace c.
Proof.
  unfold asciiLower.
  destruct ((65 <=? c) && (c <=? 90))%N eqn:E; [|reflexivity].
  apply andb_true_iff in E. destruct E as [Hl Hu].
  apply N.leb_le in Hl. apply N.leb_le in Hu.
  rewrite !isWhiteSpace_letter by lia. reflexivity.
Qed.

Lemma trimStart_asciiToLowerCase (s : jsstring) :
  trimStart (asciiToLowerCase s) = asciiToLowerCase (trimStart s).
Proof.
  unfold asciiToLowerCase. induction s as [|c s IH]; simpl; [reflexivity|].
  rewrite isWhiteSpace_asciiLower. destruct (isWhiteSpace c); [exact IH | reflexivity].
Qed.

Lemma rev_asciiToLowerCase (s : jsstring) :
  rev (asciiToLowerCase s) = asciiToLowerCase (rev s).
Proof. unfold asciiToLowerCase. symmetry. apply map_rev. Qed.

Lemma trim_asciiToLowerCase (s : jsstring) :
  trim (asciiToLowerCase s) = asciiToLowerCase (trim s).
Proof.
  unfold trim, trimEnd.
  rewrite trimStart_asciiToLowerCase, rev_asciiToLowerCase,
    trimStart_asciiToLowerCase, rev_asciiToLowerCase.
  reflexivity.
Qed.

Lemma isAscii_trimStart (s : jsstring) : isAscii s -> isAscii (trimStart s).
Proof.
  unfold isAscii. induction s as [|c s IH]; simpl; intro H; [constructor|].
  destruct (isWhiteSpace c); [|exact H].
  apply IH. inversion H; assumption.
Qed.

Lemma isAscii_trim (s : jsstring) : isAscii s -> isAscii (trim s).
Proof.
  intro H. unfold trim, trimEnd, isAscii.
  apply Forall_rev. apply isAscii_trimStart. apply Forall_rev.
  apply isAscii_trimStart, H.
Qed.

(** X2: on ASCII text, with a lower-casing that is the ASCII one there, the
    essay comparison is insensitive to the case of letters: two essay texts
    that differ only in case are judged alike against any ASCII answer
    choice, and an essay is right exactly when it equals the first choice
    after trimming and ASCII lower-casing. *)
Theorem isEssayCorrect_ignores_case
    (toLowerCase : jsstring -> jsstring)
    (essay essay' content : jsstring) (rest : list jsstring) :
  agreesOnAscii toLowerCase ->
  isAscii essay -> isAscii essay' -> isAscii content ->
  (asciiToLowerCase essay = asciiToLowerCase essay' ->
   isEssayCorrect toLowerCase essay (content :: rest)
   = isEssayCorrect toLowerCase essay' (content :: rest))
  /\ (isEssayCorrect toLowerCase essay (content :: rest) = true
      <-> trim (asciiToLowerCase essay) = trim (asciiToLowerCase content)).
Proof.
  intros Hl He He' Hc.
  assert (Hnorm : forall s, isAscii s ->
            toLowerCase (trim s) = trim (asciiToLowerCase s)).
  { intros s Hs. rewrite Hl by (apply isAscii_trim, Hs).
    symmetry. apply trim_asciiToLowerCase. }
  unfold isEssayCorrect. simpl.
  rewrite !Hnorm by assumption. split.
  - intros ->. reflexivity.
  - apply strictEq_true_iff.
Qed.

Lemma isEssayCorrect_ignores_case_witness :
  isEssayCorrect asciiToLowerCase (js "JAKARTA") [js "Jakarta"]
  = isEssayCorrect asciiToLowerCase (js "jakarta") [js "Jakarta"].
Proof.
  apply (isEssayCorrect_ignores_case asciiToLowerCase
           (js "JAKARTA") (js "jakarta") (js "Jakarta") []).
  - intros s _. reflexivity.
  - repeat constructor.
  - repeat constructor.
  - repeat constructor.
  - reflexivity.
Defined.

(** ** Scoring: bounds *)

Lemma answerScore_cases lower (a : ScoredAnswer.t) :
  answerScore lower a = 0
  \/ answerScore lower a = ScoredQuestion.score (ScoredAnswer.question a).
Proof.
  unfold answerScore.
  destruct (ScoredQuestion.correctAnswerChoice (ScoredAnswer.question a)) as [c|].
  - destruct (choiceIs (ScoredAnswer.answerChoice a) c); auto.
  - destruct (ScoredAnswer.essayAnswer a) as [e|]; auto.
    destruct (isEssayCorrect lower e _); auto.
Qed.

(** X3: every stored answer adds either nothing or its question's score, so
    when no question of a session's answers has a negative score, the
    session's score lies between 0 and the sum of those questions'
    scores. *)
Theorem sessionScore_bounds
    (toLowerCase : jsstring -> jsstring) (userAnswers : list ScoredAnswer.t) :
  Forall (fun a => 0 <= ScoredQuestion.score (ScoredAnswer.question a)) userAnswers ->
  0 <= sessionScore toLowerCase userAnswers
  <= sumZ (map (fun a => ScoredQuestion.score (ScoredAnswer.question a)) userAnswers).
Proof.
  rewrite sessionScore_sum.
  induction 1 as [|a l Ha _ IH]; simpl; [lia|].
  destruct (answerScore_cases toLowerCase a) as [E|E]; rewrite E; lia.
Qed.

Lemma sessionScore_bounds_witness :
  0 <= sessionScore asciiToLowerCase (scoredAnswers (exampleStore 500) 1 1) <= 15.
Proof.
  apply (sessionScore_bounds asciiToLowerCase (scoredAnswers (exampleStore 500) 1 1)).
  repeat constructor; discriminate.
Defined.

(** ** Scoring: what is reported besides the score *)

Lemma openFrom_later (clk : nat -> Z) (n n' : nat) (toEnd : Z) :
  (n <= n')%nat -> openFrom clk n toEnd -> openFrom clk n' toEnd.
Proof. intros Hn H k Hk. apply H. lia. Qed.

Lemma reportedAs_earlier (clk : nat -> Z) (n n' : nat)
    (st : PackageSubtest.t) (o : SubtestWithScore.t) :
  (n <= n')%nat -> reportedAs clk n' st o -> reportedAs clk n st o.
Proof.
  intros Hn [Hsub H]. split; [exact Hsub|].
  destruct (PackageSubtest.quizSession st) as [|first rest]; [exact H|].
  destruct H as [Hq Hs]. split; [exact Hq|].
  intro Hopen. apply Hs. apply (openFrom_later clk n n'); assumption.
Qed.

Lemma scoreSubtests_shape lower (sts : list PackageSubtest.t) :
  forall (total : Z) (w : World),
  exists outs total',
    scoreSubtests lower total sts w
    = (Return (outs, total'),
       mkWorld (db w) (clock w)
               (reads w + List.length (filter hasSession sts)) (journal w))
    /\ Forall2 (reportedAs (clock w) (reads w)) sts outs.
Proof.
  induction sts as [|st sts IH]; intros total w.
  - exists [], total. simpl. unfold ret. rewrite Nat.add_0_r.
    split; [destruct w; reflexivity | constructor].
  - destruct (PackageSubtest.quizSession st) as [|first rest] eqn:Hqs.
    + assert (Hlen : filter hasSession (st :: sts) = filter hasSession sts)
        by (simpl; unfold hasSession at 1; rewrite Hqs; reflexivity).
      rewrite Hlen. simpl. unfold bind at 1, scoreSubtest. rewrite Hqs.
      unfold ret at 1. simpl.
      destruct (IH total w) as (outs & total' & Hrun & Houts).
      unfold bind, ret. rewrite Hrun. simpl.
      eexists. eexists. split; [reflexivity|].
      constructor; [|exact Houts]. unfold reportedAs. simpl. rewrite Hqs. auto.
    + assert (Hlen : (reads w + List.length (filter hasSession (st :: sts))
                      = S (reads w) + List.length (filter hasSession sts))%nat)
        by (simpl; unfold hasSession at 1; rewrite Hqs; simpl; lia).
      rewrite Hlen. simpl. unfold bind at 1, scoreSubtest. rewrite Hqs.
      unfold bind at 1, newDate. simpl.
      destruct (Z.gtb_spec (ScoredSession.package_TOend first) (clock w (reads w)))
        as [Hopen|Hclosed]; unfold ret at 1; simpl.
      * destruct (IH total (mkWorld (db w) (clock w) (S (reads w)) (journal w)))
          as (outs & total' & Hrun & Houts).
        simpl in Hrun, Houts. unfold bind, ret. rewrite Hrun. simpl.
        eexists. eexists. split; [reflexivity|].
        constructor.
        -- unfold reportedAs. simpl. rewrite Hqs. auto.
        -- eapply Forall2_impl; [|exact Houts].
           intros a b. apply reportedAs_earlier. lia.
      * destruct (IH (total + sessionScore lower (ScoredSession.userAnswers first))
                    (mkWorld (db w) (clock w) (S (reads w)) (journal w)))
          as (outs & total' & Hrun & Houts).
        simpl in Hrun, Houts. unfold bind, ret. rewrite Hrun. simpl.
        eexists. eexists. split; [reflexivity|].
        constructor.
        -- unfold reportedAs. simpl. rewrite Hqs.
           split; [reflexivity|]. split; [reflexivity|].
           intro Ho. specialize (Ho (reads w) (le_n _)). lia.
        -- eapply Forall2_impl; [|exact Houts].
           intros a b. apply reportedAs_earlier. lia.
Qed.

Lemma reportedAs_all_open (clk : nat -> Z) (n : nat)
    (sts : list PackageSubtest.t) (outs : list SubtestWithScore.t) :
  Forall2 (reportedAs clk n) sts outs ->
  (forall st first rest,
      In st sts -> PackageSubtest.quizSession st = first :: rest ->
      openFrom clk n (ScoredSession.package_TOend first)) ->
  sumZ (map scoreOrZero outs) = 0.
Proof.
  induction 1 as [|st o sts outs [_ Ho] _ IH]; intro Hall; simpl; [reflexivity|].
  rewrite IH by (intros st' f r Hin; apply Hall; right; exact Hin).
  unfold scoreOrZero.
  destruct (PackageSubtest.quizSession st) as [|first rest] eqn:Hqs.
  - destruct Ho as [_ ->]. reflexivity.
  - destruct Ho as [_ Hs]. rewrite Hs; [reflexivity|].
    apply (Hall st first rest); [left; reflexivity | exact Hqs].
Qed.

(** X4: for an existing package [getPackageWithSubtest] reports the
    package's subtests in order, each with [quizSession] and [score] null
    when the caller has no session for it, and otherwise with the first
    session's [endTime] and, while that session's package window is open, a
    null score; when every session's window is open [totalScore] is 0.  The
    call makes one ORM call, reads the clock once per subtest that has a
    session, and leaves the store as it was. *)
Theorem getPackageWithSubtest_report
    (toLowerCase : jsstring -> jsstring) (ctx : User.t) (id : Z) (w : World)
    (packageData : PackageData.t) :
  loadPackage (db w) (User.id ctx) id = Some packageData ->
  exists out w',
    getPackageWithSubtest toLowerCase ctx id w = (Return out, w')
    /\ db w' = db w
    /\ journal w' = journal w ++ [PackageFindUnique]
    /\ reads w'
       = (reads w
          + List.length (filter hasSession (PackageData.subtests packageData)))%nat
    /\ Forall2 (reportedAs (clock w) (reads w))
         (PackageData.subtests packageData) (PackageWithScores.subtests out)
    /\ ((forall st first rest,
           In st (PackageData.subtests packageData) ->
           PackageSubtest.quizSession st = first :: rest ->
           openFrom (clock w) (reads w) (ScoredSession.package_TOend first)) ->
        PackageWithScores.totalScore out = 0).
Proof.
  intro Hload.
  unfold getPackageWithSubtest, bind at 1, query. simpl. rewrite Hload.
  set (w0 := mkWorld (db w) (clock w) (reads w) (journal w ++ [PackageFindUnique])).
  destruct (scoreSubtests_shape toLowerCase (PackageData.subtests packageData) 0 w0)
    as (outs & total' & Hrun & Houts).
  destruct (scoreSubtests_run toLowerCase (PackageData.subtests packageData) 0 w0)
    as (outs1 & n1 & Hrun1 & _ & _).
  rewrite Hrun in Hrun1. inversion Hrun1; subst outs1 total'. clear Hrun1.
  unfold bind, ret. rewrite Hrun. simpl.
  eexists. eexists. split; [reflexivity|]. simpl.
  split; [reflexivity|]. split; [reflexivity|]. split; [reflexivity|].
  split; [exact Houts|].
  intro Hall. apply (reportedAs_all_open _ _ _ _ Houts Hall).
Qed.

Lemma getPackageWithSubtest_report_witness :
  exists out w',
    getPackageWithSubtest asciiToLowerCase student 1
      (worldOf (exampleStore 5000) 1000) = (Return out, w')
    /\ db w' = exampleStore 5000
    /\ reads w' = 1%nat
    /\ PackageWithScores.totalScore out = 0.
Proof.
  destruct (getPackageWithSubtest_report asciiToLowerCase student 1
              (worldOf (exampleStore 5000) 1000) _ eq_refl)
    as (out & w' & Hrun & Hdb & _ & Hreads & _ & Hzero).
  exists out, w'. split; [exact Hrun|]. split; [exact Hdb|].
  split; [exact Hreads|].
  apply Hzero. intros st first rest [<-|[]] Hqs.
  inversion Hqs; subst. intros k _. reflexivity.
Defined.

(** ** Scoring: which stored answers matter *)

Lemma scoreSubtest_two lower (total : Z) (st : PackageSubtest.t) (w1 w2 : World) :
  clock w1 = clock w2 -> reads w1 = reads w2 ->
  exists r n',
    scoreSubtest lower total st w1
    = (Return r, mkWorld (db w1) (clock w1) n' (journal w1))
    /\ scoreSubtest lower total st w2
       = (Return r, mkWorld (db w2) (clock w2) n' (journal w2)).
Proof.
  intros Hc Hr. unfold scoreSubtest.
  destruct (PackageSubtest.quizSession st) as [|first rest].
  - eexists. exists (reads w1). unfold ret.
    split; [destruct w1; reflexivity | rewrite Hr; destruct w2; reflexivity].
  - unfold bind, newDate, ret. simpl. rewrite <- Hc, <- Hr.
    destruct (ScoredSession.package_TOend first >? clock w1 (reads w1));
      eexists; exists (S (reads w1)); split; reflexivity.
Qed.

Lemma scoreSubtests_two lower (sts : list PackageSubtest.t) :
  forall (total : Z) (w1 w2 : World),
  clock w1 = clock w2 -> reads w1 = reads w2 ->
  fst (scoreSubtests lower total sts w1) = fst (scoreSubtests lower total sts w2).
Proof.
  induction sts as [|st sts IH]; intros total w1 w2 Hc Hr; [reflexivity|].
  simpl.
  destruct (scoreSubtest_two lower total st w1 w2 Hc Hr) as (r & n' & H1 & H2).
  unfold bind at 1 3. rewrite H1, H2.
  specialize (IH (snd r) (mkWorld (db w1) (clock w1) n' (journal w1))
                 (mkWorld (db w2) (clock w2) n' (journal w2)) Hc eq_refl).
  unfold bind.
  destruct (scoreSubtests lower (snd r) sts _) as [[rs1|e1] w1'];
    destruct (scoreSubtests lower (snd r) sts _) as [[rs2|e2] w2'];
    simpl in IH; inversion IH; reflexivity.
Qed.

Lemma getPackageWithSubtest_same_load lower (ctx : User.t) (id : Z) (w1 w2 : World) :
  loadPackage (db w1) (User.id ctx) id = loadPackage (db w2) (User.id ctx) id ->
  clock w1 = clock w2 -> reads w1 = reads w2 ->
  fst (getPackageWithSubtest lower ctx id w1)
  = fst (getPackageWithSubtest lower ctx id w2).
Proof.
  intros Hl Hc Hr.
  unfold getPackageWithSubtest, bind at 1 3, query. simpl. rewrite Hl.
  destruct (loadPackage (db w2) (User.id ctx) id) as [p|]; [|reflexivity].
  pose proof (scoreSubtests_two lower (PackageData.subtests p) 0
                (mkWorld (db w1) (clock w1) (reads w1) (journal w1 ++ [PackageFindUnique]))
                (mkWorld (db w2) (clock w2) (reads w2) (journal w2 ++ [PackageFindUnique]))
                Hc Hr) as H.
  unfold bind.
  destruct (scoreSubtests lower 0 (PackageData.subtests p) _) as [[rs1|e1] w1'];
    destruct (scoreSubtests lower 0 (PackageData.subtests p) _) as [[rs2|e2] w2'];
    simpl in H; inversion H; reflexivity.
Qed.

Lemma sameButUserAnswers_tables (s s' : Store) :
  sameButUserAnswers s s' ->
  package s' = package s /\ subtest s' = subtest s /\ question s' = question s
  /\ answer s' = answer s /\ quizSession s' = quizSession s.
Proof.
  unfold sameButUserAnswers, setUserAnswer. destruct s, s'; simpl.
  intro H. inversion H. repeat split.
Qed.

Lemma loadPackage_same_answers (s s' : Store) (u : jsstring) (id : Z) :
  sameButUserAnswers s s' ->
  (forall sid, scoredAnswers s' sid id = scoredAnswers s sid id) ->
  loadPackage s' u id = loadPackage s u id.
Proof.
  intros Hs Ha.
  destruct (sameButUserAnswers_tables s s' Hs) as (Hp & Ht & _ & _ & Hq).
  unfold loadPackage, packageOf, subtestsOf. rewrite Hp, Ht.
  destruct (find _ (package s)) as [p|]; [|reflexivity].
  f_equal. f_equal. apply map_ext. intro t. f_equal.
  unfold scoredSessions, joinParent, packageOf. rewrite Hp, Hq.
  apply flat_map_ext. intro r.
  destruct (find _ (package s)); [|reflexivity]. rewrite Ha. reflexivity.
Qed.

Lemma filter_andb {A} (f g : A -> bool) (l : list A) :
  filter (fun a => f a && g a) l = filter f (filter g l).
Proof.
  induction l as [|x l IH]; simpl; [reflexivity|].
  destruct (g x); simpl; rewrite IH.
  - rewrite andb_true_r. reflexivity.
  - rewrite andb_false_r. reflexivity.
Qed.

(** X5: the scores [getPackageWithSubtest] reports for a package depend on
    the UserAnswer table only through the rows recorded under that package's
    id: two stores that differ only in answers recorded under other package
    ids give the same result, even for answers of the same sessions. *)
Theorem answers_of_other_packages_ignored
    (toLowerCase : jsstring -> jsstring) (ctx : User.t) (id : Z)
    (s s' : Store) (clk : nat -> Z) (n : nat) (j j' : list DbOp) :
  sameButUserAnswers s s' ->
  filter (inPackage id) (userAnswer s') = filter (inPackage id) (userAnswer s) ->
  fst (getPackageWithSubtest toLowerCase ctx id (mkWorld s' clk n j'))
  = fst (getPackageWithSubtest toLowerCase ctx id (mkWorld s clk n j)).
Proof.
  intros Hs Hf. apply getPackageWithSubtest_same_load; try reflexivity. simpl.
  apply loadPackage_same_answers; [exact Hs|].
  intro sid. unfold scoredAnswers.
  destruct (sameButUserAnswers_tables s s' Hs) as (_ & _ & Hq & Ha & _).
  unfold questionOf, answersOf. rewrite Hq, Ha.
  rewrite !(filter_andb (fun a => UserAnswer.quizSessionId a =? sid) (inPackage id)).
  rewrite Hf. reflexivity.
Qed.

Lemma answers_of_other_packages_ignored_witness :
  fst (getPackageWithSubtest asciiToLowerCase student 1
         (worldOf (setUserAnswer
                     (exampleUserAnswers
                      ++ [UserAnswer.mk (js "u1") 2 1 3 (Some 1) None])
                     (exampleStore 500)) 1000))
  = fst (getPackageWithSubtest asciiToLowerCase student 1
           (worldOf (exampleStore 500) 1000)).
Proof.
  apply (answers_of_other_packages_ignored asciiToLowerCase student 1
           (exampleStore 500)); reflexivity.
Defined.

Lemma joinParent_map {A B C} (parent : A -> option B) (f : A -> B -> C)
    (g : A -> A) (l : list A) :
  (forall a, parent (g a) = parent a) ->
  (forall a b, f (g a) b = f a b) ->
  joinParent parent f (map g l) = joinParent parent f l.
Proof.
  intros Hp Hf. unfold joinParent. induction l as [|a l IH]; simpl; [reflexivity|].
  rewrite Hp, IH. destruct (parent a); [rewrite Hf|]; reflexivity.
Qed.

(** X6: scoring attaches an answer to the session it names and never looks
    at the answer's own [userId]: replacing the [userId] of stored answers
    in any way leaves the result of [getPackageWithSubtest] unchanged, so an
    answer saved by one user into another user's session counts for that
    session's owner. *)
Theorem answers_count_whatever_their_user
    (toLowerCase : jsstring -> jsstring) (ctx : User.t) (id : Z) (s : Store)
    (relabel : UserAnswer.t -> jsstring)
    (clk : nat -> Z) (n : nat) (j : list DbOp) :
  fst (getPackageWithSubtest toLowerCase ctx id
         (mkWorld (setUserAnswer
                     (map (fun a => withUserId (relabel a) a) (userAnswer s)) s)
                  clk n j))
  = fst (getPackageWithSubtest toLowerCase ctx id (mkWorld s clk n j)).
Proof.
  apply getPackageWithSubtest_same_load; try reflexivity. simpl.
  apply loadPackage_same_answers.
  - unfold sameButUserAnswers. destruct s; reflexivity.
  - intro sid. unfold scoredAnswers. simpl.
    rewrite filter_map_same by (intro a; reflexivity).
    apply joinParent_map; intros; reflexivity.
Qed.

(** ** Session details: what is returned *)

Lemma sessionDetails_In (s : Store) (sessionId : Z) (d : SessionDetails.t) :
  In d (sessionDetails s sessionId) ->
  QuizSession.id (SessionDetails.session d) = sessionId
  /\ In (SessionDetails.session d) (quizSession s)
  /\ In (SessionDetails.subtest d) (subtest s)
  /\ Subtest.id (SessionDetails.subtest d)
     = QuizSession.subtestId (SessionDetails.session d)
  /\ (exists p, In p (package s)
                /\ Package.id p = QuizSession.packageId (SessionDetails.session d)
                /\ SessionDetails.package_TOend d = Package.TOend p)
  /\ SessionDetails.userAnswers d
     = filter (fun a => UserAnswer.quizSessionId a =? sessionId) (userAnswer s).
Proof.
  unfold sessionDetails, joinParent. intro H.
  apply in_flat_map in H. destruct H as (r & Hr & Hd).
  apply filter_In in Hr. destruct Hr as [Hin Hid]. apply Z.eqb_eq in Hid.
  unfold subtestOf, packageOf in Hd.
  destruct (find _ (subtest s)) as [t|] eqn:Ht; [|destruct Hd].
  destruct (find _ (package s)) as [p|] eqn:Hp; [|destruct Hd].
  destruct Hd as [<-|[]]. simpl.
  apply find_some in Ht. apply find_some in Hp.
  destruct Ht as [Ht1 Ht2]. destruct Hp as [Hp1 Hp2].
  apply Z.eqb_eq in Ht2. apply Z.eqb_eq in Hp2.
  repeat split; try assumption.
  - exists p. auto.
  - rewrite Hid. apply filter_ext. intro a. apply andb_diag.
Qed.

Lemma head_In {A} (l : list A) (x : A) : head l = Some x -> In x l.
Proof. destruct l; simpl; intro H; inversion H. left. reflexivity. Qed.

Lemma getSessionDetails_Some (ctx : User.t) (sessionId : Z) (w : World)
    (d : SessionDetails.t) :
  fst (getSessionDetails ctx sessionId w) = Return (Some d) ->
  In d (sessionDetails (db w) sessionId).
Proof.
  unfold getSessionDetails, bind, query, ret. simpl.
  destruct (head (sessionDetails (db w) sessionId)) as [d'|] eqn:Hd; simpl.
  - destruct (negb _ && negb _); simpl; intro H; inversion H; subst.
    apply head_In, Hd.
  - discriminate.
Qed.

(** X7: the details [getSessionDetails] returns are those of the session
    with the requested id: the stored session row, the subtest and the
    package window its foreign keys name, and exactly the stored answers
    whose [quizSessionId] is the requested id, whoever saved them. *)
Theorem getSessionDetails_content
    (ctx : User.t) (sessionId : Z) (w : World) (details : SessionDetails.t) :
  fst (getSessionDetails ctx sessionId w) = Return (Some details) ->
  QuizSession.id (SessionDetails.session details) = sessionId
  /\ In (SessionDetails.session details) (quizSession (db w))
  /\ In (SessionDetails.subtest details) (subtest (db w))
  /\ Subtest.id (SessionDetails.subtest details)
     = QuizSession.subtestId (SessionDetails.session details)
  /\ (exists p, In p (package (db w))
                /\ Package.id p
                   = QuizSession.packageId (SessionDetails.session details)
                /\ SessionDetails.package_TOend details = Package.TOend p)
  /\ SessionDetails.userAnswers details
     = filter (fun a => UserAnswer.quizSessionId a =? sessionId)
              (userAnswer (db w)).
Proof.
  intro H. apply sessionDetails_In, (getSessionDetails_Some ctx), H.
Qed.

Lemma getSessionDetails_content_witness :
  SessionDetails.userAnswers
    (SessionDetails.mk exampleSession exampleSubtest 500 exampleUserAnswers)
  = filter (fun a => UserAnswer.quizSessionId a =? 1)
           (userAnswer (exampleStore 500)).
Proof.
  apply (getSessionDetails_content student 1 (worldOf (exampleStore 500) 1000)
           (SessionDetails.mk exampleSession exampleSubtest 500 exampleUserAnswers)).
  reflexivity.
Defined.

(** ** Answer submission: frame, invariant and composition *)

Lemma filter_negb_map {A} (P : A -> bool) (g : A -> A) (l : list A) :
  (forall x, P (g x) = P x) ->
  filter (fun x => negb (P x)) (map (fun x => if P x then g x else x) l)
  = filter (fun x => negb (P x)) l.
Proof.
  intro Hg. induction l as [|x l IH]; simpl; [reflexivity|].
  destruct (P x) eqn:E; simpl.
  - rewrite Hg, E. simpl. exact IH.
  - rewrite E. simpl. rewrite IH. reflexivity.
Qed.

Lemma saveAnswer_accepted (ctx : User.t) (input : SaveAnswerInput.t) (w : World) :
  answered input ->
  find (keyOf input) (userAnswer (db w)) <> None
  \/ (userAnswerFits (createdBy input) = true
      /\ userAnswerReferences (db w) (createdBy input) = true) ->
  exists r rows',
    saveAnswer ctx input w
    = (Return r,
       mkWorld (setUserAnswer rows' (db w)) (clock w) (reads w)
               (journal w ++ [UserAnswerUpsert]))
    /\ In r rows' /\ keyOf input r = true /\ holds input r
    /\ filter (fun x => negb (keyOf input x)) rows'
       = filter (fun x => negb (keyOf input x)) (userAnswer (db w))
    /\ List.length rows'
       = (List.length (userAnswer (db w))
          + if existsb (keyOf input) (userAnswer (db w)) then 0 else 1)%nat.
Proof.
  intros Hv Hadm.
  set (upd := fun x => UserAnswer.mk (UserAnswer.userId x) (UserAnswer.packageId x)
                         (UserAnswer.quizSessionId x) (UserAnswer.questionId x)
                         (SaveAnswerInput.answerChoice input)
                         (SaveAnswerInput.essayAnswer input)).
  assert (Hk : forall x, keyOf input (upd x) = keyOf input x) by reflexivity.
  destruct (find (keyOf input) (userAnswer (db w))) as [r0|] eqn:Hf.
  - exists (upd r0),
      (map (fun x => if keyOf input x then upd x else x) (userAnswer (db w))).
    destruct (find_some _ _ Hf) as [Hin Hkey].
    split; [|split; [|split; [|split; [|split]]]].
    + unfold saveAnswer, bind, userAnswer_upsert, mutation, ret.
      rewrite (answered_not_null input Hv). fold (keyOf input). rewrite Hf.
      reflexivity.
    + apply in_map_iff. exists r0. rewrite Hkey. auto.
    + rewrite Hk. exact Hkey.
    + split; reflexivity.
    + apply filter_negb_map, Hk.
    + rewrite length_map.
      replace (existsb (keyOf input) (userAnswer (db w))) with true; [lia|].
      symmetry. apply existsb_exists. exists r0. auto.
  - destruct Hadm as [Hne | [Hfit Href]]; [congruence|].
    pose proof (saveAnswer_miss ctx input w Hv Hf Hfit Href) as Hrun.
    set (c := createdBy input) in *.
    assert (Hc : keyOf input c = true) by apply (hasKey_own c).
    exists c, (userAnswer (db w) ++ [c]).
    split; [exact Hrun|]. split; [apply in_or_app; right; left; reflexivity|].
    split; [exact Hc|]. split; [split; reflexivity|]. split.
    + rewrite filter_app. simpl. rewrite Hc. simpl. apply app_nil_r.
    + rewrite length_app. simpl.
      replace (existsb (keyOf input) (userAnswer (db w))) with false; [reflexivity|].
      symmetry. apply not_true_is_false. intro He.
      apply existsb_exists in He. destruct He as (x & Hx & Hkx).
      apply (find_none _ _ Hf) in Hx. congruence.
Qed.

(** X8: take a [saveAnswer] with an answer whose numbers fit their columns
    and whose key is stored already or whose user, package, quiz session and
    question are stored.  It returns a row that is then stored under the
    submitted key with the submitted answer; rows stored under any other key
    are kept as they were and in their order; the table grows by one row
    when the key was new and keeps its size otherwise; no other table, nor
    the clock, is touched, and exactly one ORM call is made. *)
Theorem saveAnswer_touches_only_its_key
    (ctx : User.t) (input : SaveAnswerInput.t) (w : World) :
  answered input -> fitsColumns input ->
  (exists r0, In r0 (userAnswer (db w)) /\ keyOf input r0 = true)
  \/ referencesExist (db w) input ->
  exists r w',
    saveAnswer ctx input w = (Return r, w')
    /\ In r (userAnswer (db w')) /\ keyOf input r = true /\ holds input r
    /\ filter (fun x => negb (keyOf input x)) (userAnswer (db w'))
       = filter (fun x => negb (keyOf input x)) (userAnswer (db w))
    /\ List.length (userAnswer (db w'))
       = (List.length (userAnswer (db w))
          + if existsb (keyOf input) (userAnswer (db w)) then 0 else 1)%nat
    /\ sameButUserAnswers (db w) (db w')
    /\ reads w' = reads w
    /\ journal w' = journal w ++ [UserAnswerUpsert].
Proof.
  intros Hv Hfit Hadm.
  assert (Hb : find (keyOf input) (userAnswer (db w)) <> None
               \/ (userAnswerFits (createdBy input) = true
                   /\ userAnswerReferences (db w) (createdBy input) = true)).
  { destruct Hadm as [(r0 & Hin & Hk) | Href].
    - left. intro Hnone. rewrite (find_none _ _ Hnone r0 Hin) in Hk. discriminate.
    - right. split; [apply fitsColumns_true, Hfit | apply referencesExist_true, Href]. }
  destruct (saveAnswer_accepted ctx input w Hv Hb)
    as (r & rows' & Hrun & Hin & Hk & Hh & Hother & Hlen).
  exists r. eexists. split; [exact Hrun|]. simpl.
  repeat (split; [assumption|]).
  split; [|split; reflexivity].
  unfold sameButUserAnswers. destruct (db w); reflexivity.
Qed.

Lemma saveAnswer_touches_only_its_key_witness :
  exists r w',
    saveAnswer student choiceResubmission (worldOf (exampleStore 500) 1000)
    = (Return r, w')
    /\ filter (fun x => negb (keyOf choiceResubmission x)) (userAnswer (db w'))
       = [UserAnswer.mk (js "u1") 1 1 2 None (Some (js "jakarta"))]
    /\ List.length (userAnswer (db w')) = 2%nat.
Proof.
  destruct (saveAnswer_touches_only_its_key student choiceResubmission
              (worldOf (exampleStore 500) 1000))
    as (r & w' & Hrun & _ & _ & _ & Hother & Hlen & _).
  - left. discriminate.
  - unfold fitsColumns, inInt. simpl.
    repeat split; try lia;
      match goal with E : Some _ = Some _ |- _ => inversion E; subst; lia end.
  - left. exists (UserAnswer.mk (js "u1") 1 1 1 (Some 1) None).
    split; [left; reflexivity | reflexivity].
  - exists r, w'. split; [exact Hrun|]. split; [exact Hother | exact Hlen].
Defined.

Lemma saveAnswer_rejected (ctx : User.t) (input : SaveAnswerInput.t) (w : World) :
  isNull (SaveAnswerInput.answerChoice input)
  && isNull (SaveAnswerInput.essayAnswer input) = true ->
  snd (saveAnswer ctx input w) = w.
Proof. intro E. unfold saveAnswer. rewrite E. reflexivity. Qed.

Lemma not_null_answered (input : SaveAnswerInput.t) :
  isNull (SaveAnswerInput.answerChoice input)
  && isNull (SaveAnswerInput.essayAnswer input) = false ->
  answered input.
Proof.
  unfold answered.
  destruct (SaveAnswerInput.answerChoice input),
           (SaveAnswerInput.essayAnswer input); simpl; intro H;
    try discriminate; (left; discriminate) || (right; discriminate).
Qed.

Lemma sameButUserAnswers_refl (s : Store) : sameButUserAnswers s s.
Proof. apply setUserAnswer_same. Qed.

Lemma sameButUserAnswers_trans (s1 s2 s3 : Store) :
  sameButUserAnswers s1 s2 -> sameButUserAnswers s2 s3 -> sameButUserAnswers s1 s3.
Proof.
  unfold sameButUserAnswers, setUserAnswer. destruct s1, s2, s3; simpl.
  intros H1 H2. inversion H1; subst. inversion H2; subst. reflexivity.
Qed.

Lemma saveAnswer_any (ctx : User.t) (input : SaveAnswerInput.t) (w : World) :
  userAnswerUnique (userAnswer (db w)) ->
  let w' := snd (saveAnswer ctx input w) in
  userAnswerUnique (userAnswer (db w'))
  /\ sameButUserAnswers (db w) (db w')
  /\ (List.length (userAnswer (db w)) <= List.length (userAnswer (db w'))
      <= List.length (userAnswer (db w)) + 1)%nat.
Proof.
  intros Hu w'. subst w'.
  destruct (isNull (SaveAnswerInput.answerChoice input)
            && isNull (SaveAnswerInput.essayAnswer input)) eqn:E.
  - rewrite (saveAnswer_rejected ctx input w E).
    split; [exact Hu|]. split; [apply sameButUserAnswers_refl | lia].
  - apply not_null_answered in E.
    assert (Hcase :
      (exists message,
          saveAnswer ctx input w
          = (Throw message,
             mkWorld (db w) (clock w) (reads w) (journal w ++ [UserAnswerUpsert])))
      \/ (exists r w1 rows',
             saveAnswer ctx input w = (Return r, w1)
             /\ userAnswerUnique (userAnswer (db w1))
             /\ db w1 = setUserAnswer rows' (db w)
             /\ List.length rows'
                = (List.length (userAnswer (db w))
                   + if existsb (keyOf input) (userAnswer (db w)) then 0 else 1)%nat)).
    { destruct (find (keyOf input) (userAnswer (db w))) as [r0|] eqn:Hf.
      - right.
        destruct (saveAnswer_once_hit ctx input w r0 Hu E Hf)
          as (r1 & w1 & Hrun1 & _ & _ & Hu1).
        destruct (saveAnswer_accepted ctx input w E)
          as (r & rows' & Hrun & _ & _ & _ & _ & Hlen).
        { left. rewrite Hf. discriminate. }
        rewrite Hrun in Hrun1. inversion Hrun1; subst r1 w1.
        exists r. eexists. exists rows'. split; [exact Hrun|]. simpl in *. auto.
      - destruct (userAnswerFits (createdBy input)
                  && userAnswerReferences (db w) (createdBy input)) eqn:Ha.
        + right. apply andb_true_iff in Ha. destruct Ha as [Hfit Href].
          destruct (saveAnswer_once_miss ctx input w Hu E Hf Hfit Href)
            as (r1 & w1 & Hrun1 & _ & _ & Hu1).
          destruct (saveAnswer_accepted ctx input w E)
            as (r & rows' & Hrun & _ & _ & _ & _ & Hlen).
          { right. auto. }
          rewrite Hrun in Hrun1. inversion Hrun1; subst r1 w1.
          exists r. eexists. exists rows'. split; [exact Hrun|]. simpl in *. auto.
        + left. apply (saveAnswer_not_admitted ctx input w E Hf Ha). }
    destruct Hcase as [(message & Hrun) | (r & w1 & rows' & Hrun & Hu1 & Hdb & Hlen)];
      rewrite Hrun; simpl.
    + split; [exact Hu|]. split; [apply sameButUserAnswers_refl | lia].
    + split; [exact Hu1|]. rewrite Hdb. simpl. split.
      * unfold sameButUserAnswers. destruct (db w); reflexivity.
      * rewrite Hlen. destruct (existsb _ _); lia.
Qed.

(** X9: the unique constraint of the UserAnswer table is an invariant of
    [saveAnswer]: after any sequence of calls, whether they return, are
    rejected for lack of an answer or are refused by the store, no key
    (userId, quizSessionId, questionId) names two rows; the table never
    shrinks, grows by at most one row per call, and the other tables stay
    as they were. *)
Theorem saveAnswers_keep_unique
    (ctx : User.t) (inputs : list SaveAnswerInput.t) (w : World) :
  userAnswerUnique (userAnswer (db w)) ->
  userAnswerUnique (userAnswer (db (saveAnswers ctx inputs w)))
  /\ sameButUserAnswers (db w) (db (saveAnswers ctx inputs w))
  /\ (List.length (userAnswer (db w))
      <= List.length (userAnswer (db (saveAnswers ctx inputs w)))
      <= List.length (userAnswer (db w)) + List.length inputs)%nat.
Proof.
  unfold saveAnswers. revert w.
  induction inputs as [|input inputs IH]; intros w Hu; simpl.
  - split; [exact Hu|]. split; [apply sameButUserAnswers_refl | lia].
  - destruct (saveAnswer_any ctx input w Hu) as (Hu1 & Hs1 & Hl1).
    destruct (IH _ Hu1) as (Hu2 & Hs2 & Hl2).
    split; [exact Hu2|].
    split; [apply (sameButUserAnswers_trans _ _ _ Hs1 Hs2) | lia].
Qed.

Lemma saveAnswers_keep_unique_witness :
  userAnswerUnique
    (userAnswer
       (db (saveAnswers student
              [essaySubmission; emptySubmission; essaySubmission;
               choiceResubmission; choiceSubmission]
              (worldOf (setUserAnswer [] (exampleStore 500)) 1000))))
  /\ List.length
       (userAnswer
          (db (saveAnswers student
                 [essaySubmission; emptySubmission; essaySubmission;
                  choiceResubmission; choiceSubmission]
                 (worldOf (setUserAnswer [] (exampleStore 500)) 1000))))
     = 2%nat.
Proof.
  split; [|reflexivity].
  apply (saveAnswers_keep_unique student
           [essaySubmission; emptySubmission; essaySubmission;
            choiceResubmission; choiceSubmission]
           (worldOf (setUserAnswer [] (exampleStore 500)) 1000)).
  intros u s q. simpl. lia.
Defined.

Lemma saveAnswer_returned (ctx : User.t) (input : SaveAnswerInput.t) (w w' : World)
    (r : UserAnswer.t) :
  saveAnswer ctx input w = (Return r, w') ->
  In r (userAnswer (db w')) /\ keyOf input r = true.
Proof.
  intro Hrun.
  destruct (isNull (SaveAnswerInput.answerChoice input)
            && isNull (SaveAnswerInput.essayAnswer input)) eqn:E.
  - unfold saveAnswer in Hrun. rewrite E in Hrun. discriminate.
  - apply not_null_answered in E.
    destruct (find (keyOf input) (userAnswer (db w))) as [r0|] eqn:Hf.
    + destruct (saveAnswer_accepted ctx input w E)
        as (r1 & rows' & Hrun1 & Hin & Hk & _).
      { left. rewrite Hf. discriminate. }
      rewrite Hrun in Hrun1. inversion Hrun1; subst. simpl. auto.
    + destruct (userAnswerFits (createdBy input)
                && userAnswerReferences (db w) (createdBy input)) eqn:Ha.
      * apply andb_true_iff in Ha.
        destruct (saveAnswer_accepted ctx input w E)
          as (r1 & rows' & Hrun1 & Hin & Hk & _).
        { right. exact Ha. }
        rewrite Hrun in Hrun1. inversion Hrun1; subst. simpl. auto.
      * destruct (saveAnswer_not_admitted ctx input w E Hf Ha) as (m & Hthrow).
        rewrite Hrun in Hthrow. discriminate.
Qed.

(** X10: an answer that [saveAnswer] returned is part of what
    [getSessionDetails] then returns for the session the answer names,
    whenever that call returns details. *)
Theorem saveAnswer_then_getSessionDetails
    (ctx : User.t) (input : SaveAnswerInput.t) (w w' : World) (r : UserAnswer.t) :
  saveAnswer ctx input w = (Return r, w') ->
  forall ctx' details,
    fst (getSessionDetails ctx' (SaveAnswerInput.quizSessionId input) w')
    = Return (Some details) ->
    In r (SessionDetails.userAnswers details).
Proof.
  intros Hrun ctx' d Hd.
  destruct (saveAnswer_returned ctx input w w' r Hrun) as [Hin Hk].
  apply getSessionDetails_Some, sessionDetails_In in Hd.
  destruct Hd as (_ & _ & _ & _ & _ & ->).
  apply filter_In. split; [exact Hin|].
  apply hasKey_inv in Hk. destruct Hk as (_ & -> & _). apply Z.eqb_refl.
Qed.

Lemma saveAnswer_then_getSessionDetails_witness :
  In (UserAnswer.mk (js "u1") 1 1 1 (Some 2) None)
     (SessionDetails.userAnswers
        (SessionDetails.mk exampleSession exampleSubtest 500
           [UserAnswer.mk (js "u1") 1 1 1 (Some 2) None;
            UserAnswer.mk (js "u1") 1 1 2 None (Some (js "jakarta"))])).
Proof.
  apply (saveAnswer_then_getSessionDetails student choiceResubmission
           (worldOf (exampleStore 500) 1000) _ _ eq_refl student).
  reflexivity.
Defined.

Lemma sumZ_app (l l' : list Z) : sumZ (l ++ l') = sumZ l + sumZ l'.
Proof.
  induction l as [|x l IH]; simpl; [reflexivity|]. rewrite IH. lia.
Qed.

(** X11: an answer that [saveAnswer] returned counts in the scoring.  When
    the package the returned row is recorded under is stored,
    [getPackageWithSubtest] for that package returns, and for every subtest
    of it where the caller's first stored session is the session the row
    names, under a stored package whose [TOend] the clock has reached, the
    row is among the answers whose points add up to the reported score. *)
Theorem saveAnswer_then_score
    (toLowerCase : jsstring -> jsstring) (ctx ctx' : User.t)
    (input : SaveAnswerInput.t) (w w' : World) (r : UserAnswer.t) (p : Package.t) :
  saveAnswer ctx input w = (Return r, w') ->
  find (fun x => Package.id x =? UserAnswer.packageId r) (package (db w')) = Some p ->
  exists out w'',
    getPackageWithSubtest toLowerCase ctx' (UserAnswer.packageId r) w'
    = (Return out, w'')
    /\ Forall2
         (fun t o =>
            forall session q,
              firstSessionOf (db w') (User.id ctx') (Subtest.id t) session ->
              QuizSession.id session = UserAnswer.quizSessionId r ->
              find (fun x => Package.id x =? QuizSession.packageId session)
                   (package (db w')) = Some q ->
              closedFrom (clock w') (reads w') (Package.TOend q) ->
              exists before after,
                filter (fun a => (UserAnswer.quizSessionId a =? QuizSession.id session)
                                 && (UserAnswer.packageId a =? UserAnswer.packageId r))
                       (userAnswer (db w'))
                = before ++ r :: after
                /\ SubtestWithScore.score o
                   = Some (sumZ (map (points toLowerCase (db w')) before)
                           + points toLowerCase (db w') r
                           + sumZ (map (points toLowerCase (db w')) after)))
         (filter (fun t => Subtest.packageId t =? UserAnswer.packageId r)
                 (subtest (db w')))
         (PackageWithScores.subtests out).
Proof.
  intros Hsave Hfind.
  destruct (saveAnswer_returned ctx input w w' r Hsave) as [Hin _].
  destruct (getPackageWithSubtest_run toLowerCase ctx' (UserAnswer.packageId r)
              w' p Hfind) as (out & w'' & Hrun & Hall & _).
  exists out, w''. split; [exact Hrun|].
  eapply Forall2_impl; [|exact Hall].
  intros t o [_ Hscore] session q Hfirst Hid Hq Hclosed.
  assert (Hr : In r (filter (fun a => (UserAnswer.quizSessionId a
                                       =? QuizSession.id session)
                                      && (UserAnswer.packageId a
                                          =? UserAnswer.packageId r))
                            (userAnswer (db w')))).
  { apply filter_In. split; [exact Hin|].
    rewrite Hid, !Z.eqb_refl. reflexivity. }
  apply in_split in Hr. destruct Hr as (before & after & Hsplit).
  exists before, after. split; [exact Hsplit|].
  rewrite (Hscore session q Hfirst Hq Hclosed), Hsplit.
  rewrite map_app, sumZ_app. simpl. f_equal. lia.
Qed.

Lemma saveAnswer_then_score_witness :
  exists out w'',
    getPackageWithSubtest asciiToLowerCase student 1
      (snd (saveAnswer student choiceSubmission
              (worldOf (setUserAnswer [] (exampleStore 500)) 1000)))
    = (Return out, w'')
    /\ map SubtestWithScore.score (PackageWithScores.subtests out) = [Some 10].
Proof.
  destruct (saveAnswer_then_score asciiToLowerCase student student
              choiceSubmission
              (worldOf (setUserAnswer [] (exampleStore 500)) 1000) _ _
              (examplePackage 500) eq_refl eq_refl)
    as (out & w'' & Hrun & Hall).
  exists out, w''. split; [exact Hrun|].
  set (stored := setUserAnswer [UserAnswer.mk (js "u1") 1 1 1 (Some 1) None]
                   (exampleStore 500)).
  assert (Hone :
            Forall2
              (fun t o =>
                 forall session q,
                   firstSessionOf stored (js "u1") (Subtest.id t) session ->
                   QuizSession.id session = 1 ->
                   find (fun x => Package.id x =? QuizSession.packageId session)
                        (package stored) = Some q ->
                   closedFrom (constClock 1000) 0 (Package.TOend q) ->
                   exists before after,
                     filter (fun a => (UserAnswer.quizSessionId a
                                       =? QuizSession.id session)
                                      && (UserAnswer.packageId a =? 1))
                            (userAnswer stored)
                     = before ++ UserAnswer.mk (js "u1") 1 1 1 (Some 1) None :: after
                     /\ SubtestWithScore.score o
                        = Some (sumZ (map (points asciiToLowerCase stored) before)
                                + points asciiToLowerCase stored
                                    (UserAnswer.mk (js "u1") 1 1 1 (Some 1) None)
                                + sumZ (map (points asciiToLowerCase stored) after)))
              [exampleSubtest] (PackageWithScores.subtests out))
    by exact Hall.
  inversion Hone as [|t o ts os Ho Hrest Et Eo]. subst t ts.
  inversion Hrest. subst os.
  destruct (Ho exampleSession (examplePackage 500)) as (before & after & Hsplit & Hs).
  - split; [reflexivity|]. split; [reflexivity|].
    exists [], []. split; [reflexivity | constructor].
  - reflexivity.
  - reflexivity.
  - intros k _. unfold constClock. simpl. lia.
  - simpl in Hsplit. destruct before as [|b before].
    + inversion Hsplit. subst after. simpl. rewrite Hs. reflexivity.
    + destruct before; discriminate.
Defined.

(** ** Sessions: creation and submission *)

Lemma find_app_first {A} (P : A -> bool) (l : list A) (x : A) :
  P x = true ->
  find P (l ++ [x]) = Some (match find P l with Some old => old | None => x end).
Proof.
  intro Hx. induction l as [|y l IH]; simpl; [rewrite Hx; reflexivity|].
  destruct (P y); [reflexivity | exact IH].
Qed.

Lemma find_exists {A} (P : A -> bool) (l : list A) (x : A) :
  In x l -> P x = true -> exists y, find P l = Some y.
Proof.
  intros Hin Hx. destruct (find P l) as [y|] eqn:Hf; [exists y; reflexivity|].
  rewrite (find_none _ _ Hf x Hin) in Hx. discriminate.
Qed.

Lemma createSession_admitted (fresh : Z) (ctx : User.t)
    (input : CreateSessionInput.t) (w : World) :
  (forall x, In x (quizSession (db w)) -> QuizSession.id x <> fresh) ->
  inInt fresh -> sessionFits input -> sessionReferencesExist (db w) input ->
  createSession fresh ctx input w
  = (Return (sessionOfInput fresh input (clock w (reads w))),
     mkWorld (setQuizSession
                (quizSession (db w) ++ [sessionOfInput fresh input (clock w (reads w))])
                (db w))
             (clock w) (S (reads w)) (journal w ++ [QuizSessionCreate])).
Proof.
  intros Hfree Hid (Hp & Hs & Hd) ((u & Hu & Eu) & (p & Hpin & Ep) & (t & Ht & Et)).
  unfold createSession, bind, newDate, quizSession_create, mutation. simpl.
  assert (E1 : existsb (hasSessionId fresh) (quizSession (db w)) = false).
  { apply not_true_is_false. intro He. apply existsb_exists in He.
    destruct He as (x & Hx & Hxid). apply Z.eqb_eq in Hxid.
    apply (Hfree x Hx Hxid). }
  rewrite E1. unfold quizSessionFits, quizSessionReferences. simpl.
  rewrite !fitsInt_true by assumption. simpl.
  assert (E2 : existsb (fun u0 => strictEq (User.id u0) (CreateSessionInput.userId input))
                 (user (db w)) = true).
  { apply existsb_exists. exists u. split; [exact Hu|]. rewrite Eu. apply strictEq_refl. }
  assert (E3 : existsb (fun p0 => Package.id p0 =? CreateSessionInput.packageId input)
                 (package (db w)) = true).
  { apply existsb_exists. exists p. split; [exact Hpin|]. apply Z.eqb_eq, Ep. }
  assert (E4 : existsb (fun t0 => Subtest.id t0 =? CreateSessionInput.subtestId input)
                 (subtest (db w)) = true).
  { apply existsb_exists. exists t. split; [exact Ht|]. apply Z.eqb_eq, Et. }
  rewrite E2, E3, E4. simpl. unfold sessionOfInput.
  replace (clock w (reads w) + CreateSessionInput.duration input * 60 * 1000)
    with (clock w (reads w) + CreateSessionInput.duration input * 60000) by lia.
  reflexivity.
Qed.

(** X12: [createSession] does not look for an existing session.  Whenever
    the store has a free id to give, the session's numbers fit their columns
    and the user, package and subtest it names are stored, the call returns
    and appends a session that ends [duration] minutes after the clock
    reading, touching no other row or table.  A [getSession] for that user
    and subtest then finds a session of that user for that subtest, the new
    one if the user had none before. *)
Theorem createSession_then_getSession
    (fresh : Z) (ctx : User.t) (input : CreateSessionInput.t) (w : World) :
  (forall x, In x (quizSession (db w)) -> QuizSession.id x <> fresh) ->
  inInt fresh -> sessionFits input -> sessionReferencesExist (db w) input ->
  exists session w',
    createSession fresh ctx input w = (Return session, w')
    /\ session = sessionOfInput fresh input (clock w (reads w))
    /\ quizSession (db w') = quizSession (db w) ++ [session]
    /\ sameButQuizSessions (db w) (db w')
    /\ forall ctx',
         exists found,
           fst (getSession ctx'
                  (GetSessionInput.mk (CreateSessionInput.userId input)
                                      (CreateSessionInput.subtestId input)) w')
           = Return (Some found)
           /\ QuizSession.userId found = CreateSessionInput.userId input
           /\ QuizSession.subtestId found = CreateSessionInput.subtestId input
           /\ ((forall x, In x (quizSession (db w)) ->
                          QuizSession.userId x <> CreateSessionInput.userId input
                          \/ QuizSession.subtestId x
                             <> CreateSessionInput.subtestId input) ->
               found = session).
Proof.
  intros Hfree Hid Hfit Href.
  rewrite (createSession_admitted fresh ctx input w Hfree Hid Hfit Href).
  set (session := sessionOfInput fresh input (clock w (reads w))).
  exists session. eexists. split; [reflexivity|]. simpl.
  split; [reflexivity|]. split; [reflexivity|].
  split; [unfold sameButQuizSessions; destruct (db w); reflexivity|].
  intro ctx'. unfold getSession, query. simpl.
  assert (Hs : sessionOf (CreateSessionInput.userId input)
                 (CreateSessionInput.subtestId input) session = true).
  { unfold sessionOf, session, sessionOfInput. simpl.
    rewrite strictEq_refl, Z.eqb_refl. reflexivity. }
  rewrite (find_app_first _ _ session Hs).
  destruct (find _ (quizSession (db w))) as [old|] eqn:Hf.
  - exists old. split; [reflexivity|].
    destruct (find_some _ _ Hf) as [Hin Hold].
    unfold sessionOf in Hold. apply andb_true_iff in Hold.
    destruct Hold as [Hu Hsid].
    apply strictEq_true_iff in Hu. apply Z.eqb_eq in Hsid.
    split; [exact Hu|]. split; [exact Hsid|].
    intro Hnone. destruct (Hnone old Hin); contradiction.
  - exists session. split; [reflexivity|].
    split; [reflexivity|]. split; [reflexivity|]. reflexivity.
Qed.

Lemma createSession_then_getSession_witness :
  exists session w',
    createSession 2 student (CreateSessionInput.mk (js "u2") 1 1 30)
      (worldOf (exampleStore 5000) 1000) = (Return session, w')
    /\ QuizSession.endTime session = 1801000
    /\ List.length (quizSession (db w')) = 2%nat
    /\ fst (getSession student (GetSessionInput.mk (js "u2") 1) w')
       = Return (Some session).
Proof.
  destruct (createSession_then_getSession 2 student
              (CreateSessionInput.mk (js "u2") 1 1 30)
              (worldOf (exampleStore 5000) 1000))
    as (session & w' & Hrun & Hs & Hrows & _ & Hget).
  - intros x [<-|[]]. discriminate.
  - unfold inInt. lia.
  - unfold sessionFits, inInt. simpl. lia.
  - unfold sessionReferencesExist. simpl. repeat split.
    + exists otherStudent. auto.
    + exists (examplePackage 5000). auto.
    + exists exampleSubtest. auto.
  - exists session, w'. split; [exact Hrun|].
    split; [rewrite Hs; reflexivity|].
    split; [rewrite Hrows; reflexivity|].
    destruct (Hget student) as (found & Hfound & _ & _ & Hnew).
    assert (E : found = session)
      by (apply Hnew; intros x [<-|[]]; left; discriminate).
    subst found. exact Hfound.
Defined.

Lemma head_joinParent_last {A B C} (parent : A -> option B) (f : A -> B -> C)
    (l : list A) (x : A) (b : B) :
  parent x = Some b -> head (joinParent parent f (l ++ [x])) <> None.
Proof.
  intro Hx. unfold joinParent. rewrite flat_map_app. simpl. rewrite Hx.
  destruct (flat_map _ l); simpl; discriminate.
Qed.

(** X13: after a [createSession] that the store admits (a free id, numbers
    that fit, a stored user, package and subtest), the user the session was
    created for is no longer told "no session" by [getQuestionsBySubtest]
    for that subtest. *)
Theorem createSession_then_getQuestionsBySubtest
    (fresh : Z) (ctx : User.t) (input : CreateSessionInput.t) (w : World)
    (role : jsstring) :
  (forall x, In x (quizSession (db w)) -> QuizSession.id x <> fresh) ->
  inInt fresh -> sessionFits input -> sessionReferencesExist (db w) input ->
  fst (getQuestionsBySubtest
         (User.mk (CreateSessionInput.userId input) role)
         (GetQuestionsInput.mk (CreateSessionInput.subtestId input) None)
         (snd (createSession fresh ctx input w)))
  <> Return Null.
Proof.
  intros Hfree Hid Hfit Href.
  rewrite (createSession_admitted fresh ctx input w Hfree Hid Hfit Href).
  destruct Href as (_ & (p0 & Hpin & Ep) & _).
  destruct (find_exists (fun x => Package.id x =? CreateSessionInput.packageId input)
              (package (db w)) p0 Hpin (proj2 (Z.eqb_eq _ _) Ep)) as (p & Hp).
  set (session := sessionOfInput fresh input (clock w (reads w))).
  unfold getQuestionsBySubtest, bind at 1, query. simpl.
  assert (Hu : scopedUser (User.mk (CreateSessionInput.userId input) role)
                 (GetQuestionsInput.mk (CreateSessionInput.subtestId input) None)
               = CreateSessionInput.userId input).
  { unfold scopedUser. simpl. destruct (strictEq role (js "admin")); reflexivity. }
  rewrite Hu. unfold sessionWindows. simpl.
  rewrite filter_app. simpl. unfold sessionOf at 2. simpl.
  rewrite strictEq_refl, Z.eqb_refl. simpl.
  match goal with
  | |- context [head (joinParent ?par ?f (?l ++ [?x]))] =>
      pose proof (head_joinParent_last par f l x p Hp) as Hne;
      destruct (head (joinParent par f (l ++ [x]))) as [sw|]
  end; [|congruence].
  unfold bind, newDate, question_findMany, query, ret. simpl.
  destruct (_ >? _); simpl; [discriminate|].
  destruct (_ <? _); simpl; discriminate.
Qed.

Lemma createSession_then_getQuestionsBySubtest_witness :
  fst (getQuestionsBySubtest otherStudent (GetQuestionsInput.mk 1 None)
         (worldOf (exampleStore 5000) 1000)) = Return Null
  /\ fst (getQuestionsBySubtest otherStudent (GetQuestionsInput.mk 1 None)
            (snd (createSession 2 otherStudent
                    (CreateSessionInput.mk (js "u2") 1 1 30)
                    (worldOf (exampleStore 5000) 1000))))
     <> Return Null.
Proof.
  split; [reflexivity|].
  apply (createSession_then_getQuestionsBySubtest 2 otherStudent
           (CreateSessionInput.mk (js "u2") 1 1 30)
           (worldOf (exampleStore 5000) 1000) (js "user")).
  - intros x [<-|[]]. discriminate.
  - unfold inInt. lia.
  - unfold sessionFits, inInt. simpl. lia.
  - unfold sessionReferencesExist. simpl. repeat split.
    + exists otherStudent. auto.
    + exists (examplePackage 5000). auto.
    + exists exampleSubtest. auto.
Defined.

Lemma sameButQuizSessions_set (rows : list QuizSession.t) (s : Store) :
  sameButQuizSessions s (setQuizSession rows s).
Proof. unfold sameButQuizSessions. destruct s; reflexivity. Qed.

(** X14: [submitQuiz] checks neither who calls nor whether the session is
    already over.  For a stored session id it returns the session with
    [endTime] replaced by the clock reading and every other field kept; in
    the table each row keeps all its other fields, rows with another id are
    untouched, and no other table changes.  For an id that is not stored it
    throws and leaves the store as it was. *)
Theorem submitQuiz_effect (ctx : User.t) (sessionId : Z) (w : World) :
  (forall r,
      find (hasSessionId sessionId) (quizSession (db w)) = Some r ->
      exists w',
        submitQuiz ctx sessionId w
        = (Return (QuizSession.mk (QuizSession.id r) (QuizSession.userId r)
                     (QuizSession.packageId r) (QuizSession.subtestId r)
                     (QuizSession.duration r) (clock w (reads w))), w')
        /\ sameButQuizSessions (db w) (db w')
        /\ Forall2 (fun old new =>
                      QuizSession.id new = QuizSession.id old
                      /\ QuizSession.userId new = QuizSession.userId old
                      /\ QuizSession.packageId new = QuizSession.packageId old
                      /\ QuizSession.subtestId new = QuizSession.subtestId old
                      /\ QuizSession.duration new = QuizSession.duration old
                      /\ (QuizSession.id old <> sessionId -> new = old)
                      /\ (QuizSession.id old = sessionId ->
                          QuizSession.endTime new = clock w (reads w)))
                   (quizSession (db w)) (quizSession (db w')))
  /\ (find (hasSessionId sessionId) (quizSession (db w)) = None ->
      exists message w',
        submitQuiz ctx sessionId w = (Throw message, w') /\ db w' = db w).
Proof.
  unfold submitQuiz, bind, newDate, quizSession_update, mutation. simpl.
  split.
  - intros r Hf. rewrite Hf. eexists. split; [reflexivity|]. simpl.
    split; [apply sameButQuizSessions_set|].
    clear Hf. induction (quizSession (db w)) as [|x l IH]; simpl; constructor;
      [|exact IH].
    unfold hasSessionId. destruct (Z.eqb_spec (QuizSession.id x) sessionId);
      simpl; repeat split; try reflexivity; try contradiction; auto.
  - intro Hf. rewrite Hf. eexists. eexists. split; reflexivity.
Qed.

Lemma submitQuiz_effect_witness :
  (exists w',
      submitQuiz otherStudent 1 (worldOf (exampleStore 5000) 1000)
      = (Return (QuizSession.mk 1 (js "u1") 1 1 30 1000), w'))
  /\ (exists message w',
        submitQuiz student 7 (worldOf (exampleStore 5000) 1000)
        = (Throw message, w')
        /\ db w' = exampleStore 5000).
Proof.
  split.
  - destruct (proj1 (submitQuiz_effect otherStudent 1
                       (worldOf (exampleStore 5000) 1000))
                exampleSession eq_refl) as (w' & Hrun & _).
    exists w'. exact Hrun.
  - exact (proj2 (submitQuiz_effect student 7 (worldOf (exampleStore 5000) 1000))
             eq_refl).
Defined.

Lemma getQuestionsBySubtest_depends (ctx : User.t) (input : GetQuestionsInput.t)
    (w1 w2 : World) :
  clock w1 = clock w2 -> reads w1 = reads w2 ->
  question (db w1) = question (db w2) -> answer (db w1) = answer (db w2) ->
  option_map SessionWindow.package_TOend
    (head (sessionWindows (db w1) (scopedUser ctx input)
             (GetQuestionsInput.subtestId input)))
  = option_map SessionWindow.package_TOend
      (head (sessionWindows (db w2) (scopedUser ctx input)
               (GetQuestionsInput.subtestId input))) ->
  fst (getQuestionsBySubtest ctx input w1) = fst (getQuestionsBySubtest ctx input w2).
Proof.
  intros Hc Hr Hq Ha Hs.
  unfold getQuestionsBySubtest, bind, query, newDate, question_findMany, ret.
  simpl.
  destruct (head (sessionWindows (db w1) _ _)) as [s1|];
    destruct (head (sessionWindows (db w2) _ _)) as [s2|];
    simpl in Hs; inversion Hs as [Hto]; [|reflexivity].
  simpl. rewrite Hto, Hc, Hr.
  destruct (_ >? _); simpl.
  - unfold withAnswers, answersOf. rewrite Hq, Ha. reflexivity.
  - rewrite ?Hc, ?Hr. destruct (_ <? _); simpl; [|reflexivity].
    unfold withAnswers, answersOf. rewrite Hq, Ha. reflexivity.
Qed.

Lemma sessionWindows_map (s : Store) (g : QuizSession.t -> QuizSession.t)
    (u : jsstring) (sid : Z) :
  (forall r, QuizSession.userId (g r) = QuizSession.userId r
             /\ QuizSession.subtestId (g r) = QuizSession.subtestId r
             /\ QuizSession.packageId (g r) = QuizSession.packageId r) ->
  map SessionWindow.package_TOend
    (sessionWindows (setQuizSession (map g (quizSession s)) s) u sid)
  = map SessionWindow.package_TOend (sessionWindows s u sid).
Proof.
  intro Hg. unfold sessionWindows. simpl.
  rewrite filter_map_same
    by (intro r; unfold sessionOf; destruct (Hg r) as (-> & -> & _); reflexivity).
  unfold joinParent, packageOf. simpl.
  induction (filter (sessionOf u sid) (quizSession s)) as [|r l IH]; simpl;
    [reflexivity|].
  destruct (Hg r) as (_ & _ & ->).
  destruct (find _ (package s)); simpl; rewrite IH; reflexivity.
Qed.

Lemma head_map {A B} (f : A -> B) (l : list A) :
  head (map f l) = option_map f (head l).
Proof. destruct l; reflexivity. Qed.

Lemma filter_Permutation {A} (P : A -> bool) (l l' : list A) :
  Permutation l l' -> Permutation (filter P l) (filter P l').
Proof.
  induction 1 as [|x l l' _ IH|x y l|l l' l'' _ IH1 _ IH2]; simpl.
  - constructor.
  - destruct (P x); [constructor|]; exact IH.
  - destruct (P x), (P y); try apply Permutation_refl. apply perm_swap.
  - eapply Permutation_trans; eassumption.
Qed.

Lemma head_uniform {A} (l l' : list A) :
  Permutation l' l -> (forall x y, In x l -> In y l -> x = y) ->
  head l' = head l.
Proof.
  intros Hperm Hsame. destruct l as [|x l], l' as [|y l']; simpl.
  - reflexivity.
  - apply Permutation_sym, Permutation_nil in Hperm. discriminate.
  - apply Permutation_nil in Hperm. discriminate.
  - f_equal. apply Hsame; [|left; reflexivity].
    apply (Permutation_in y Hperm). left. reflexivity.
Qed.

(** However the store orders its sessions, the windows found for a user and
    a subtest are the same ones. *)
Lemma sessionWindows_Permutation (s s' : Store) (u : jsstring) (sid : Z) :
  package s' = package s ->
  Permutation (quizSession s') (quizSession s) ->
  Permutation (map SessionWindow.package_TOend (sessionWindows s' u sid))
              (map SessionWindow.package_TOend (sessionWindows s u sid)).
Proof.
  intros Hp Hperm. unfold sessionWindows, joinParent, packageOf. rewrite Hp.
  apply Permutation_map, Permutation_flat_map, filter_Permutation. exact Hperm.
Qed.

Lemma sessionWindows_uniform (s : Store) (u : jsstring) (sid : Z) :
  onePackagePerSubtest (quizSession s) sid ->
  forall x y,
    In x (map SessionWindow.package_TOend (sessionWindows s u sid)) ->
    In y (map SessionWindow.package_TOend (sessionWindows s u sid)) ->
    x = y.
Proof.
  intros Hone x y Hx Hy.
  apply in_map_iff in Hx. destruct Hx as (wx & <- & Hx).
  apply in_map_iff in Hy. destruct Hy as (wy & <- & Hy).
  unfold sessionWindows, joinParent in Hx, Hy.
  apply in_flat_map in Hx. destruct Hx as (r1 & Hr1 & Hx).
  apply in_flat_map in Hy. destruct Hy as (r2 & Hr2 & Hy).
  apply filter_In in Hr1. destruct Hr1 as [Hin1 Hs1].
  apply filter_In in Hr2. destruct Hr2 as [Hin2 Hs2].
  unfold sessionOf in Hs1, Hs2.
  apply andb_true_iff in Hs1. destruct Hs1 as [Hu1 Hsid1].
  apply andb_true_iff in Hs2. destruct Hs2 as [Hu2 Hsid2].
  apply strictEq_true_iff in Hu1, Hu2. apply Z.eqb_eq in Hsid1, Hsid2.
  assert (Hpkg : QuizSession.packageId r1 = QuizSession.packageId r2)
    by (apply Hone; congruence).
  rewrite Hpkg in Hx.
  destruct (packageOf s (QuizSession.packageId r2)) as [p|]; [|destruct Hx].
  destruct Hx as [<- | []]. destruct Hy as [<- | []]. reflexivity.
Qed.

(** X15: submitting a quiz reveals nothing.  Let the sessions any one user
    has for the subtest asked about all name the same package.  Whatever
    session is submitted, whether or not the call succeeds, and in whatever
    order the store keeps its sessions after the update,
    [getQuestionsBySubtest] returns afterwards, on the same clock readings,
    exactly what it returned before, since only the package's [TOend] opens
    the answers. *)
Theorem submitQuiz_reveals_nothing
    (ctx ctx' : User.t) (sessionId : Z) (w : World)
    (input : GetQuestionsInput.t) (after : Store)
    (clk : nat -> Z) (n : nat) (j j' : list DbOp) :
  onePackagePerSubtest (quizSession (db w)) (GetQuestionsInput.subtestId input) ->
  Permutation (quizSession after)
              (quizSession (db (snd (submitQuiz ctx sessionId w)))) ->
  sameButQuizSessions (db (snd (submitQuiz ctx sessionId w))) after ->
  fst (getQuestionsBySubtest ctx' input (mkWorld after clk n j'))
  = fst (getQuestionsBySubtest ctx' input (mkWorld (db w) clk n j)).
Proof.
  intros Hone Hperm Hsame.
  set (u := scopedUser ctx' input).
  set (sid := GetQuestionsInput.subtestId input).
  assert (Hsubmitted :
            map SessionWindow.package_TOend
              (sessionWindows (db (snd (submitQuiz ctx sessionId w))) u sid)
            = map SessionWindow.package_TOend (sessionWindows (db w) u sid)
            /\ package (db (snd (submitQuiz ctx sessionId w))) = package (db w)
            /\ question (db (snd (submitQuiz ctx sessionId w))) = question (db w)
            /\ answer (db (snd (submitQuiz ctx sessionId w))) = answer (db w)).
  { unfold submitQuiz, bind, newDate, quizSession_update, mutation. simpl.
    destruct (find (hasSessionId sessionId) (quizSession (db w))) as [r|]; simpl.
    - split; [|repeat split].
      apply sessionWindows_map. intro x.
      destruct (hasSessionId sessionId x); simpl; auto.
    - repeat split. }
  destruct Hsubmitted as (Hwin & Hp & Hq & Ha).
  unfold sameButQuizSessions in Hsame.
  assert (Hp' : package after = package (db w))
    by (rewrite <- Hp, <- Hsame; reflexivity).
  assert (Hq' : question after = question (db w))
    by (rewrite <- Hq, <- Hsame; reflexivity).
  assert (Ha' : answer after = answer (db w))
    by (rewrite <- Ha, <- Hsame; reflexivity).
  apply getQuestionsBySubtest_depends; simpl; try reflexivity; try assumption.
  rewrite <- !head_map.
  apply head_uniform.
  - match goal with
    | |- Permutation _ ?l =>
        change l with (map SessionWindow.package_TOend (sessionWindows (db w) u sid))
    end.
    rewrite <- Hwin. apply sessionWindows_Permutation; [|exact Hperm].
    rewrite Hp. exact Hp'.
  - apply sessionWindows_uniform. exact Hone.
Qed.

Lemma submitQuiz_reveals_nothing_witness :
  fst (getQuestionsBySubtest student (GetQuestionsInput.mk 1 None)
         (mkWorld repeatedStoreSubmitted (constClock 1000) 0 []))
  = fst (getQuestionsBySubtest student (GetQuestionsInput.mk 1 None)
           (worldOf repeatedStore 1000)).
Proof.
  apply (submitQuiz_reveals_nothing student student 1 (worldOf repeatedStore 1000)
           (GetQuestionsInput.mk 1 None) repeatedStoreSubmitted
           (constClock 1000) 0 [] []).
  - intros r1 r2 H1 H2 _ _ _. simpl in H1, H2.
    destruct H1 as [<- | [<- | []]]; destruct H2 as [<- | [<- | []]]; reflexivity.
  - apply perm_swap.
  - reflexivity.
Defined.

(** X16: the [userId] parameter of [getQuestionsBySubtest] only works for an
    administrator.  A caller with any other role gets what the call without
    it gives, and an administrator who names a user gets what that user's
    own call gives. *)
Theorem getQuestionsBySubtest_scope
    (ctx : User.t) (subtestId : Z) (target : jsstring) (w : World) :
  (User.role ctx <> js "admin" ->
   getQuestionsBySubtest ctx (GetQuestionsInput.mk subtestId (Some target)) w
   = getQuestionsBySubtest ctx (GetQuestionsInput.mk subtestId None) w)
  /\ (User.role ctx = js "admin" ->
      forall role,
        getQuestionsBySubtest ctx (GetQuestionsInput.mk subtestId (Some target)) w
        = getQuestionsBySubtest (User.mk target role)
            (GetQuestionsInput.mk subtestId None) w).
Proof.
  split.
  - intro Hr. apply strictEq_false_iff in Hr.
    unfold getQuestionsBySubtest, scopedUser. simpl. rewrite Hr. reflexivity.
  - intros Hr role.
    unfold getQuestionsBySubtest, scopedUser. simpl.
    rewrite Hr, strictEq_refl. simpl.
    destruct (strictEq role (js "admin")); reflexivity.
Qed.

Lemma getQuestionsBySubtest_scope_witness :
  getQuestionsBySubtest otherStudent (GetQuestionsInput.mk 1 (Some (js "u1")))
    (worldOf (exampleStore 500) 1000)
  = getQuestionsBySubtest otherStudent (GetQuestionsInput.mk 1 None)
      (worldOf (exampleStore 500) 1000)
  /\ getQuestionsBySubtest admin (GetQuestionsInput.mk 1 (Some (js "u1")))
       (worldOf (exampleStore 500) 1000)
     = getQuestionsBySubtest student (GetQuestionsInput.mk 1 None)
         (worldOf (exampleStore 500) 1000).
Proof.
  split.
  - apply (getQuestionsBySubtest_scope otherStudent 1 (js "u1")). discriminate.
  - apply (proj2 (getQuestionsBySubtest_scope admin 1 (js "u1")
                    (worldOf (exampleStore 500) 1000)) eq_refl (js "user")).
Defined.

(** ** Announcement: reading back, partial updates and repetition *)

(** X17: on a store that holds at most the Announcement row with id 1 (and
    whose id sequence stands at 1 if it holds none), what
    [upsertAnnouncement] returns is what [getAnnouncement] then returns. *)
Theorem upsertAnnouncement_then_getAnnouncement
    (ctx ctx' : User.t) (input : AnnouncementInput.t) (w : World) :
  announcementSingleton (db w) ->
  exists r,
    fst (upsertAnnouncement ctx input w) = Return r
    /\ fst (getAnnouncement ctx' (snd (upsertAnnouncement ctx input w)))
       = Return (Some r).
Proof.
  intro Hinv.
  destruct (upsertAnnouncement_step ctx input w Hinv) as (r & Hrun & _ & Hrows & _).
  exists r. split; [exact Hrun|].
  unfold getAnnouncement, query. simpl. rewrite Hrows. reflexivity.
Qed.

Lemma upsertAnnouncement_then_getAnnouncement_witness :
  fst (getAnnouncement student
         (snd (upsertAnnouncement admin helloAnnouncement (worldOf emptyStore 0))))
  = Return (Some (Announcement.mk 1 (Some (js "Hello"))
                    (Some (js "Tryout 1 is open")) None)).
Proof.
  destruct (upsertAnnouncement_then_getAnnouncement admin student
              helloAnnouncement (worldOf emptyStore 0))
    as (r & Hrun & Hget).
  - left. split; reflexivity.
  - inversion Hrun; subst r. exact Hget.
Defined.


Lemma orKeep_twice {A} (new old : option A) :
  orKeep new (orKeep new old) = orKeep new old.
Proof. destruct new; reflexivity. Qed.

Lemma announcementUpdate_twice (input : AnnouncementInput.t) (r : Announcement.t) :
  announcementUpdate input (announcementUpdate input r) = announcementUpdate input r.
Proof. unfold announcementUpdate. simpl. rewrite !orKeep_twice. reflexivity. Qed.

Lemma announcementUpdate_empty (r : Announcement.t) :
  announcementUpdate emptyAnnouncement r = r.
Proof. destruct r; reflexivity. Qed.

Lemma upsertAnnouncement_hit (ctx : User.t) (input : AnnouncementInput.t)
    (w : World) (old : Announcement.t) :
  find (isId 1) (announcement (db w)) = Some old ->
  upsertAnnouncement ctx input w
  = (Return (announcementUpdate input old),
     mkWorld (setAnnouncement
                (map (fun x => if isId 1 x then announcementUpdate input x else x)
                     (announcement (db w)))
                (announcementSeq (db w)) (db w))
             (clock w) (reads w) (journal w ++ [AnnouncementUpsert])).
Proof.
  intro Hf. unfold upsertAnnouncement, announcement_upsert, mutation.
  rewrite Hf. reflexivity.
Qed.

(** X18: when the Announcement row with id 1 is stored, [upsertAnnouncement]
    never throws and never adds a row or draws an id: it returns that row
    with the fields the payload carries replaced and the others kept, rows
    with another id are untouched, and a payload that carries no field
    leaves the store exactly as it was. *)
Theorem upsertAnnouncement_partial_update
    (ctx : User.t) (input : AnnouncementInput.t) (w : World) (old : Announcement.t) :
  find (isId 1) (announcement (db w)) = Some old ->
  exists w',
    upsertAnnouncement ctx input w = (Return (announcementUpdate input old), w')
    /\ announcementSeq (db w') = announcementSeq (db w)
    /\ Forall2 (fun o n =>
                  Announcement.id n = Announcement.id o
                  /\ (Announcement.id o <> 1 -> n = o)
                  /\ (Announcement.id o = 1 -> n = announcementUpdate input o))
               (announcement (db w)) (announcement (db w'))
    /\ (input = emptyAnnouncement -> db w' = db w).
Proof.
  intro Hf. rewrite (upsertAnnouncement_hit ctx input w old Hf).
  eexists. split; [reflexivity|]. simpl. split; [reflexivity|]. split.
  - clear Hf. induction (announcement (db w)) as [|x l IH]; simpl; constructor;
      [|exact IH].
    unfold isId. destruct (Z.eqb_spec (Announcement.id x) 1); simpl;
      repeat split; try reflexivity; try contradiction; auto.
  - intros ->.
    rewrite (map_ext _ (fun x => x)), map_id;
      [destruct (db w); reflexivity|].
    intro x. rewrite announcementUpdate_empty. destruct (isId 1 x); reflexivity.
Qed.

Lemma upsertAnnouncement_partial_update_witness :
  exists w',
    upsertAnnouncement admin closingAnnouncement (worldOf crowdedStore 0)
    = (Return (Announcement.mk 1 (Some (js "Hello"))
                 (Some (js "Tryout 1 is closed")) None), w')
    /\ announcementSeq (db w') = 3.
Proof.
  destruct (upsertAnnouncement_partial_update admin closingAnnouncement
              (worldOf crowdedStore 0)
              (Announcement.mk 1 (Some (js "Hello")) (Some (js "Open")) None)
              eq_refl)
    as (w' & Hrun & Hseq & _).
  exists w'. split; [exact Hrun | exact Hseq].
Defined.

Lemma find_map_same {A} (P : A -> bool) (g : A -> A) (l : list A) :
  (forall x, P (g x) = P x) -> find P (map g l) = option_map g (find P l).
Proof.
  intro Hg. induction l as [|x l IH]; simpl; [reflexivity|].
  rewrite Hg. destruct (P x); [reflexivity | exact IH].
Qed.

Lemma find_none_map {A} (P : A -> bool) (g : A -> A) (l : list A) :
  find P l = None -> map (fun x => if P x then g x else x) l = l.
Proof.
  intro Hf. rewrite <- (map_id l) at 2. apply map_ext_in. intros x Hx.
  rewrite (find_none _ _ Hf x Hx). reflexivity.
Qed.

(** X19: [upsertAnnouncement] is idempotent whenever its first call ends
    with the row with id 1 in the store, that is when the row was there or
    the store gives id 1 to the row it creates: a second call with the same
    payload returns the same row and leaves the store as the first call
    left it. *)
Theorem upsertAnnouncement_idempotent
    (ctx : User.t) (input : AnnouncementInput.t) (w : World) :
  find (isId 1) (announcement (db w)) <> None \/ announcementSeq (db w) = 1 ->
  let w1 := snd (upsertAnnouncement ctx input w) in
  (exists r, fst (upsertAnnouncement ctx input w) = Return r
             /\ fst (upsertAnnouncement ctx input w1) = Return r)
  /\ db (snd (upsertAnnouncement ctx input w1)) = db w1.
Proof.
  intro H. cbv zeta.
  set (g := fun x => if isId 1 x then announcementUpdate input x else x).
  assert (Hg : forall x, isId 1 (g x) = isId 1 x).
  { intro x. unfold g. destruct (isId 1 x) eqn:E; [|exact E]. exact E. }
  assert (Hgg : forall x, g (g x) = g x).
  { intro x. unfold g at 1. rewrite Hg. unfold g.
    destruct (isId 1 x); [apply announcementUpdate_twice | reflexivity]. }
  destruct (find (isId 1) (announcement (db w))) as [old|] eqn:Hf.
  - rewrite (upsertAnnouncement_hit ctx input w old Hf). simpl.
    assert (Hf1 : find (isId 1) (map g (announcement (db w))) = Some (g old)).
    { rewrite find_map_same by exact Hg. rewrite Hf. reflexivity. }
    assert (Hold : g old = announcementUpdate input old).
    { unfold g. destruct (find_some _ _ Hf) as [_ ->]. reflexivity. }
    rewrite (upsertAnnouncement_hit ctx input _ (g old)) by exact Hf1. simpl.
    split.
    + exists (announcementUpdate input old). split; [reflexivity|].
      rewrite Hold, announcementUpdate_twice. reflexivity.
    + fold g. rewrite map_map. rewrite (map_ext _ g) by exact Hgg.
      destruct (db w); reflexivity.
  - destruct H as [H|Hseq]; [congruence|].
    assert (Hfree : existsb (isId 1) (announcement (db w)) = false).
    { apply not_true_is_false. intro He. apply existsb_exists in He.
      destruct He as (x & Hx & Hid). rewrite (find_none _ _ Hf x Hx) in Hid.
      discriminate. }
    set (c := Announcement.mk 1 (AnnouncementInput.title input)
                (AnnouncementInput.content input) (AnnouncementInput.url input)).
    assert (Hrun : upsertAnnouncement ctx input w
                   = (Return c,
                      mkWorld (setAnnouncement (announcement (db w) ++ [c]) 2 (db w))
                              (clock w) (reads w)
                              (journal w ++ [AnnouncementUpsert]))).
    { unfold upsertAnnouncement, announcement_upsert, mutation.
      rewrite Hf, Hseq, Hfree. reflexivity. }
    rewrite Hrun. simpl.
    assert (Hc : announcementUpdate input c = c).
    { unfold announcementUpdate, c. simpl.
      destruct (AnnouncementInput.title input), (AnnouncementInput.content input),
               (AnnouncementInput.url input); reflexivity. }
    assert (Hf1 : find (isId 1) (announcement (db w) ++ [c]) = Some c).
    { rewrite (find_app_first (isId 1) _ c eq_refl), Hf. reflexivity. }
    rewrite (upsertAnnouncement_hit ctx input _ c) by exact Hf1. simpl.
    split.
    + exists c. split; [reflexivity | rewrite Hc; reflexivity].
    + fold g. rewrite map_app. simpl. unfold g at 2. simpl. rewrite Hc.
      unfold g. rewrite (find_none_map _ _ _ Hf). reflexivity.
Qed.

Lemma upsertAnnouncement_idempotent_witness :
  db (snd (upsertAnnouncement admin helloAnnouncement
             (snd (upsertAnnouncement admin helloAnnouncement
                     (worldOf emptyStore 0)))))
  = db (snd (upsertAnnouncement admin helloAnnouncement (worldOf emptyStore 0))).
Proof.
  apply (upsertAnnouncement_idempotent admin helloAnnouncement
           (worldOf emptyStore 0)).
  right. reflexivity.
Defined.

Lemma find_none_all {A} (P : A -> bool) (l : list A) :
  (forall x, In x l -> P x = false) -> find P l = None.
Proof.
  induction l as [|x l IH]; intro H; simpl; [reflexivity|].
  rewrite (H x (or_introl eq_refl)). apply IH. intros y Hy. apply H. right. exact Hy.
Qed.

Lemma upsertAnnouncement_astray_step (ctx : User.t) (input : AnnouncementInput.t)
    (w : World) :
  announcementAstray (db w) ->
  let w' := snd (upsertAnnouncement ctx input w) in
  announcementAstray (db w')
  /\ List.length (announcement (db w')) = S (List.length (announcement (db w)))
  /\ exists r, fst (upsertAnnouncement ctx input w) = Return r
               /\ Announcement.id r = announcementSeq (db w).
Proof.
  intros [Hseq Hall]. cbv zeta.
  assert (Hf : find (isId 1) (announcement (db w)) = None).
  { apply find_none_all. intros x Hx. rewrite Forall_forall in Hall.
    destruct (Hall x Hx) as [Hne _]. unfold isId. apply Z.eqb_neq, Hne. }
  assert (Hfree : existsb (isId (announcementSeq (db w))) (announcement (db w)) = false).
  { apply not_true_is_false. intro He. apply existsb_exists in He.
    destruct He as (x & Hx & Hid). rewrite Forall_forall in Hall.
    destruct (Hall x Hx) as [_ Hlt]. unfold isId in Hid.
    apply Z.eqb_eq in Hid. lia. }
  unfold upsertAnnouncement, announcement_upsert, mutation.
  rewrite Hf, Hfree. simpl. split; [|split].
  - unfold announcementAstray. simpl. split; [lia|]. apply Forall_app. split.
    + eapply Forall_impl; [|exact Hall]. simpl. intros x [H1 H2]. split; [exact H1|lia].
    + constructor; [|constructor]. simpl. lia.
  - rewrite length_app. simpl. lia.
  - eexists. split; reflexivity.
Qed.

(** X20: when no Announcement row has id 1 and the store's next id is past
    1 (and past every stored id), [upsertAnnouncement] finds nothing to
    update and the row it creates does not get id 1 either: every call
    returns and adds one more row, so a sequence of calls adds as many rows
    as it has calls. *)
Theorem upsertAnnouncement_astray_multiplies
    (ctx : User.t) (inputs : list AnnouncementInput.t) (w : World) :
  announcementAstray (db w) ->
  announcementAstray (db (upsertAnnouncements ctx inputs w))
  /\ List.length (announcement (db (upsertAnnouncements ctx inputs w)))
     = (List.length (announcement (db w)) + List.length inputs)%nat.
Proof.
  unfold upsertAnnouncements. revert w.
  induction inputs as [|input inputs IH]; intros w Hinv; simpl.
  - split; [exact Hinv | lia].
  - destruct (upsertAnnouncement_astray_step ctx input w Hinv) as (Hinv1 & Hlen & _).
    destruct (IH _ Hinv1) as (Hinv2 & Hlen2).
    split; [exact Hinv2|]. rewrite Hlen2, Hlen. lia.
Qed.

Lemma upsertAnnouncement_astray_multiplies_witness :
  List.length
    (announcement
       (db (upsertAnnouncements admin
              [helloAnnouncement; helloAnnouncement; closingAnnouncement]
              (worldOf strayStore 0))))
  = 4%nat.
Proof.
  apply (upsertAnnouncement_astray_multiplies admin
           [helloAnnouncement; helloAnnouncement; closingAnnouncement]
           (worldOf strayStore 0)).
  split; [reflexivity|]. repeat constructor; discriminate.
Defined.

(** ** The answer router *)

Lemma insertAnswerByIndex_perm (a : Answer.t) (l : list Answer.t) :
  Permutation (insertAnswerByIndex a l) (a :: l).
Proof.
  induction l as [|x l IH]; simpl; [apply Permutation_refl|].
  destruct (Answer.index a <=? Answer.index x).
  - apply Permutation_refl.
  - eapply perm_trans; [apply perm_skip, IH | apply perm_swap].
Qed.

Lemma orderAnswersByIndexAsc_perm (l : list Answer.t) :
  Permutation (orderAnswersByIndexAsc l) l.
Proof.
  induction l as [|a l IH]; simpl; [constructor|].
  eapply perm_trans; [apply insertAnswerByIndex_perm | apply perm_skip, IH].
Qed.

Lemma insertAnswerByIndex_sorted (a : Answer.t) (l : list Answer.t) :
  StronglySorted answerIndexLe l -> StronglySorted answerIndexLe (insertAnswerByIndex a l).
Proof.
  induction l as [|x l IH]; intro Hs; simpl.
  - constructor; constructor.
  - inversion Hs as [|? ? Hl Hx]; subst.
    destruct (Z.leb_spec (Answer.index a) (Answer.index x)) as [Hax|Hax].
    + constructor; [exact Hs|].
      constructor; [exact Hax|].
      eapply Forall_impl; [|exact Hx].
      intros y Hy. unfold answerIndexLe in *. lia.
    + constructor; [apply IH, Hl|].
      eapply Permutation_Forall;
        [apply Permutation_sym, insertAnswerByIndex_perm|].
      constructor; [unfold answerIndexLe; lia | exact Hx].
Qed.

Lemma orderAnswersByIndexAsc_sorted (l : list Answer.t) :
  StronglySorted answerIndexLe (orderAnswersByIndexAsc l).
Proof.
  induction l as [|a l IH]; simpl; [constructor|].
  apply insertAnswerByIndex_sorted, IH.
Qed.

(** X21: [getAnswer] always returns a list, never null: the stored answer
    choices of the question, each once, in ascending order of [index], and
    the empty list when the question has none or does not exist.  It makes
    one ORM call and leaves the store as it was. *)
Theorem getAnswer_sorted (ctx : User.t) (questionId : Z) (w : World) :
  exists answers,
    getAnswer ctx questionId w
    = (Return (Some answers),
       mkWorld (db w) (clock w) (reads w) (journal w ++ [AnswerFindMany]))
    /\ Permutation answers
         (filter (fun a => Answer.questionId a =? questionId) (answer (db w)))
    /\ StronglySorted answerIndexLe answers
    /\ Forall (fun a => Answer.questionId a = questionId) answers
    /\ List.length answers
       = List.length
           (filter (fun a => Answer.questionId a =? questionId) (answer (db w))).
Proof.
  exists (orderAnswersByIndexAsc (answersOf (db w) questionId)).
  split; [reflexivity|].
  pose proof (orderAnswersByIndexAsc_perm (answersOf (db w) questionId)) as Hp.
  split; [exact Hp|]. split; [apply orderAnswersByIndexAsc_sorted|]. split.
  - eapply Permutation_Forall; [apply Permutation_sym, Hp|].
    apply Forall_forall. intros a Ha. apply filter_In in Ha.
    apply Z.eqb_eq, Ha.
  - apply Permutation_length, Hp.
Qed.

(** ** Drill subtests *)

(** X22: [getDrillSubtest] returns exactly the subtests of the requested
    type whose package is of type "drill", each with its own id and
    duration and its package's id and name; a subtest of any other package
    is never returned. *)
Theorem getDrillSubtest_content
    (ctx : User.t) (subtestType : jsstring) (w : World) (d : DrillSubtest.t) :
  (exists drills w',
      getDrillSubtest ctx subtestType w = (Return drills, w') /\ db w' = db w)
  /\ (In d (match fst (getDrillSubtest ctx subtestType w) with
            | Return drills => drills
            | Throw _ => []
            end)
      <-> exists t p,
            In t (subtest (db w)) /\ In p (package (db w))
            /\ packageOf (db w) (Subtest.packageId t) = Some p
            /\ Package.id p = Subtest.packageId t
            /\ Package.type p = js "drill"
            /\ Subtest.type t = subtestType
            /\ d = DrillSubtest.mk (Subtest.id t) (Subtest.duration t)
                     (Package.id p) (Package.name p)).
Proof.
  split; [eexists; eexists; split; reflexivity|].
  unfold getDrillSubtest, query, joinParent. simpl. rewrite in_flat_map. split.
  - intros (t & Ht & Hd). apply filter_In in Ht. destruct Ht as [Hin Hdrill].
    unfold isDrill in Hdrill.
    destruct (packageOf (db w) (Subtest.packageId t)) as [p|] eqn:Hp;
      [|discriminate].
    destruct Hd as [<-|[]].
    apply andb_true_iff in Hdrill. destruct Hdrill as [Hty Hst].
    apply strictEq_true_iff in Hty. apply strictEq_true_iff in Hst.
    unfold packageOf in Hp. destruct (find_some _ _ Hp) as [Hpin Hpid].
    apply Z.eqb_eq in Hpid.
    exists t, p. repeat split; assumption.
  - intros (t & p & Hin & _ & Hp & _ & Hty & Hst & ->).
    exists t. split.
    + apply filter_In. split; [exact Hin|]. unfold isDrill.
      rewrite Hp, Hty, Hst, !strictEq_refl. reflexivity.
    + rewrite Hp. left. reflexivity.
Qed.

Lemma getDrillSubtest_content_witness :
  fst (getDrillSubtest student (js "pu") (worldOf drillStore 0))
  = Return [DrillSubtest.mk 2 15 2 (js "Drill PU")]
  /\ In (DrillSubtest.mk 2 15 2 (js "Drill PU"))
        (match fst (getDrillSubtest student (js "pu") (worldOf drillStore 0)) with
         | Return drills => drills
         | Throw _ => []
         end).
Proof.
  split; [reflexivity|].
  apply (getDrillSubtest_content student (js "pu") (worldOf drillStore 0)).
  exists (Subtest.mk 2 (js "pu") 15 2),
         (Package.mk 2 (js "Drill PU") (js "drill") 1 0 0).
  repeat split; try reflexivity.
  - right. left. reflexivity.
  - right. left. reflexivity.
Defined.
